(** * Audio wipeout cloud function: a shallow embedding of [src/main.py]

    The repository is one HTTP-triggered handler,
    [fetch_redacted_transcripts_and_delete_audio].  It validates the request,
    resolves a brand configuration, runs one BigQuery query, and for every
    result row lists and deletes the objects under a rendered Cloud Storage
    prefix, appending one row to an audit table per deleted folder.

    The development is organised as the program is:
    - [Py]: the pieces of the Python runtime the handler relies on
      (exceptions, truthiness, [str.lower], [str.format], [datetime]);
    - [Flask]: the request object and the handler's return value;
    - [Cloud]: the two managed services (BigQuery tables and the SQL the
      handler builds, Cloud Storage buckets) with their client calls;
    - [Main]: the module-level configuration and the handler itself;
    - the vocabulary of the properties and a small deployment ([Demo]) on
      which they are exercised;
    - lemmas on the deletion loop, the audit row, the loop over the result
      rows and the rendering of templates;
    - the specified behaviour, one theorem per statement, each followed
      at the end of the file by its instance on the small deployment.

    [print] calls only write to standard output; they are left out of the
    embedding (none of them can raise). *)

From Stdlib Require Import ZArith Ascii String List Bool Lia DecimalString.
From stdpp Require Import base option list gmap strings.

Set Warnings "-register-all,-clear-no-such-hyp".
Local Open Scope string_scope.
Local Open Scope list_scope.

(* ===================================================================== *)
(** ** The Python runtime *)
(* ===================================================================== *)

Module Py.

(** An exception instance: its class name and [str(e)].  Every exception of
    the model is a subclass of [Exception], so [except Exception] catches
    all of them. *)
Record exn := Exn { exn_class : string; exn_str : string }.

(** The outcome of an expression that either has a value or raises. *)
Inductive result (A : Type) : Type :=
| Ok (a : A)
| Raise (e : exn).
Arguments Ok {A} a.
Arguments Raise {A} e.

#[global] Instance exn_eq_dec : EqDecision exn.
Proof. solve_decision. Defined.

Definition ValueError (msg : string) : exn := Exn "ValueError" msg.
Definition IndexError (msg : string) : exn := Exn "IndexError" msg.
Definition TypeError (msg : string) : exn := Exn "TypeError" msg.
Definition AttributeError (msg : string) : exn := Exn "AttributeError" msg.
(** [str(KeyError(k))] is [repr(k)]; for a key without quotes or escapes
    that is the key between single quotes. *)
Definition KeyError (key : string) : exn := Exn "KeyError" ("'" +:+ key +:+ "'").

(** *** Strings *)

Definition str1 (c : ascii) : string := String c EmptyString.

(** Truthiness of an optional string ([None] and the empty string are
    falsy): the test behind [if not x] on the result of [dict.get]. *)
Definition truthy (o : option string) : bool :=
  match o with
  | Some s => negb (String.eqb s "")
  | None => false
  end.

(** [str.lower] on ASCII text: the letters A-Z become a-z and every other
    character is kept.  ([str.lower] also maps the capital letters beyond
    ASCII; text with such letters is outside this function.) *)
Definition lower_char (c : ascii) : ascii :=
  let n := nat_of_ascii c in
  if (65 <=? n)%nat && (n <=? 90)%nat then ascii_of_nat (n + 32) else c.

Fixpoint lower (s : string) : string :=
  match s with
  | EmptyString => EmptyString
  | String c s' => String (lower_char c) (lower s')
  end.

(** [needle in hay] on strings: a substring test. *)
Fixpoint contains (needle hay : string) : bool :=
  String.prefix needle hay ||
  match hay with
  | EmptyString => false
  | String _ hay' => contains needle hay'
  end.

(** [str(n)] for a non-negative integer. *)
Definition str_of_N (n : N) : string := NilZero.string_of_uint (N.to_uint n).
Definition str_of_nat (n : nat) : string := str_of_N (N.of_nat n).

(** [sep.join(parts)]. *)
Fixpoint join (sep : string) (parts : list string) : string :=
  match parts with
  | [] => EmptyString
  | [p] => p
  | p :: ps => p +:+ sep +:+ join sep ps
  end.

(** [repr] of a list of strings without quotes or escapes, as the f-string
    of the unknown-brand message prints [list(BRAND_CONFIGS.keys())]. *)
Definition repr_str_list (l : list string) : string :=
  "[" +:+ join ", " (map (fun k => "'" +:+ k +:+ "'") l) +:+ "]".

(** *** [str.format] with keyword arguments that are strings

    The scanner follows CPython's [MarkupIterator_next] and [parse_field]:
    literal text is copied, a doubled brace is one brace, and a replacement
    field is looked up and rendered as soon as its closing brace is read, so
    the first error in reading order is the one raised.  A field that uses a
    conversion, a format specification, an attribute or an index (one of
    [!], [:], [.], [[]) leaves the fragment modelled here; the whole call is
    then answered by the runtime parameter [format_ext]. *)

Inductive fmt_state :=
| InText
| AfterOpen
| AfterClose
| InField (name : string).

Inductive fmt_scan :=
| Rendered (s : string)
| Failed (e : exn)
| Complex.

Definition is_digit (c : ascii) : bool :=
  let n := nat_of_ascii c in (48 <=? n)%nat && (n <=? 57)%nat.

Fixpoint all_digits (s : string) : bool :=
  match s with
  | EmptyString => true
  | String c s' => is_digit c && all_digits s'
  end.

Fixpoint digits_value (acc : Z) (s : string) : Z :=
  match s with
  | EmptyString => acc
  | String c s' => digits_value (10 * acc + (Z.of_nat (nat_of_ascii c) - 48)) s'
  end.

Definition PY_SSIZE_T_MAX : Z := 2 ^ 63 - 1.

Fixpoint assoc (kwargs : list (string * string)) (name : string) : option string :=
  match kwargs with
  | [] => None
  | (k, v) :: kwargs' => if String.eqb k name then Some v else assoc kwargs' name
  end.

(** The object a field name stands for when only keyword arguments were
    passed: an empty or numeric name indexes the (empty) positional tuple. *)
Definition lookup_field (kwargs : list (string * string)) (name : string) : result string :=
  if String.eqb name "" then
    Raise (IndexError "Replacement index 0 out of range for positional args tuple")
  else if all_digits name then
    if (PY_SSIZE_T_MAX <? digits_value 0 name)%Z
    then Raise (ValueError "Too many decimal digits in format string")
    else Raise (IndexError ("Replacement index " +:+ str_of_N (Z.to_N (digits_value 0 name))
                            +:+ " out of range for positional args tuple"))
  else
    match assoc kwargs name with
    | Some v => Ok v
    | None => Raise (KeyError name)
    end.

Definition leaves_fragment (c : ascii) : bool :=
  Ascii.eqb c "!" || Ascii.eqb c ":" || Ascii.eqb c "." || Ascii.eqb c "[".

Fixpoint scan (kwargs : list (string * string)) (st : fmt_state) (out tpl : string) : fmt_scan :=
  match tpl with
  | EmptyString =>
      match st with
      | InText => Rendered out
      | AfterOpen => Failed (ValueError "Single '{' encountered in format string")
      | AfterClose => Failed (ValueError "Single '}' encountered in format string")
      | InField _ => Failed (ValueError "expected '}' before end of string")
      end
  | String c rest =>
      let in_field (name : string) :=
        if Ascii.eqb c "}" then
          match lookup_field kwargs name with
          | Ok v => scan kwargs InText (out +:+ v) rest
          | Raise e => Failed e
          end
        else if Ascii.eqb c "{" then Failed (ValueError "unexpected '{' in field name")
        else if leaves_fragment c then Complex
        else scan kwargs (InField (name +:+ str1 c)) out rest in
      match st with
      | InText =>
          if Ascii.eqb c "{" then scan kwargs AfterOpen out rest
          else if Ascii.eqb c "}" then scan kwargs AfterClose out rest
          else scan kwargs InText (out +:+ str1 c) rest
      | AfterOpen =>
          if Ascii.eqb c "{" then scan kwargs InText (out +:+ "{") rest
          else in_field EmptyString
      | AfterClose =>
          if Ascii.eqb c "}" then scan kwargs InText (out +:+ "}") rest
          else Failed (ValueError "Single '}' encountered in format string")
      | InField name => in_field name
      end
  end.

(** [tpl.format(k1=v1, ...)] for the keyword arguments [kwargs]. *)
Definition format (format_ext : string -> list (string * string) -> result string)
    (tpl : string) (kwargs : list (string * string)) : result string :=
  match scan kwargs InText EmptyString tpl with
  | Rendered s => Ok s
  | Failed e => Raise e
  | Complex => format_ext tpl kwargs
  end.

(** *** [datetime]

    A timestamp is a count of microseconds since 1970-01-01T00:00:00Z, as
    BigQuery stores a TIMESTAMP.  The client library hands it to Python as
    a timezone-aware UTC [datetime]; [datetime.utcnow()] is naive. *)

Record datetime := {
  year : Z; month : Z; day : Z;
  hour : Z; minute : Z; second : Z; microsecond : Z;
  aware_utc : bool
}.

(** Days since the epoch to the proleptic Gregorian (year, month, day). *)
Definition civil_from_days (days : Z) : Z * Z * Z :=
  let z := (days + 719468)%Z in
  let era := (z / 146097)%Z in
  let doe := (z - era * 146097)%Z in
  let yoe := ((doe - doe / 1460 + doe / 36524 - doe / 146096) / 365)%Z in
  let doy := (doe - (365 * yoe + yoe / 4 - yoe / 100))%Z in
  let mp := ((5 * doy + 2) / 153)%Z in
  let d := (doy - (153 * mp + 2) / 5 + 1)%Z in
  let m := (if (mp <? 10)%Z then mp + 3 else mp - 9)%Z in
  let y := (yoe + era * 400 + (if (m <=? 2)%Z then 1 else 0))%Z in
  (y, m, d).

Definition datetime_of_micros (aware : bool) (us : Z) : datetime :=
  let secs := (us / 1000000)%Z in
  let days := (secs / 86400)%Z in
  let sod := (secs mod 86400)%Z in
  let '(y, m, d) := civil_from_days days in
  {| year := y; month := m; day := d;
     hour := (sod / 3600)%Z; minute := ((sod mod 3600) / 60)%Z; second := (sod mod 60)%Z;
     microsecond := (us mod 1000000)%Z;
     aware_utc := aware |}.

(** A number in decimal, zero-padded on the left to [width] digits. *)
Definition zpad (width : nat) (z : Z) : string :=
  let s := str_of_N (Z.to_N z) in
  String.concat EmptyString (repeat "0" (width - String.length s)) +:+ s.

(** [d.strftime("%Y-%m-%d")], the year written with four digits (as it
    is for every year from 1000 on). *)
Definition strftime_Ymd (d : datetime) : string :=
  zpad 4 (year d) +:+ "-" +:+ zpad 2 (month d) +:+ "-" +:+ zpad 2 (day d).

(** [d.isoformat()]: the fraction is printed when the microseconds are not
    zero, the offset when the value is timezone-aware. *)
Definition isoformat (d : datetime) : string :=
  strftime_Ymd d +:+ "T" +:+
  zpad 2 (hour d) +:+ ":" +:+ zpad 2 (minute d) +:+ ":" +:+ zpad 2 (second d) +:+
  (if (microsecond d =? 0)%Z then EmptyString else "." +:+ zpad 6 (microsecond d)) +:+
  (if aware_utc d then "+00:00" else EmptyString).

End Py.

(* ===================================================================== *)
(** ** The HTTP side: request payload and handler result *)
(* ===================================================================== *)

Module Flask.
Import Py.

(** A parsed JSON document as Python sees it (numbers are the integers). *)
Inductive json :=
| JNull
| JBool (b : bool)
| JNum (z : Z)
| JStr (s : string)
| JArr (items : list json)
| JObj (members : gmap string json).

(** [request.get_json(silent=True)]: [None] when the body is missing or is
    not JSON, the parsed document otherwise. *)
Record Request := { get_json : option json }.

(** What an invocation yields: the [(body, status)] tuple the handler
    returns, or an exception that leaves the handler. *)
Inductive outcome :=
| Returned (body : string) (status : nat)
| Unhandled (e : exn).

(** Truthiness of a parsed document. *)
Definition truthy_json (j : json) : bool :=
  match j with
  | JNull => false
  | JBool b => b
  | JNum z => negb (z =? 0)%Z
  | JStr s => negb (String.eqb s "")
  | JArr items => match items with [] => false | _ => true end
  | JObj members => negb (bool_decide (members = ∅))
  end.

(** [key in j]. *)
Definition py_in (key : string) (j : json) : result bool :=
  match j with
  | JObj members => Ok (match members !! key with Some _ => true | None => false end)
  | JArr items =>
      Ok (existsb (fun x => match x with JStr s => String.eqb s key | _ => false end) items)
  | JStr s => Ok (contains key s)
  | JNull => Raise (TypeError "argument of type 'NoneType' is not iterable")
  | JBool _ => Raise (TypeError "argument of type 'bool' is not iterable")
  | JNum _ => Raise (TypeError "argument of type 'int' is not iterable")
  end.

(** [j[key]] for a string key. *)
Definition getitem (j : json) (key : string) : result json :=
  match j with
  | JObj members =>
      match members !! key with
      | Some v => Ok v
      | None => Raise (KeyError key)
      end
  | JArr _ => Raise (TypeError "list indices must be integers or slices, not str")
  | JStr _ => Raise (TypeError "string indices must be integers, not 'str'")
  | JNull => Raise (TypeError "'NoneType' object is not subscriptable")
  | JBool _ => Raise (TypeError "'bool' object is not subscriptable")
  | JNum _ => Raise (TypeError "'int' object is not subscriptable")
  end.

(** [j.lower()]. *)
Definition lower_method (j : json) : result string :=
  match j with
  | JStr s => Ok (lower s)
  | JNull => Raise (AttributeError "'NoneType' object has no attribute 'lower'")
  | JBool _ => Raise (AttributeError "'bool' object has no attribute 'lower'")
  | JNum _ => Raise (AttributeError "'int' object has no attribute 'lower'")
  | JArr _ => Raise (AttributeError "'list' object has no attribute 'lower'")
  | JObj _ => Raise (AttributeError "'dict' object has no attribute 'lower'")
  end.

End Flask.

(* ===================================================================== *)
(** ** The managed services *)
(* ===================================================================== *)

Module Cloud.
Import Py.

(** *** Tables *)

(** One row of the transcripts table, with the three columns the query
    reads; each is nullable.  [userUtterances] stands for
    [STRING(derived_data.userUtterances)]. *)
Record Turn := {
  turn_request_time : option Z;
  conversation_name : option string;
  userUtterances : option string
}.

(** One row of the wipeout log table. *)
Record LogRow := {
  log_session_id : option string;
  request_timestamp : string;
  deleted_timestamp : string
}.

Inductive Table :=
| Transcripts (turns : list Turn)
| WipeoutLog (entries : list LogRow).

(** One result row of the handler's query.  The WHERE clause keeps only
    rows whose session id, agent id and request time are not NULL. *)
Record Row := {
  session_id : string;
  project_id : option string;
  agent_id : string;
  request_time : Z
}.

#[global] Instance Row_eq_dec : EqDecision Row.
Proof. solve_decision. Defined.

#[global] Instance LogRow_eq_dec : EqDecision LogRow.
Proof. solve_decision. Defined.

(** *** The query of lines 96-123

    The f-string has two holes: the transcripts table, and the LEFT JOIN
    with its [log.session_id IS NULL] filter, present exactly when a log
    table is configured. *)
Record Query := {
  q_transcripts : string;
  q_log : option string
}.

Definition dq : string := str1 (ascii_of_nat 34).
Definition nl : string := str1 (ascii_of_nat 10).

Definition join_clause (q : Query) : string :=
  match q_log q with
  | Some log => "LEFT JOIN `" +:+ log +:+ "` log ON T.session_id = log.session_id"
  | None => EmptyString
  end.

Definition where_clause_addition (q : Query) : string :=
  match q_log q with
  | Some _ => "AND log.session_id IS NULL"
  | None => EmptyString
  end.

Definition sql_text (q : Query) : string :=
  String.concat nl [
    EmptyString;
    "        WITH ConversationTurn AS (";
    "          SELECT";
    "            request_time,";
    "            SPLIT(conversation_name, " +:+ dq +:+ "/" +:+ dq +:+ ")[OFFSET(1)] AS project_id,";
    "            SPLIT(conversation_name, " +:+ dq +:+ "/" +:+ dq +:+ ")[OFFSET(5)] AS agent_id,";
    "            SPLIT(conversation_name, " +:+ dq +:+ "/" +:+ dq +:+ ")[OFFSET(7)] AS session_id,";
    "            STRING(derived_data.userUtterances) AS customer_utterance";
    "          FROM";
    "            `" +:+ q_transcripts q +:+ "`";
    "          WHERE";
    "            request_time >= TIMESTAMP_SUB(CURRENT_TIMESTAMP(), INTERVAL 60 MINUTE)";
    "        )";
    "        SELECT DISTINCT";
    "            T.session_id,";
    "            T.project_id,";
    "            T.agent_id,";
    "            T.request_time";
    "        FROM";
    "            ConversationTurn AS T";
    "            " +:+ join_clause q;
    "        WHERE";
    "            T.customer_utterance LIKE '%[redacted]%'";
    "            AND T.session_id IS NOT NULL";
    "            AND T.agent_id IS NOT NULL";
    "            AND T.request_time IS NOT NULL";
    "            " +:+ where_clause_addition q;
    "    "
  ].

(** [SPLIT(s, "/")]. *)
Fixpoint split_go (sep : ascii) (cur s : string) : list string :=
  match s with
  | EmptyString => [cur]
  | String c s' =>
      if Ascii.eqb c sep then cur :: split_go sep EmptyString s'
      else split_go sep (cur +:+ str1 c) s'
  end.

Definition SPLIT (s : string) : list string := split_go "/" EmptyString s.

(** [SPLIT(name, "/")[OFFSET(n)]]: NULL on a NULL name, a query error when
    the array is too short. *)
Definition split_offset (name : option string) (n : nat) : result (option string) :=
  match name with
  | None => Ok None
  | Some s =>
      match nth_error (SPLIT s) n with
      | Some part => Ok (Some part)
      | None => Raise (Exn "BadRequest"
                  ("Array index " +:+ str_of_nat n +:+ " is out of bounds"))
      end
  end.

(** A row of the common table expression [ConversationTurn]. *)
Record CTurn := {
  ct_request_time : Z;
  ct_project_id : option string;
  ct_agent_id : option string;
  ct_session_id : option string;
  customer_utterance : option string
}.

Definition sixty_minutes : Z := 60 * 60 * 1000000.

(** The CTE: the rows of the trailing 60 minutes (a NULL request time
    fails the comparison), with the identifiers cut out of the name. *)
Fixpoint ConversationTurn (now : Z) (turns : list Turn) : result (list CTurn) :=
  match turns with
  | [] => Ok []
  | t :: turns' =>
      match turn_request_time t with
      | Some rt =>
          if (now - sixty_minutes <=? rt)%Z then
            match split_offset (conversation_name t) 1,
                  split_offset (conversation_name t) 5,
                  split_offset (conversation_name t) 7 with
            | Ok p, Ok a, Ok s =>
                match ConversationTurn now turns' with
                | Ok cts =>
                    Ok ({| ct_request_time := rt; ct_project_id := p; ct_agent_id := a;
                           ct_session_id := s; customer_utterance := userUtterances t |} :: cts)
                | Raise e => Raise e
                end
            | Raise e, _, _ => Raise e
            | _, Raise e, _ => Raise e
            | _, _, Raise e => Raise e
            end
          else ConversationTurn now turns'
      | None => ConversationTurn now turns'
      end
  end.

(** [T.session_id = log.session_id] has a match in the log table. *)
Definition logged (entries : list LogRow) (sid : string) : bool :=
  existsb (fun r => match log_session_id r with
                    | Some s => String.eqb s sid
                    | None => false
                    end) entries.

(** The WHERE clause of the outer SELECT, on one row of the CTE (after the
    LEFT JOIN when there is one), and the four selected columns. *)
Definition select_row (log : option (list LogRow)) (t : CTurn) : option Row :=
  match customer_utterance t, ct_session_id t, ct_agent_id t with
  | Some u, Some sid, Some aid =>
      if contains "[redacted]" u &&
         negb (match log with Some entries => logged entries sid | None => false end)
      then Some {| session_id := sid; project_id := ct_project_id t;
                   agent_id := aid; request_time := ct_request_time t |}
      else None
  | _, _, _ => None
  end.

(** The whole query on the contents of its tables; SELECT DISTINCT removes
    repeated result rows. *)
Definition eval_query (now : Z) (turns : list Turn) (log : option (list LogRow))
    : result (list Row) :=
  match ConversationTurn now turns with
  | Ok cts => Ok (remove_dups (omap (select_row log) cts))
  | Raise e => Raise e
  end.

(** *** The world the clients act on *)

(** The API calls issued, oldest first. *)
Inductive Event :=
| EvQuery (sql : string)
| EvListBlobs (bucket prefix : string)
| EvDelete (bucket name : string)
| EvInsertRows (table : string) (rows : list LogRow).

Record World := {
  tables : gmap string Table;
  buckets : gmap string (gset string);
  trace : list Event
}.

Definition record_call (ev : Event) (w : World) : World :=
  {| tables := tables w; buckets := buckets w; trace := trace w ++ [ev] |}.

Definition set_tables (t : gmap string Table) (w : World) : World :=
  {| tables := t; buckets := buckets w; trace := trace w |}.

Definition set_buckets (b : gmap string (gset string)) (w : World) : World :=
  {| tables := tables w; buckets := b; trace := trace w |}.

Definition NotFound (what : string) : exn := Exn "NotFound" ("404 Not found: " +:+ what).

(** *** Clients

    A client carries the failures the service injects into its calls
    (outages, permissions, rejected rows); what the call does otherwise is
    determined by the world. *)

Inductive insert_fault :=
| InsertAccepted
| InsertRowErrors (errors : list string)
| InsertRaises (e : exn).

Record BigQueryClient := {
  query_fault : string -> option exn;
  insert_rows_fault : string -> list LogRow -> insert_fault
}.

Record StorageClient := {
  list_fault : string -> string -> option exn;
  delete_fault : string -> string -> option exn
}.

Definition lookup_transcripts (w : World) (path : string) : result (list Turn) :=
  match tables w !! path with
  | Some (Transcripts turns) => Ok turns
  | Some (WipeoutLog _) => Raise (Exn "BadRequest" ("Unrecognized name in " +:+ path))
  | None => Raise (NotFound ("Table " +:+ path))
  end.

Definition lookup_log (w : World) (path : string) : result (list LogRow) :=
  match tables w !! path with
  | Some (WipeoutLog entries) => Ok entries
  | Some (Transcripts _) => Raise (Exn "BadRequest" ("Unrecognized name in " +:+ path))
  | None => Raise (NotFound ("Table " +:+ path))
  end.

(** [bq_client.query(query)] with its rows iterated: the rows, or the
    exception the job ends with. *)
Definition run_query (c : BigQueryClient) (now : Z) (q : Query) (w : World)
    : World * result (list Row) :=
  let w' := record_call (EvQuery (sql_text q)) w in
  match query_fault c (sql_text q) with
  | Some e => (w', Raise e)
  | None =>
      match lookup_transcripts w (q_transcripts q) with
      | Raise e => (w', Raise e)
      | Ok turns =>
          match q_log q with
          | None => (w', eval_query now turns None)
          | Some path =>
              match lookup_log w path with
              | Raise e => (w', Raise e)
              | Ok entries => (w', eval_query now turns (Some entries))
              end
          end
      end
  end.

(** [bq_client.insert_rows_json(table, rows)]: raises, or returns the list
    of per-row errors (empty when the rows were appended). *)
Definition insert_rows_json (c : BigQueryClient) (table : string) (rows : list LogRow)
    (w : World) : World * result (list string) :=
  let w' := record_call (EvInsertRows table rows) w in
  match insert_rows_fault c table rows with
  | InsertRaises e => (w', Raise e)
  | InsertRowErrors errors => (w', Ok errors)
  | InsertAccepted =>
      match lookup_log w table with
      | Raise e => (w', Raise e)
      | Ok entries =>
          (set_tables (<[table := WipeoutLog (entries ++ rows)]> (tables w')) w', Ok [])
      end
  end.

(** [list(storage_client.bucket(bucket).list_blobs(prefix=prefix))], as
    object names. *)
Definition list_blobs (c : StorageClient) (bucket prefix : string) (w : World)
    : World * result (list string) :=
  let w' := record_call (EvListBlobs bucket prefix) w in
  match list_fault c bucket prefix with
  | Some e => (w', Raise e)
  | None =>
      match buckets w !! bucket with
      | None => (w', Raise (NotFound ("Bucket " +:+ bucket)))
      | Some objects => (w', Ok (List.filter (String.prefix prefix) (elements objects)))
      end
  end.

(** [blob.delete()]. *)
Definition blob_delete (c : StorageClient) (bucket name : string) (w : World)
    : World * option exn :=
  let w' := record_call (EvDelete bucket name) w in
  match delete_fault c bucket name with
  | Some e => (w', Some e)
  | None =>
      match buckets w !! bucket with
      | None => (w', Some (NotFound ("Object " +:+ name)))
      | Some objects =>
          if bool_decide (name ∈ objects)
          then (set_buckets (<[bucket := objects ∖ {[name]}]> (buckets w')) w', None)
          else (w', Some (NotFound ("Object " +:+ name)))
      end
  end.

End Cloud.

(* ===================================================================== *)
(** ** [main.py] *)
(* ===================================================================== *)

Module Main.
Import Py Flask Cloud.

(** *** Static brand configurations (lines 12-22) *)

Definition MCDONALDS_CONFIG : gmap string string :=
  {[ "TRANSCRIPTS_TABLE_PATH" := "mcdonalds-ttm.transcripts_decibel.prod";
     "BUCKET_NAME" := "mcdonalds-ttm-audio";
     "WIPEOUT_LOG_TABLE_PATH" := "foodai-analytics.audio_wipeout_dataset.mcdonalds_prod_log";
     "GCS_PATH_TEMPLATE" := "mcdonalds-ttm/{agent_id}/{date_str}/{session_id}/" ]}.

Definition BRAND_CONFIGS : gmap string (gmap string string) :=
  {[ "mcdonalds" := MCDONALDS_CONFIG ]}.

(** *** What the handler finds around it

    The module globals when a request arrives ([bq_client] and
    [storage_client] are [None] when their construction failed at import;
    [brand_configs] is the value of the global [BRAND_CONFIGS], which the
    module sets to the dictionary above and a deployment extends with
    further brands), the clock that [datetime.utcnow()] and
    [CURRENT_TIMESTAMP()] read (indexed by the number of API calls made so
    far), and Python's answer to [str.format] outside the modelled
    fragment.  [brand_configs] is a finite map: the unknown-brand message
    lists its keys in the map's order, where Python lists them in the
    order of insertion, and no statement below rests on that order. *)
Record Env := {
  bq_client : option BigQueryClient;
  storage_client : option StorageClient;
  brand_configs : gmap string (gmap string string);
  clock : nat -> Z;
  format_ext : string -> list (string * string) -> result string
}.

(** *** The handler's local state: four counters, and the world *)

Record State := {
  deleted_folder_count : nat;
  deleted_file_count : nat;
  scanned_session_count : nat;
  error_count : nat;
  world : World
}.

Definition initial (w : World) : State :=
  {| deleted_folder_count := 0; deleted_file_count := 0;
     scanned_session_count := 0; error_count := 0; world := w |}.

Definition set_world (w : World) (st : State) : State :=
  {| deleted_folder_count := deleted_folder_count st;
     deleted_file_count := deleted_file_count st;
     scanned_session_count := scanned_session_count st;
     error_count := error_count st; world := w |}.

Definition incr_scanned (st : State) : State :=
  {| deleted_folder_count := deleted_folder_count st;
     deleted_file_count := deleted_file_count st;
     scanned_session_count := scanned_session_count st + 1;
     error_count := error_count st; world := world st |}.

Definition incr_files (st : State) : State :=
  {| deleted_folder_count := deleted_folder_count st;
     deleted_file_count := deleted_file_count st + 1;
     scanned_session_count := scanned_session_count st;
     error_count := error_count st; world := world st |}.

Definition incr_folders (st : State) : State :=
  {| deleted_folder_count := deleted_folder_count st + 1;
     deleted_file_count := deleted_file_count st;
     scanned_session_count := scanned_session_count st;
     error_count := error_count st; world := world st |}.

Definition incr_errors (st : State) : State :=
  {| deleted_folder_count := deleted_folder_count st;
     deleted_file_count := deleted_file_count st;
     scanned_session_count := scanned_session_count st;
     error_count := error_count st + 1; world := world st |}.

(** Truthiness of [insert_errors] ([None] or a list). *)
Definition truthy_errors (o : option (list string)) : bool :=
  match o with
  | Some (_ :: _) => true
  | _ => false
  end.

(** Lines 151-154: the date of the request and the rendered prefix. *)
Definition render_prefix (ext : string -> list (string * string) -> result string)
    (gcs_path_template : string) (row : Row) : result string :=
  let date_str := strftime_Ymd (datetime_of_micros true (request_time row)) in
  format ext gcs_path_template
    [("agent_id", agent_id row); ("date_str", date_str); ("session_id", session_id row)].

Section Job.

(** The clients (not [None] past line 45) and the locals of lines 55-67. *)
Variable env : Env.
Variable bq : BigQueryClient.
Variable sc : StorageClient.
Variable brand : string.
Variable transcipts_table_path : string.
Variables gcs_bucket_name log_table_path gcs_path_template : option string.

(** Lines 170-172: the loop over the listed blobs.  A [Some e] is the
    exception [blob.delete()] raised; the blobs after it are not reached. *)
Fixpoint delete_blobs (bucket : string) (blobs_to_delete : list string) (st : State)
    : State * option exn :=
  match blobs_to_delete with
  | [] => (st, None)
  | blob :: rest =>
      match blob_delete sc bucket blob (world st) with
      | (w', Some e) => (set_world w' st, Some e)
      | (w', None) => delete_blobs bucket rest (incr_files (set_world w' st))
      end
  end.

(** Lines 178-196: the audit row.  [insert_errors] is assigned [None] and
    the value [insert_rows_json] returns is dropped, as in the source. *)
Definition log_deletion (row : Row) (st : State) : State * option exn :=
  match log_table_path with
  | Some table =>
      if truthy log_table_path then
        let rows_to_insert :=
          [ {| log_session_id := Some (session_id row);
               request_timestamp := isoformat (datetime_of_micros true (request_time row));
               deleted_timestamp :=
                 isoformat (datetime_of_micros false (clock env (length (trace (world st))))) |} ] in
        let insert_errors : option (list string) := None in
        match insert_rows_json bq table rows_to_insert (world st) with
        | (w', Raise e) => (set_world w' st, Some e)
        | (w', Ok _) =>
            if negb (truthy_errors insert_errors) then (set_world w' st, None)
            else (incr_errors (set_world w' st), None)
        end
      else (st, None)
  | None => (st, None)
  end.

(** Lines 160-196: the body of the inner [try].  [None] is a normal end
    (also the [continue] of line 167), [Some e] an exception on its way to
    the [except] of line 198. *)
Definition try_body (row : Row) (bucket gcs_folder_prefix : string) (st : State)
    : State * option exn :=
  match list_blobs sc bucket gcs_folder_prefix (world st) with
  | (w1, Raise e) => (set_world w1 st, Some e)
  | (w1, Ok blobs_to_delete) =>
      match blobs_to_delete with
      | [] => (set_world w1 st, None)
      | _ :: _ =>
          match delete_blobs bucket blobs_to_delete (set_world w1 st) with
          | (st2, Some e) => (st2, Some e)
          | (st2, None) => log_deletion row (incr_folders st2)
          end
      end
  end.

(** Lines 135-202: one iteration of the loop over the result rows.
    [Some e] is an exception that leaves the iteration, towards the
    [except] of line 204. *)
Definition process_row (row : Row) (st : State) : State * option exn :=
  let st := incr_scanned st in
  match gcs_bucket_name, gcs_path_template with
  | Some bucket, Some template =>
      if negb (truthy gcs_bucket_name) || negb (truthy gcs_path_template) then (st, None)
      else
        match render_prefix (format_ext env) template row with
        | Raise e => (st, Some e)
        | Ok gcs_folder_prefix =>
            match try_body row bucket gcs_folder_prefix st with
            | (st', None) => (st', None)
            | (st', Some _) => (incr_errors st', None)
            end
        end
  | _, _ => (st, None)
  end.

(** Line 134: the loop. *)
Fixpoint process_rows (rows : list Row) (st : State) : State * option exn :=
  match rows with
  | [] => (st, None)
  | row :: rest =>
      match process_row row st with
      | (st', None) => process_rows rest st'
      | (st', Some e) => (st', Some e)
      end
  end.

Definition job_failed_message (e : exn) : string :=
  "Job failed for brand '" +:+ brand +:+ "' with error: " +:+ exn_str e.

Definition summary_message (st : State) : string :=
  "Job finished for brand '" +:+ brand +:+ "'. Found "
  +:+ str_of_nat (scanned_session_count st) +:+ " sessions matching criteria. "
  +:+ "Successfully deleted " +:+ str_of_nat (deleted_folder_count st) +:+ " folders ("
  +:+ str_of_nat (deleted_file_count st) +:+ " total files). "
  +:+ "Encountered " +:+ str_of_nat (error_count st) +:+ " errors during GCS deletion.".

(** Lines 79-123: the query, with the join exactly when a log table is
    configured. *)
Definition query : Query :=
  {| q_transcripts := transcipts_table_path;
     q_log := if truthy log_table_path then log_table_path else None |}.

(** Lines 125-214: the outer [try], its [except], and the summary. *)
Definition run_job (w : World) : outcome * World :=
  match run_query bq (clock env (length (trace w))) query w with
  | (w1, Raise e) => (Returned (job_failed_message e) 500, w1)
  | (w1, Ok rows) =>
      match process_rows rows (initial w1) with
      | (st, Some e) => (Returned (job_failed_message e) 500, world st)
      | (st, None) => (Returned (summary_message st) 200, world st)
      end
  end.

End Job.

(** Line 52: [not request_json or "brand" not in request_json]. *)
Definition brand_missing (request_json : option json) : result bool :=
  match request_json with
  | None => Ok true
  | Some j =>
      if negb (truthy_json j) then Ok true
      else match py_in "brand" j with
           | Ok b => Ok (negb b)
           | Raise e => Raise e
           end
  end.

(** Line 55: [request_json["brand"].lower()]. *)
Definition brand_of (request_json : option json) : result string :=
  match request_json with
  | None => Raise (TypeError "'NoneType' object is not subscriptable")
  | Some j =>
      match getitem j "brand" with
      | Ok v => lower_method v
      | Raise e => Raise e
      end
  end.

(** The handler, lines 37-214.  It yields the response (or the exception
    that escapes) and the world it leaves behind. *)
Definition fetch_redacted_transcripts_and_delete_audio
    (env : Env) (request : Request) (w : World) : outcome * World :=
  match bq_client env, storage_client env with
  | Some bq, Some sc =>
      let request_json := get_json request in
      match brand_missing request_json with
      | Raise e => (Unhandled e, w)
      | Ok true => (Returned "Bad Request: Missing JSON payload with 'brand' key." 400, w)
      | Ok false =>
          match brand_of request_json with
          | Raise e => (Unhandled e, w)
          | Ok brand =>
              match brand_configs env !! brand with
              | Some config =>
                  if bool_decide (config = ∅) then
                    (Returned ("Configuration Error: Invalid brand '" +:+ brand
                               +:+ "'. Available brands: "
                               +:+ repr_str_list (map_to_list (brand_configs env)).*1) 400, w)
                  else
                    let transcipts_table_path := config !! "TRANSCRIPTS_TABLE_PATH" in
                    let gcs_bucket_name := config !! "BUCKET_NAME" in
                    let log_table_path := config !! "WIPEOUT_LOG_TABLE_PATH" in
                    let gcs_path_template := config !! "GCS_PATH_TEMPLATE" in
                    match transcipts_table_path with
                    | Some path =>
                        if truthy transcipts_table_path then
                          run_job env bq sc brand path
                                  gcs_bucket_name log_table_path gcs_path_template w
                        else
                          (Returned ("Configuration Error: 'TRANSCRIPTS_TABLE_PATH' not set for brand '"
                                     +:+ brand +:+ "'.") 500, w)
                    | None =>
                        (Returned ("Configuration Error: 'TRANSCRIPTS_TABLE_PATH' not set for brand '"
                                   +:+ brand +:+ "'.") 500, w)
                    end
              | None =>
                  (Returned ("Configuration Error: Invalid brand '" +:+ brand
                             +:+ "'. Available brands: "
                             +:+ repr_str_list (map_to_list (brand_configs env)).*1) 400, w)
              end
          end
      end
  | _, _ => (Returned "Cloud clients are not initialized. The function cannot proceed." 500, w)
  end.

End Main.

(* ===================================================================== *)
(** ** Vocabulary of the properties *)
(* ===================================================================== *)

Import Py Flask Cloud Main.

(** The state after the blobs [blobs] of [bucket] were deleted one by one,
    starting from [st] with the bucket holding [objects]. *)
Definition after_deletes (bucket : string) (objects : gset string) (blobs : list string)
    (st : State) : State :=
  {| deleted_folder_count := deleted_folder_count st;
     deleted_file_count := deleted_file_count st + length blobs;
     scanned_session_count := scanned_session_count st;
     error_count := error_count st;
     world := {| tables := tables (world st);
                 buckets := <[bucket := objects ∖ list_to_set blobs]> (buckets (world st));
                 trace := trace (world st) ++ map (EvDelete bucket) blobs |} |}.

(** The row the handler builds for a deleted session when [calls] API
    calls were made before the insert: the session id, the request time
    and the time of deletion, both as ISO-8601 text. *)
Definition audit_record (env : Env) (row : Row) (calls : nat) : LogRow :=
  {| log_session_id := Some (session_id row);
     request_timestamp := isoformat (datetime_of_micros true (request_time row));
     deleted_timestamp := isoformat (datetime_of_micros false (clock env calls)) |}.

(** The insert calls one deleted session gives rise to: one call with one
    row when a log table is configured, none otherwise. *)
Definition audit_calls (env : Env) (log_table_path : option string) (row : Row) (calls : nat)
    : list Event :=
  match log_table_path with
  | Some table =>
      if truthy log_table_path then [EvInsertRows table [audit_record env row calls]] else []
  | None => []
  end.

Definition same_counters (st st' : State) : Prop :=
  deleted_folder_count st' = deleted_folder_count st ∧
  deleted_file_count st' = deleted_file_count st ∧
  scanned_session_count st' = scanned_session_count st ∧
  error_count st' = error_count st.


(** Listing the prefix raises, or the listing succeeds and the deletion of
    one of the listed objects raises after those before it were deleted. *)
Definition storage_failure (sc : StorageClient) (bucket prefix : string) (w : World) : Prop :=
  (∃ e, (list_blobs sc bucket prefix w).2 = Raise e) ∨
  (∃ done bad rest e,
      (list_blobs sc bucket prefix w).2 = Ok (done ++ bad :: rest) ∧
      (∀ b, b ∈ done → delete_fault sc bucket b = None) ∧
      delete_fault sc bucket bad = Some e).

(** The request carries no JSON payload, or a payload without the key
    [brand]: a document that is not an object has no keys. *)
Definition no_brand_key (payload : option json) : Prop :=
  ∀ members, payload = Some (JObj members) → members !! "brand" = None.

(** [needle] occurs in [hay] as a run of consecutive characters. *)
Definition occurs_in (needle hay : string) : Prop :=
  ∃ before after, hay = before +:+ needle +:+ after.

(** The request carries no JSON payload, or a document in which [brand]
    does not occur: it is no key of the object, no element of the array,
    no part of the string; the document is not the boolean true and not a
    number other than 0. *)
Definition lacks_brand (payload : option json) : Prop :=
  match payload with
  | None => True
  | Some JNull => True
  | Some (JBool b) => b = false
  | Some (JNum z) => z = 0%Z
  | Some (JStr s) => ¬ occurs_in "brand" s
  | Some (JArr items) => JStr "brand" ∉ items
  | Some (JObj members) => members !! "brand" = None
  end.

(** The response is a client error. *)
Definition answered_400 (o : outcome) : Prop := ∃ body, o = Returned body 400.

(** A turn of session [sid], requested at [rt] within the 60 minutes before
    [now], whose utterance contains the marker: a turn the job is after. *)
Definition redacted_turn (now : Z) (t : Turn) (rt : Z) (sid : string) : Prop :=
  turn_request_time t = Some rt ∧
  (now - sixty_minutes ≤ rt)%Z ∧
  (∃ utterance, userUtterances t = Some utterance ∧
                contains "[redacted]" utterance = true) ∧
  ∃ name aid, conversation_name t = Some name ∧
              nth_error (SPLIT name) 5 = Some aid ∧
              nth_error (SPLIT name) 7 = Some sid.

(** Session [sid] has no row in the log table the query joins with. *)
Definition not_logged (q : Query) (w : World) (sid : string) : Prop :=
  ∀ table entries l,
    q_log q = Some table → tables w !! table = Some (WipeoutLog entries) →
    l ∈ entries → log_session_id l ≠ Some sid.

(** The counters of a run that only scanned [n] sessions. *)
Definition only_scanned (n : nat) (w : World) : State :=
  {| deleted_folder_count := 0; deleted_file_count := 0;
     scanned_session_count := n; error_count := 0; world := w |}.

(** *** Path templates, as the specification speaks of them

    A template is a sequence of literal text and of the three placeholders;
    rendering it writes the session's values in their place. *)
Inductive piece :=
| Text (s : string)
| AgentId
| DateStr
| SessionId.

(** How a piece is written in a template string. *)
Definition written (p : piece) : string :=
  match p with
  | Text s => s
  | AgentId => "{agent_id}"
  | DateStr => "{date_str}"
  | SessionId => "{session_id}"
  end.

Fixpoint template_of (pieces : list piece) : string :=
  match pieces with
  | [] => EmptyString
  | p :: pieces' => written p +:+ template_of pieces'
  end.

Fixpoint no_braces (s : string) : bool :=
  match s with
  | EmptyString => true
  | String c s' => negb (Ascii.eqb c "{") && negb (Ascii.eqb c "}") && no_braces s'
  end.

(** Literal text of a template has no brace of its own. *)
Definition plain (p : piece) : bool :=
  match p with
  | Text s => no_braces s
  | _ => true
  end.

(** The UTC calendar day of a timestamp, written YYYY-MM-DD. *)
Definition request_date (us : Z) : string :=
  let '(y, m, d) := civil_from_days (us / 86400000000) in
  zpad 4 y +:+ "-" +:+ zpad 2 m +:+ "-" +:+ zpad 2 d.

(** What stands in the place of a piece once a session is substituted. *)
Definition substituted (row : Row) (p : piece) : string :=
  match p with
  | Text s => s
  | AgentId => agent_id row
  | DateStr => request_date (request_time row)
  | SessionId => session_id row
  end.

Fixpoint filled (row : Row) (pieces : list piece) : string :=
  match pieces with
  | [] => EmptyString
  | p :: pieces' => substituted row p +:+ filled row pieces'
  end.

(* ===================================================================== *)
(** ** A small deployment

    One brand as the module configures it, a transcripts table with four
    sessions in the last hour (S1 with two redacted turns, S2 and S4 with
    one, S3 with none), and their recordings in the bucket.  The statements
    below are exercised on it. *)
(* ===================================================================== *)

Module Demo.

Definition transcripts_table : string := "mcdonalds-ttm.transcripts_decibel.prod".
Definition log_table : string := "foodai-analytics.audio_wipeout_dataset.mcdonalds_prod_log".
Definition audio_bucket : string := "mcdonalds-ttm-audio".
Definition path_template : string := "mcdonalds-ttm/{agent_id}/{date_str}/{session_id}/".

(** 2024-03-05T10:00:00Z, in microseconds since the epoch. *)
Definition ten_o_clock : Z := 1709632800000000.
Definition seconds (n : Z) : Z := n * 1000000.

(** 10:30:00 at the first API call, one millisecond later at each call. *)
Definition wall_clock (calls : nat) : Z :=
  ten_o_clock + seconds 1800 + 1000 * Z.of_nat calls.

(** No template of the deployment leaves the modelled fragment. *)
Definition no_ext (tpl : string) (kwargs : list (string * string)) : result string :=
  Raise (ValueError "not a template of this deployment").

Definition bq_ok : BigQueryClient :=
  {| query_fault := fun _ => None; insert_rows_fault := fun _ _ => InsertAccepted |}.

Definition sc_ok : StorageClient :=
  {| list_fault := fun _ _ => None; delete_fault := fun _ _ => None |}.

Definition unavailable : exn := Exn "ServiceUnavailable" "503 Service Unavailable".

(** The second recording of S2 cannot be deleted. *)
Definition sc_flaky : StorageClient :=
  {| list_fault := fun _ _ => None;
     delete_fault := fun _ name =>
       if String.eqb name "mcdonalds-ttm/A1/2024-03-05/S2/b.wav" then Some unavailable
       else None |}.

(** Every audit row is rejected by the service (say, a schema mismatch). *)
Definition bq_rejecting : BigQueryClient :=
  {| query_fault := fun _ => None;
     insert_rows_fault := fun _ _ => InsertRowErrors ["no such field: request_timestamp"] |}.

Definition deployed (bq : option BigQueryClient) (sc : option StorageClient)
    (configs : gmap string (gmap string string)) : Env :=
  {| bq_client := bq; storage_client := sc; brand_configs := configs;
     clock := wall_clock; format_ext := no_ext |}.

Definition env_ok : Env := deployed (Some bq_ok) (Some sc_ok) BRAND_CONFIGS.

(** The import-time construction of the clients failed. *)
Definition env_down : Env := deployed None None BRAND_CONFIGS.

(** A second brand, scanned but without a bucket or a template. *)
Definition LOG_ONLY_CONFIG : gmap string string :=
  {[ "TRANSCRIPTS_TABLE_PATH" := transcripts_table ]}.

Definition env_log_only : Env :=
  deployed (Some bq_ok) (Some sc_ok) (<["wendys" := LOG_ONLY_CONFIG]> BRAND_CONFIGS).

Definition turn (us : Z) (session utterance : string) : Turn :=
  {| turn_request_time := Some us;
     conversation_name :=
       Some ("projects/p1/locations/global/agents/A1/sessions/" +:+ session);
     userUtterances := Some utterance |}.

Definition turns : list Turn :=
  [ turn ten_o_clock "S1" "my card number is [redacted]";
    turn (ten_o_clock + seconds 60) "S1" "yes, [redacted] again";
    turn (ten_o_clock + seconds 120) "S2" "it is [redacted]";
    turn (ten_o_clock + seconds 180) "S3" "a large fries please";
    turn (ten_o_clock + seconds 240) "S4" "[redacted]" ].

Definition recordings : gset string :=
  {[ "mcdonalds-ttm/A1/2024-03-05/S1/a.wav"; "mcdonalds-ttm/A1/2024-03-05/S1/b.wav";
     "mcdonalds-ttm/A1/2024-03-05/S2/a.wav"; "mcdonalds-ttm/A1/2024-03-05/S2/b.wav";
     "mcdonalds-ttm/A1/2024-03-05/S4/a.wav" ]}.

Definition world0 : World :=
  {| tables := {[ transcripts_table := Transcripts turns; log_table := WipeoutLog [] ]};
     buckets := {[ audio_bucket := recordings ]};
     trace := [] |}.

Definition row (session : string) (us : Z) : Row :=
  {| session_id := session; project_id := Some "p1"; agent_id := "A1"; request_time := us |}.

Definition row_S1 : Row := row "S1" ten_o_clock.
Definition row_S1_again : Row := row "S1" (ten_o_clock + seconds 60).
Definition row_S2 : Row := row "S2" (ten_o_clock + seconds 120).
Definition row_S4 : Row := row "S4" (ten_o_clock + seconds 240).

Definition row_S3 : Row := row "S3" (ten_o_clock + seconds 180).

Definition S1_prefix : string := "mcdonalds-ttm/A1/2024-03-05/S1/".
Definition S2_prefix : string := "mcdonalds-ttm/A1/2024-03-05/S2/".
Definition S3_prefix : string := "mcdonalds-ttm/A1/2024-03-05/S3/".
Definition S4_prefix : string := "mcdonalds-ttm/A1/2024-03-05/S4/".
Definition S1_blobs : list string := [S1_prefix +:+ "a.wav"; S1_prefix +:+ "b.wav"].

(** The job's query, and the world once it has run. *)
Definition the_query : Query := query transcripts_table (Some log_table).
Definition queried : World := record_call (EvQuery (sql_text the_query)) world0.

(** A template with a placeholder the handler does not supply. *)
Definition bad_template : string := "recordings/{agent}/{session_id}/".

(** The template of the brand, piece by piece. *)
Definition mcdonalds_pieces : list piece :=
  [Text "mcdonalds-ttm/"; AgentId; Text "/"; DateStr; Text "/"; SessionId; Text "/"].

Definition request_for (brand : string) : Request :=
  {| get_json := Some (JObj {[ "brand" := JStr brand ]}) |}.

Definition empty_request : Request := {| get_json := None |}.

(** A request with a JSON document as its payload. *)
Definition request_with (document : json) : Request := {| get_json := Some document |}.

End Demo.

(* ===================================================================== *)
(** ** Vocabulary of the effects of a run *)
(* ===================================================================== *)

(** The number of objects a bucket holds (none when there is no such
    bucket). *)
Definition bucket_size (w : World) (bucket : string) : nat :=
  match buckets w !! bucket with
  | Some objects => size objects
  | None => 0
  end.

(** The buckets once the objects [names] are gone from [bucket]. *)
Definition remove_objects (bucket : string) (names : list string)
    (bk : gmap string (gset string)) : gmap string (gset string) :=
  match bk !! bucket with
  | Some objects => <[bucket := objects ∖ list_to_set names]> bk
  | None => bk
  end.

(** The tables once [rows] are appended to the log table [table], when
    there is such a log table. *)
Definition append_rows (table : option string) (rows : list LogRow)
    (tb : gmap string Table) : gmap string Table :=
  match table with
  | Some t =>
      match tb !! t with
      | Some (WipeoutLog entries) => <[t := WipeoutLog (entries ++ rows)]> tb
      | _ => tb
      end
  | None => tb
  end.

(** What [n] iterations of the loop did between [st] and [st']: they
    removed the objects [done] from the bucket and appended the rows
    [logged] to the log table, and the counters moved accordingly. *)
Record effect (bucket : string) (log : option string) (n : nat)
    (done : list string) (logged : list LogRow) (st st' : State) : Prop := {
  eff_nodup : NoDup done;
  eff_present : ∀ x, x ∈ done → ∃ objects, buckets (world st) !! bucket = Some objects ∧ x ∈ objects;
  eff_files : deleted_file_count st' = deleted_file_count st + length done;
  eff_buckets : buckets (world st') = remove_objects bucket done (buckets (world st));
  eff_tables : tables (world st') = append_rows log logged (tables (world st));
  eff_scanned_lo : (scanned_session_count st ≤ scanned_session_count st')%nat;
  eff_scanned_hi : (scanned_session_count st' ≤ scanned_session_count st + n)%nat;
  eff_folders_lo : (deleted_folder_count st + length logged ≤ deleted_folder_count st')%nat;
  eff_folders_files : (deleted_folder_count st' ≤ deleted_folder_count st + length done)%nat;
  eff_folders_scanned :
    (deleted_folder_count st' + scanned_session_count st
     ≤ deleted_folder_count st + scanned_session_count st')%nat;
  eff_errors_lo : (error_count st ≤ error_count st')%nat;
  eff_errors_scanned :
    (error_count st' + scanned_session_count st
     ≤ error_count st + scanned_session_count st')%nat;
  eff_trace : ∃ calls, trace (world st') = trace (world st) ++ calls
}.

(** A template whose replacement fields are plain names: scanning it with
    the three keyword arguments of the handler never meets a conversion, a
    format specification, an attribute or an index. *)
Definition plain_fields (template : string) : Prop :=
  scan [("agent_id", EmptyString); ("date_str", EmptyString); ("session_id", EmptyString)]
       InText EmptyString template ≠ Complex.

(** How a run can change the world: objects leave one bucket, rows are
    appended to one log table, and nothing else moves. *)
Definition evolves (w w' : World) : Prop :=
  ∃ bucket done log logged,
    buckets w' = remove_objects bucket done (buckets w) ∧
    tables w' = append_rows log logged (tables w).

(** Two scans end alike: both render, both leave the fragment, or both
    raise the same exception. *)
Definition alike (s1 s2 : fmt_scan) : Prop :=
  match s1, s2 with
  | Rendered _, Rendered _ => True
  | Failed e1, Failed e2 => e1 = e2
  | Complex, Complex => True
  | _, _ => False
  end.


(** The keyword arguments the handler passes for a session. *)
Definition session_kwargs (row : Row) : list (string * string) :=
  [("agent_id", agent_id row);
   ("date_str", strftime_Ymd (datetime_of_micros true (request_time row)));
   ("session_id", session_id row)].

(* ===================================================================== *)
(** ** Further worlds of the small deployment *)
(* ===================================================================== *)

Module Scenario.
Import Demo.

(** The audit row of session S1, as a run at 10:30 writes it. *)
Definition S1_logged : LogRow :=
  {| log_session_id := Some "S1";
     request_timestamp := "2024-03-05T10:00:00+00:00";
     deleted_timestamp := "2024-03-05T10:30:00.003000" |}.

(** The deployment after an earlier run logged S1. *)
Definition world_logged : World :=
  {| tables := {[ transcripts_table := Transcripts turns;
                  log_table := WipeoutLog [S1_logged] ]};
     buckets := {[ audio_bucket := recordings ]};
     trace := [] |}.

(** The deployment beside a bucket of another application. *)
Definition world_two_buckets : World :=
  {| tables := tables world0;
     buckets := {[ audio_bucket := recordings; "invoices" := {[ "2024/03.pdf" ]} ]};
     trace := [] |}.

(** A project without any table. *)
Definition world_no_tables : World :=
  {| tables := ∅; buckets := buckets world0; trace := [] |}.

(** A redacted turn whose conversation name is not in the expected
    format. *)
Definition short_turn : Turn :=
  {| turn_request_time := Some (ten_o_clock + seconds 300)%Z;
     conversation_name := Some "projects/p1/sessions/S9";
     userUtterances := Some "[redacted]" |}.

Definition world_short_name : World :=
  {| tables := {[ transcripts_table := Transcripts (turns ++ [short_turn]);
                  log_table := WipeoutLog [] ]};
     buckets := buckets world0;
     trace := [] |}.

(** A brand configured with a bucket but no transcripts table. *)
Definition NO_TABLE_CONFIG : gmap string string := {[ "BUCKET_NAME" := audio_bucket ]}.

Definition env_no_table : Env :=
  deployed (Some bq_ok) (Some sc_ok) (<["arbys" := NO_TABLE_CONFIG]> BRAND_CONFIGS).

(** The deployment with the storage client that cannot delete the second
    recording of S2. *)
Definition env_flaky : Env := deployed (Some bq_ok) (Some sc_flaky) BRAND_CONFIGS.

Definition all_rows : list Row := [row_S1; row_S1_again; row_S2; row_S4].

Definition flaky_summary : string :=
  "Job finished for brand 'mcdonalds'. Found 4 sessions matching criteria. "
  +:+ "Successfully deleted 2 folders (4 total files). "
  +:+ "Encountered 1 errors during GCS deletion.".

End Scenario.
(* ===================================================================== *)
(** ** Properties of the handler *)
(* ===================================================================== *)

Lemma truthy_Some (s : string) : s ≠ EmptyString → truthy (Some s) = true.
Proof.
  intros Hs. unfold truthy. destruct (String.eqb_spec s EmptyString); [contradiction | reflexivity].
Qed.

Section Deletion.
Variable sc : StorageClient.
Variable bucket : string.

Lemma delete_blobs_all (blobs : list string) :
  ∀ (st : State) (objects : gset string),
    buckets (world st) !! bucket = Some objects →
    NoDup blobs →
    (∀ b, b ∈ blobs → b ∈ objects) →
    (∀ b, b ∈ blobs → delete_fault sc bucket b = None) →
    delete_blobs sc bucket blobs st = (after_deletes bucket objects blobs st, None).
Proof.
  induction blobs as [|b rest IH]; intros st objects Hbucket Hnodup Hin Hok.
  - destruct st as [nf nd ns ne [tb bk tr]]; simpl in *.
    unfold after_deletes; simpl.
    rewrite Nat.add_0_r, app_nil_r, difference_empty_L, (insert_id _ _ _ Hbucket).
    reflexivity.
  - apply NoDup_cons in Hnodup as [Hfresh Hnodup].
    simpl. unfold blob_delete.
    rewrite (Hok b) by set_solver. rewrite Hbucket.
    rewrite bool_decide_eq_true_2 by (apply Hin; set_solver).
    rewrite (IH _ (objects ∖ {[b]})); simpl.
    + unfold after_deletes; simpl. f_equal.
      f_equal; [rewrite <- Nat.add_assoc; reflexivity|]. f_equal.
      * rewrite insert_insert_eq. f_equal. set_solver.
      * rewrite <- app_assoc. reflexivity.
    + apply lookup_insert_eq.
    + exact Hnodup.
    + intros b' Hb'. apply elem_of_difference. split; [apply Hin; set_solver|].
      set_solver.
    + intros b' Hb'. apply Hok. set_solver.
Qed.

Lemma delete_blobs_app (done rest : list string) :
  ∀ st : State,
    delete_blobs sc bucket (done ++ rest) st =
    match delete_blobs sc bucket done st with
    | (st', None) => delete_blobs sc bucket rest st'
    | (st', Some e) => (st', Some e)
    end.
Proof.
  induction done as [|b done IH]; intros st; simpl; [reflexivity|].
  destruct (blob_delete sc bucket b (world st)) as [w' [e|]]; [reflexivity|].
  apply IH.
Qed.

(** What a successful listing tells about the bucket. *)
Lemma list_blobs_Ok (prefix : string) (w w1 : World) (blobs : list string) :
  list_blobs sc bucket prefix w = (w1, Ok blobs) →
  w1 = record_call (EvListBlobs bucket prefix) w ∧
  ∃ objects, buckets w !! bucket = Some objects ∧
             blobs = List.filter (String.prefix prefix) (elements objects) ∧
             NoDup blobs ∧ ∀ b, b ∈ blobs → b ∈ objects.
Proof.
  unfold list_blobs. intros H.
  destruct (list_fault sc bucket prefix); [congruence|].
  destruct (buckets w !! bucket) as [objects|] eqn:Hb; [|congruence].
  injection H as <- <-. split; [reflexivity|].
  exists objects. split; [reflexivity|]. split; [reflexivity|]. split.
  - apply NoDup_ListNoDup, List.NoDup_filter, NoDup_ListNoDup, NoDup_elements.
  - intros b Hb'. apply list_elem_of_In, List.filter_In in Hb' as [Hb' _].
    apply elem_of_elements, list_elem_of_In, Hb'.
Qed.

Lemma list_blobs_world (prefix : string) (w : World) :
  (list_blobs sc bucket prefix w).1 = record_call (EvListBlobs bucket prefix) w.
Proof.
  unfold list_blobs.
  destruct (list_fault sc bucket prefix); [reflexivity|].
  destruct (buckets w !! bucket); reflexivity.
Qed.

End Deletion.

(** *** The audit row *)

Section Audit.
Variable env : Env.
Variable bq : BigQueryClient.
Variable log_table_path : option string.
Variable row : Row.

(** [log_deletion] never touches a counter or a bucket, and issues exactly
    the calls of [audit_calls]. *)
Lemma log_deletion_frame (st : State) :
  ∃ st' exc,
    log_deletion env bq log_table_path row st = (st', exc) ∧
    same_counters st st' ∧
    buckets (world st') = buckets (world st) ∧
    trace (world st') =
      (trace (world st) ++ audit_calls env log_table_path row (length (trace (world st))))%list.
Proof.
  unfold log_deletion, audit_calls, same_counters.
  destruct log_table_path as [table|]; simpl.
  2:{ exists st, None. rewrite app_nil_r. repeat split; reflexivity. }
  destruct (negb (String.eqb table "")).
  2:{ exists st, None. rewrite app_nil_r. repeat split; reflexivity. }
  unfold insert_rows_json. fold (audit_record env row (length (trace (world st)))).
  destruct (insert_rows_fault bq table _) as [|errors|e]; simpl.
  - destruct (lookup_log (world st) table) as [entries|e]; simpl;
      eexists _, _; (split; [reflexivity|]); simpl; repeat split; reflexivity.
  - eexists _, _; (split; [reflexivity|]); simpl; repeat split; reflexivity.
  - eexists _, _; (split; [reflexivity|]); simpl; repeat split; reflexivity.
Qed.

(** Without a log table nothing happens at all. *)
Lemma log_deletion_off (st : State) :
  truthy log_table_path = false →
  log_deletion env bq log_table_path row st = (st, None).
Proof.
  unfold log_deletion. intros ->. destruct log_table_path; reflexivity.
Qed.

(** An accepted insert appends the row to the log table. *)
Lemma log_deletion_accepted (st : State) (table : string) (entries : list LogRow) :
  log_table_path = Some table →
  table ≠ EmptyString →
  insert_rows_fault bq table [audit_record env row (length (trace (world st)))] = InsertAccepted →
  tables (world st) !! table = Some (WipeoutLog entries) →
  ∃ st',
    log_deletion env bq log_table_path row st = (st', None) ∧
    tables (world st') =
      <[table := WipeoutLog (entries ++ [audit_record env row (length (trace (world st)))])]>
        (tables (world st)).
Proof.
  intros Hlog Hne Hacc Htable. unfold log_deletion. rewrite Hlog, truthy_Some by exact Hne.
  unfold insert_rows_json. fold (audit_record env row (length (trace (world st)))).
  rewrite Hacc. unfold lookup_log. rewrite Htable. simpl.
  eexists. split; reflexivity.
Qed.

(** Rejected rows come back as the call's return value, which the handler
    drops: no exception, no error counted, no row appended. *)
Lemma log_deletion_row_errors (st : State) (table : string) (errors : list string) :
  log_table_path = Some table →
  table ≠ EmptyString →
  insert_rows_fault bq table [audit_record env row (length (trace (world st)))]
    = InsertRowErrors errors →
  ∃ st',
    log_deletion env bq log_table_path row st = (st', None) ∧
    tables (world st') = tables (world st) ∧
    error_count st' = error_count st.
Proof.
  intros Hlog Hne Hrej. unfold log_deletion. rewrite Hlog, truthy_Some by exact Hne.
  unfold insert_rows_json. fold (audit_record env row (length (trace (world st)))).
  rewrite Hrej. simpl. eexists. repeat split; reflexivity.
Qed.

(** An insert that raises leaves [log_deletion] with the exception. *)
Lemma log_deletion_raises (st : State) (table : string) (e : exn) :
  log_table_path = Some table →
  table ≠ EmptyString →
  insert_rows_fault bq table [audit_record env row (length (trace (world st)))]
    = InsertRaises e →
  ∃ st',
    log_deletion env bq log_table_path row st = (st', Some e) ∧
    tables (world st') = tables (world st).
Proof.
  intros Hlog Hne Hraise. unfold log_deletion. rewrite Hlog, truthy_Some by exact Hne.
  unfold insert_rows_json. fold (audit_record env row (length (trace (world st)))).
  rewrite Hraise. simpl. eexists. split; reflexivity.
Qed.

End Audit.

(** *** One session, with deletion switched on *)

Section Session.
Variable env : Env.
Variable bq : BigQueryClient.
Variable sc : StorageClient.
Variable log_table_path : option string.
Variables bucket template : string.
Hypothesis bucket_set : bucket ≠ EmptyString.
Hypothesis template_set : template ≠ EmptyString.

Local Abbreviation process := (process_row env bq sc (Some bucket) log_table_path (Some template)).
Local Abbreviation session := (try_body env bq sc log_table_path).

(** Past the two guards and the rendering, an iteration is the inner
    [try] with its [except]. *)
Lemma process_row_rendered (row : Row) (st : State) (prefix : string) :
  render_prefix (format_ext env) template row = Ok prefix →
  process row st =
    match session row bucket prefix (incr_scanned st) with
    | (st', None) => (st', None)
    | (st', Some _) => (incr_errors st', None)
    end.
Proof.
  intros Hrender. unfold process_row.
  rewrite !truthy_Some by assumption. simpl. rewrite Hrender. reflexivity.
Qed.

(** A rendering that raises leaves the iteration at once. *)
Lemma process_row_render_raises (row : Row) (st : State) (e : exn) :
  render_prefix (format_ext env) template row = Raise e →
  process row st = (incr_scanned st, Some e).
Proof.
  intros Hrender. unfold process_row.
  rewrite !truthy_Some by assumption. simpl. rewrite Hrender. reflexivity.
Qed.

(** The inner [try] when every listed blob is deleted. *)
Lemma session_deleted (row : Row) (st : State) (prefix : string) (w1 : World)
    (blobs : list string) :
  list_blobs sc bucket prefix (world st) = (w1, Ok blobs) →
  blobs ≠ [] →
  (∀ b, b ∈ blobs → delete_fault sc bucket b = None) →
  ∃ objects,
    buckets (world st) !! bucket = Some objects ∧
    session row bucket prefix st =
      log_deletion env bq log_table_path row
        (incr_folders (after_deletes bucket objects blobs
           (set_world (record_call (EvListBlobs bucket prefix) (world st)) st))).
Proof.
  intros Hlist Hne Hok.
  destruct (list_blobs_Ok _ _ _ _ _ _ Hlist) as (-> & objects & Hbk & _ & Hnd & Hin).
  exists objects. split; [exact Hbk|].
  unfold try_body. rewrite Hlist.
  destruct blobs as [|b rest]; [contradiction|].
  rewrite (delete_blobs_all sc bucket (b :: rest) _ objects); auto.
Qed.

(** The inner [try] when the listing is empty: the [continue] of line 167. *)
Lemma session_empty (row : Row) (st : State) (prefix : string) (w1 : World) :
  list_blobs sc bucket prefix (world st) = (w1, Ok []) →
  session row bucket prefix st =
    (set_world (record_call (EvListBlobs bucket prefix) (world st)) st, None).
Proof.
  intros Hlist.
  destruct (list_blobs_Ok _ _ _ _ _ _ Hlist) as (-> & _).
  unfold try_body. rewrite Hlist. reflexivity.
Qed.

(** The inner [try] when the listing raises. *)
Lemma session_list_raises (row : Row) (st : State) (prefix : string) (e : exn) :
  (list_blobs sc bucket prefix (world st)).2 = Raise e →
  session row bucket prefix st =
    (set_world (record_call (EvListBlobs bucket prefix) (world st)) st, Some e).
Proof.
  intros Hlist. unfold try_body.
  pose proof (list_blobs_world sc bucket prefix (world st)) as Hw.
  destruct (list_blobs sc bucket prefix (world st)) as [w1 r]; simpl in *.
  subst w1 r. reflexivity.
Qed.

(** The inner [try] when the deletion of [bad] raises after the blobs
    [done] were deleted. *)
Lemma session_partial (row : Row) (st : State) (prefix : string)
    (done : list string) (bad : string) (rest : list string) (e : exn) :
  (list_blobs sc bucket prefix (world st)).2 = Ok (done ++ bad :: rest)%list →
  (∀ b, b ∈ done → delete_fault sc bucket b = None) →
  delete_fault sc bucket bad = Some e →
  ∃ objects,
    buckets (world st) !! bucket = Some objects ∧
    session row bucket prefix st =
      (let st' := after_deletes bucket objects done
                    (set_world (record_call (EvListBlobs bucket prefix) (world st)) st) in
       (set_world (record_call (EvDelete bucket bad) (world st')) st', Some e)).
Proof.
  intros Hlist Hok Hbad.
  destruct (list_blobs sc bucket prefix (world st)) as [w1 r] eqn:Hl; simpl in Hlist; subst r.
  destruct (list_blobs_Ok _ _ _ _ _ _ Hl) as (-> & objects & Hbk & _ & Hnd & Hin).
  exists objects. split; [exact Hbk|].
  unfold try_body. rewrite Hl.
  destruct (done ++ bad :: rest) as [|b0 l0] eqn:Hblobs; [destruct done; discriminate|].
  rewrite <- Hblobs in Hnd, Hin |- *. clear Hblobs.
  rewrite delete_blobs_app.
  apply NoDup_app in Hnd as (Hnd & _ & _).
  rewrite (delete_blobs_all sc bucket done _ objects); auto.
  - simpl. unfold blob_delete. rewrite Hbad. reflexivity.
  - intros b Hb. apply Hin, elem_of_app. left. exact Hb.
Qed.

(** An audit insert that raises is caught by the [except] of line 198: it
    is counted as an error, and the deletion keeps its counts. *)
Lemma audit_exception_counted (row : Row) (st : State) (prefix : string) (w1 : World)
    (blobs : list string) (table : string) (e : exn) :
  render_prefix (format_ext env) template row = Ok prefix →
  list_blobs sc bucket prefix (world st) = (w1, Ok blobs) →
  blobs ≠ [] →
  (∀ b, b ∈ blobs → delete_fault sc bucket b = None) →
  log_table_path = Some table →
  table ≠ EmptyString →
  insert_rows_fault bq table
    [audit_record env row (length (trace (world st)) + 1 + length blobs)] = InsertRaises e →
  ∃ st',
    process row st = (st', None) ∧
    error_count st' = error_count st + 1 ∧
    deleted_folder_count st' = deleted_folder_count st + 1 ∧
    deleted_file_count st' = deleted_file_count st + length blobs.
Proof.
  intros Hrender Hlist Hne Hok Hpath Htable Hraises.
  destruct (session_deleted row (incr_scanned st) prefix w1 blobs Hlist Hne Hok)
    as (objects & Hbk & Hsession).
  rewrite (process_row_rendered row st prefix Hrender), Hsession.
  set (st2 := incr_folders _).
  assert (Hcalls : length (trace (world st2))
                   = length (trace (world st)) + 1 + length blobs).
  { subst st2. simpl. rewrite !length_app, length_map. simpl. lia. }
  rewrite <- Hcalls in Hraises.
  destruct (log_deletion_frame env bq log_table_path row st2)
    as (st3 & exc & Hlog & (Hfolders & Hfiles & _ & Herrors) & _ & _).
  destruct (log_deletion_raises env bq log_table_path row st2 table e
              Hpath Htable Hraises) as (st4 & Hlog' & _).
  rewrite Hlog in Hlog'. injection Hlog' as <- ->. rewrite Hlog.
  exists (incr_errors st3). split; [reflexivity|]. simpl.
  rewrite Herrors, Hfolders, Hfiles. repeat split; reflexivity.
Qed.

End Session.

(** *** The loop over the result rows *)

Section Loop.
Variable env : Env.
Variable bq : BigQueryClient.
Variable sc : StorageClient.
Variables gcs_bucket_name log_table_path gcs_path_template : option string.

Local Abbreviation step :=
  (process_row env bq sc gcs_bucket_name log_table_path gcs_path_template).
Local Abbreviation loop :=
  (process_rows env bq sc gcs_bucket_name log_table_path gcs_path_template).

Lemma process_rows_cons (row : Row) (rest : list Row) (st : State) :
  loop (row :: rest) st =
    match step row st with
    | (st', None) => loop rest st'
    | (st', Some e) => (st', Some e)
    end.
Proof. reflexivity. Qed.

Lemma process_rows_app (pre post : list Row) :
  ∀ st : State,
    loop (pre ++ post) st =
      match loop pre st with
      | (st', None) => loop post st'
      | (st', Some e) => (st', Some e)
      end.
Proof.
  induction pre as [|row pre IH]; intros st; [reflexivity|].
  rewrite <- app_comm_cons, !process_rows_cons.
  destruct (step row st) as [st' [e|]]; [reflexivity|]. apply IH.
Qed.

(** The scanned counter counts iterations, whatever happens in them. *)
Lemma delete_blobs_scanned (bucket : string) (blobs : list string) :
  ∀ st : State,
    scanned_session_count (delete_blobs sc bucket blobs st).1 = scanned_session_count st.
Proof.
  induction blobs as [|b blobs IH]; intros st; simpl; [reflexivity|].
  destruct (blob_delete sc bucket b (world st)) as [w' [e|]]; simpl; [reflexivity|].
  rewrite IH. reflexivity.
Qed.

Lemma try_body_scanned (row : Row) (bucket prefix : string) (st : State) :
  scanned_session_count (try_body env bq sc log_table_path row bucket prefix st).1
  = scanned_session_count st.
Proof.
  unfold try_body.
  destruct (list_blobs sc bucket prefix (world st)) as [w1 [blobs|e]]; [|reflexivity].
  destruct blobs as [|b blobs]; [reflexivity|].
  pose proof (delete_blobs_scanned bucket (b :: blobs) (set_world w1 st)) as Hdel.
  destruct (delete_blobs sc bucket (b :: blobs) (set_world w1 st)) as [st2 [e|]];
    simpl in Hdel; [exact Hdel|].
  destruct (log_deletion_frame env bq log_table_path row (incr_folders st2))
    as (st3 & exc & -> & (_ & _ & Hscanned & _) & _).
  simpl in *. congruence.
Qed.

Lemma process_row_scanned (row : Row) (st : State) :
  scanned_session_count (step row st).1 = scanned_session_count st + 1.
Proof.
  unfold process_row.
  destruct gcs_bucket_name as [bucket|]; [|reflexivity].
  destruct gcs_path_template as [template|]; [|reflexivity].
  destruct (negb _ || negb _); [reflexivity|].
  destruct (render_prefix (format_ext env) template row) as [prefix|e]; [|reflexivity].
  pose proof (try_body_scanned row bucket prefix (incr_scanned st)) as Hbody.
  destruct (try_body env bq sc log_table_path row bucket prefix (incr_scanned st))
    as [st' [e|]]; simpl in *; exact Hbody.
Qed.

Lemma process_rows_scanned (rows : list Row) :
  ∀ st stf : State,
    loop rows st = (stf, None) →
    scanned_session_count stf = scanned_session_count st + length rows.
Proof.
  induction rows as [|row rows IH]; intros st stf Hloop.
  - injection Hloop as <-. simpl. lia.
  - rewrite process_rows_cons in Hloop.
    pose proof (process_row_scanned row st) as Hrow.
    destruct (step row st) as [st' [e|]]; [discriminate|].
    apply IH in Hloop. simpl in *. lia.
Qed.

(** With deletion switched off an iteration only counts the session. *)
Lemma process_row_disabled (row : Row) (st : State) :
  truthy gcs_bucket_name = false ∨ truthy gcs_path_template = false →
  step row st = (incr_scanned st, None).
Proof.
  intros Hoff. unfold process_row.
  destruct gcs_bucket_name as [bucket|]; [|reflexivity].
  destruct gcs_path_template as [template|]; [|reflexivity].
  destruct Hoff as [-> | ->]; simpl; [reflexivity|].
  rewrite orb_true_r. reflexivity.
Qed.

Lemma process_rows_disabled (rows : list Row) :
  truthy gcs_bucket_name = false ∨ truthy gcs_path_template = false →
  ∀ st : State,
    loop rows st =
      ({| deleted_folder_count := deleted_folder_count st;
          deleted_file_count := deleted_file_count st;
          scanned_session_count := scanned_session_count st + length rows;
          error_count := error_count st;
          world := world st |}, None).
Proof.
  intros Hoff. induction rows as [|row rows IH]; intros st.
  - destruct st; simpl. rewrite Nat.add_0_r. reflexivity.
  - rewrite process_rows_cons, (process_row_disabled row st Hoff), IH. simpl.
    rewrite <- Nat.add_assoc. reflexivity.
Qed.

End Loop.

(** With deletion switched on, the loop runs to its end whenever every
    prefix renders: nothing else can leave an iteration. *)
Lemma process_rows_total (env : Env) (bq : BigQueryClient) (sc : StorageClient)
    (log_table_path : option string) (bucket template : string) (rows : list Row) :
  bucket ≠ EmptyString →
  template ≠ EmptyString →
  (∀ r, r ∈ rows → ∃ p, render_prefix (format_ext env) template r = Ok p) →
  ∀ st : State,
    ∃ stf, process_rows env bq sc (Some bucket) log_table_path (Some template) rows st
           = (stf, None).
Proof.
  intros Hbucket Htemplate.
  induction rows as [|row rows IH]; intros Hrender st.
  - exists st. reflexivity.
  - destruct (Hrender row) as [prefix Hprefix]; [apply list_elem_of_here|].
    rewrite process_rows_cons.
    rewrite (process_row_rendered env bq sc log_table_path bucket template
               Hbucket Htemplate row st prefix Hprefix).
    destruct (try_body env bq sc log_table_path row bucket prefix (incr_scanned st))
      as [st' [e|]]; apply IH; intros r Hr; apply Hrender, list_elem_of_further, Hr.
Qed.

(** *** The query call and the request checks *)

Lemma run_query_world (c : BigQueryClient) (now : Z) (q : Query) (w : World) :
  (run_query c now q w).1 = record_call (EvQuery (sql_text q)) w.
Proof.
  unfold run_query.
  destruct (query_fault c (sql_text q)); [reflexivity|].
  destruct (lookup_transcripts w (q_transcripts q)); [|reflexivity].
  destruct (q_log q); [|reflexivity].
  destruct (lookup_log w s); reflexivity.
Qed.

Lemma run_query_distinct (c : BigQueryClient) (now : Z) (q : Query) (w w' : World)
    (rows : list Row) :
  run_query c now q w = (w', Ok rows) → NoDup rows.
Proof.
  unfold run_query, eval_query. intros Hrun.
  destruct (query_fault c (sql_text q)); [discriminate|].
  destruct (lookup_transcripts w (q_transcripts q)) as [turns|]; [|discriminate].
  destruct (q_log q) as [path|].
  - destruct (lookup_log w path) as [entries|]; [|discriminate].
    destruct (ConversationTurn now turns); [|discriminate].
    injection Hrun as _ <-. apply NoDup_remove_dups.
  - destruct (ConversationTurn now turns); [|discriminate].
    injection Hrun as _ <-. apply NoDup_remove_dups.
Qed.

(** A payload that is an object with a string under [brand], naming a
    brand whose configuration has a transcripts table: the handler gets to
    the job, with the brand name in lower case and the three optional
    settings as the configuration has them. *)
Lemma handler_runs_job (env : Env) (bq : BigQueryClient) (sc : StorageClient)
    (request : Request) (payload : gmap string json) (raw : string)
    (config : gmap string string) (path : string) (w : World) :
  bq_client env = Some bq →
  storage_client env = Some sc →
  get_json request = Some (JObj payload) →
  payload !! "brand" = Some (JStr raw) →
  brand_configs env !! lower raw = Some config →
  config !! "TRANSCRIPTS_TABLE_PATH" = Some path →
  path ≠ EmptyString →
  fetch_redacted_transcripts_and_delete_audio env request w =
    run_job env bq sc (lower raw) path
      (config !! "BUCKET_NAME") (config !! "WIPEOUT_LOG_TABLE_PATH")
      (config !! "GCS_PATH_TEMPLATE") w.
Proof.
  intros Hbq Hsc Hjson Hbrand Hconfig Hpath Hne.
  unfold fetch_redacted_transcripts_and_delete_audio.
  rewrite Hbq, Hsc, Hjson.
  assert (Hpayload : payload ≠ ∅).
  { intros ->. rewrite lookup_empty in Hbrand. discriminate. }
  assert (Hcfg : config ≠ ∅).
  { intros ->. rewrite lookup_empty in Hpath. discriminate. }
  unfold brand_missing, truthy_json, py_in, brand_of, getitem.
  rewrite (bool_decide_eq_false_2 _ Hpayload), Hbrand. cbn [negb lower_method].
  rewrite Hconfig, (bool_decide_eq_false_2 _ Hcfg), Hpath, (truthy_Some path Hne).
  reflexivity.
Qed.

(** *** Rendering a template *)

Lemma append_cons (c : ascii) (s t : string) : String c s +:+ t = String c (s +:+ t).
Proof. reflexivity. Qed.

Lemma append_nil_r (s : string) : s +:+ EmptyString = s.
Proof. induction s as [|c s IH]; [reflexivity|]. rewrite append_cons, IH. reflexivity. Qed.

Lemma append_assoc (s1 s2 s3 : string) : (s1 +:+ s2) +:+ s3 = s1 +:+ (s2 +:+ s3).
Proof. induction s1 as [|c s1 IH]; [reflexivity|]. rewrite !append_cons, IH. reflexivity. Qed.

Section Scan.
Variables agent date session : string.

Local Abbreviation kwargs :=
  [("agent_id", agent); ("date_str", date); ("session_id", session)].

(** Text without braces is copied to the output. *)
Lemma scan_text (s : string) :
  no_braces s = true →
  ∀ out rest : string,
    scan kwargs InText out (s +:+ rest) = scan kwargs InText (out +:+ s) rest.
Proof.
  induction s as [|c s IH]; intros Hplain out rest.
  - rewrite append_nil_r. reflexivity.
  - simpl in Hplain. apply andb_prop in Hplain as [Hc Hplain].
    apply andb_prop in Hc as [Hopen Hclose].
    apply negb_true_iff in Hopen, Hclose.
    rewrite append_cons. cbn [scan]. rewrite Hopen, Hclose, (IH Hplain), append_assoc.
    reflexivity.
Qed.

(** Each placeholder is replaced by its keyword argument. *)
Lemma scan_agent_id (out rest : string) :
  scan kwargs InText out ("{agent_id}" +:+ rest) = scan kwargs InText (out +:+ agent) rest.
Proof. reflexivity. Qed.

Lemma scan_date_str (out rest : string) :
  scan kwargs InText out ("{date_str}" +:+ rest) = scan kwargs InText (out +:+ date) rest.
Proof. reflexivity. Qed.

Lemma scan_session_id (out rest : string) :
  scan kwargs InText out ("{session_id}" +:+ rest) = scan kwargs InText (out +:+ session) rest.
Proof. reflexivity. Qed.

End Scan.

(** The date the handler computes is the UTC day of the timestamp. *)
Lemma strftime_request_date (us : Z) :
  strftime_Ymd (datetime_of_micros true us) = request_date us.
Proof.
  unfold datetime_of_micros, request_date.
  rewrite Z.div_div by lia. change (1000000 * 86400)%Z with 86400000000%Z.
  destruct (civil_from_days (us / 86400000000)) as [[y m] d]. reflexivity.
Qed.

Lemma scan_pieces (row : Row) (pieces : list piece) :
  forallb plain pieces = true →
  ∀ out : string,
    scan [("agent_id", agent_id row); ("date_str", request_date (request_time row));
          ("session_id", session_id row)] InText out (template_of pieces)
    = Rendered (out +:+ filled row pieces).
Proof.
  induction pieces as [|p pieces IH]; intros Hplain out.
  - simpl. rewrite append_nil_r. reflexivity.
  - simpl in Hplain. apply andb_prop in Hplain as [Hp Hplain].
    cbn [template_of filled].
    destruct p as [s| | |]; cbn [written substituted].
    + rewrite (scan_text _ _ _ s Hp), (IH Hplain), append_assoc. reflexivity.
    + rewrite scan_agent_id, (IH Hplain), append_assoc. reflexivity.
    + rewrite scan_date_str, (IH Hplain), append_assoc. reflexivity.
    + rewrite scan_session_id, (IH Hplain), append_assoc. reflexivity.
Qed.

(** *** Facts about the small deployment *)

Lemma audio_bucket_set : Demo.audio_bucket ≠ EmptyString.
Proof. discriminate. Qed.

Lemma path_template_set : Demo.path_template ≠ EmptyString.
Proof. discriminate. Qed.

Lemma bad_template_set : Demo.bad_template ≠ EmptyString.
Proof. discriminate. Qed.

Lemma log_table_set : Demo.log_table ≠ EmptyString.
Proof. discriminate. Qed.

Lemma transcripts_table_set : Demo.transcripts_table ≠ EmptyString.
Proof. discriminate. Qed.

(** *** The query, row by row *)

(** The n-th segment of a name, when the query can compute it. *)
Lemma split_offset_Some (name : option string) (n : nat) (part : string) :
  split_offset name n = Ok (Some part) ↔
  ∃ s, name = Some s ∧ nth_error (SPLIT s) n = Some part.
Proof.
  unfold split_offset. destruct name as [s|].
  - destruct (nth_error (SPLIT s) n) as [part'|] eqn:Hn; split.
    + intros [= ->]. eauto.
    + intros (s' & [= <-] & Hpart). congruence.
    + discriminate.
    + intros (s' & [= <-] & Hpart). congruence.
  - split; [discriminate|]. intros (s & Hs & _). discriminate.
Qed.

(** The rows of the common table expression are the turns of the window,
    with their three name segments. *)
Lemma ConversationTurn_elem (now : Z) (turns : list Turn) :
  ∀ cts, ConversationTurn now turns = Ok cts →
    ∀ ct, ct ∈ cts ↔
      ∃ t, t ∈ turns ∧
           turn_request_time t = Some (ct_request_time ct) ∧
           (now - sixty_minutes ≤ ct_request_time ct)%Z ∧
           split_offset (conversation_name t) 1 = Ok (ct_project_id ct) ∧
           split_offset (conversation_name t) 5 = Ok (ct_agent_id ct) ∧
           split_offset (conversation_name t) 7 = Ok (ct_session_id ct) ∧
           customer_utterance ct = userUtterances t.
Proof.
  induction turns as [|t turns IH]; intros cts Hcts ct.
  - injection Hcts as <-. split; [intros H; inversion H|].
    intros (t & Ht & _). inversion Ht.
  - assert (Hskip : ConversationTurn now turns = Ok cts →
              (turn_request_time t = None ∨
               ∃ rt, turn_request_time t = Some rt ∧ (rt < now - sixty_minutes)%Z) →
              ct ∈ cts ↔
              ∃ t0, t0 ∈ t :: turns ∧
                    turn_request_time t0 = Some (ct_request_time ct) ∧
                    (now - sixty_minutes ≤ ct_request_time ct)%Z ∧
                    split_offset (conversation_name t0) 1 = Ok (ct_project_id ct) ∧
                    split_offset (conversation_name t0) 5 = Ok (ct_agent_id ct) ∧
                    split_offset (conversation_name t0) 7 = Ok (ct_session_id ct) ∧
                    customer_utterance ct = userUtterances t0).
    { intros Hrest Hout. rewrite (IH cts Hrest ct). split.
      - intros (t0 & Ht0 & Hfacts). exists t0. split; [apply list_elem_of_further, Ht0|exact Hfacts].
      - intros (t0 & Ht0 & Hrt & Hwin & Hfacts). exists t0.
        apply elem_of_cons in Ht0 as [->|Ht0]; [|auto].
        exfalso. destruct Hout as [Hnone | (rt & Hsome & Hlt)]; [congruence|].
        rewrite Hsome in Hrt. injection Hrt as ->. lia. }
    simpl in Hcts.
    destruct (turn_request_time t) as [rt|] eqn:Hrt; [|apply Hskip; auto].
    destruct (now - sixty_minutes <=? rt)%Z eqn:Hwin.
    2:{ apply Z.leb_gt in Hwin. apply Hskip; eauto. }
    apply Z.leb_le in Hwin.
    destruct (split_offset (conversation_name t) 1) as [p|] eqn:Hp; [|discriminate].
    destruct (split_offset (conversation_name t) 5) as [a|] eqn:Ha; [|discriminate].
    destruct (split_offset (conversation_name t) 7) as [s|] eqn:Hs; [|discriminate].
    destruct (ConversationTurn now turns) as [cts'|] eqn:Hrest; [|discriminate].
    injection Hcts as <-. rewrite elem_of_cons, (IH cts' eq_refl ct). split.
    + intros [-> | (t0 & Ht0 & Hfacts)].
      * exists t. simpl. split; [apply list_elem_of_here|]. auto 10.
      * exists t0. split; [apply list_elem_of_further, Ht0 | exact Hfacts].
    + intros (t0 & Ht0 & Hrt0 & Hwin0 & Hp0 & Ha0 & Hs0 & Hu0).
      apply elem_of_cons in Ht0 as [->|Ht0].
      * left. destruct ct as [rt' p' a' s' u']; simpl in *. congruence.
      * right. exists t0. auto 10.
Qed.

(** What the WHERE clause lets through, and with which columns. *)
Lemma select_row_Some (log : option (list LogRow)) (ct : CTurn) (r : Row) :
  select_row log ct = Some r ↔
  ∃ u, customer_utterance ct = Some u ∧
       contains "[redacted]" u = true ∧
       ct_session_id ct = Some (session_id r) ∧
       ct_agent_id ct = Some (agent_id r) ∧
       project_id r = ct_project_id ct ∧
       request_time r = ct_request_time ct ∧
       match log with
       | Some entries => logged entries (session_id r) = false
       | None => True
       end.
Proof.
  unfold select_row.
  destruct (customer_utterance ct) as [u|]; [|split; [discriminate | intros (u & [=] & _)]].
  destruct (ct_session_id ct) as [sid|];
    [|split; [discriminate | intros (u' & _ & _ & [=] & _)]].
  destruct (ct_agent_id ct) as [aid|];
    [|split; [discriminate | intros (u' & _ & _ & _ & [=] & _)]].
  destruct (contains "[redacted]" u) eqn:Hmark; simpl.
  2:{ split; [discriminate | intros (u' & [= <-] & Hu' & _); congruence]. }
  destruct log as [entries|]; simpl.
  - destruct (logged entries sid) eqn:Hlogged; simpl; split.
    + discriminate.
    + intros (u' & _ & _ & [= <-] & _ & _ & _ & Hnot). congruence.
    + intros [= <-]. exists u. simpl. auto 10.
    + intros (u' & _ & _ & [= ->] & [= ->] & Hp & Ht & _).
      destruct r; simpl in *. congruence.
  - split.
    + intros [= <-]. exists u. simpl. auto 10.
    + intros (u' & _ & _ & [= ->] & [= ->] & Hp & Ht & _).
      destruct r; simpl in *. congruence.
Qed.

(** The pieces a successful query was computed from. *)
Lemma run_query_Ok (c : BigQueryClient) (now : Z) (q : Query) (w w' : World)
    (rows : list Row) :
  run_query c now q w = (w', Ok rows) →
  ∃ turns cts log,
    tables w !! q_transcripts q = Some (Transcripts turns) ∧
    ConversationTurn now turns = Ok cts ∧
    match q_log q with
    | Some table => ∃ entries, tables w !! table = Some (WipeoutLog entries) ∧ log = Some entries
    | None => log = None
    end ∧
    ∀ r, r ∈ rows ↔ ∃ ct, ct ∈ cts ∧ select_row log ct = Some r.
Proof.
  unfold run_query, lookup_transcripts, lookup_log, eval_query. intros Hrun.
  destruct (query_fault c (sql_text q)); [discriminate|].
  destruct (tables w !! q_transcripts q) as [[turns|]|]; try discriminate.
  assert (Hrows : ∀ log cts r,
            r ∈ remove_dups (omap (select_row log) cts)
            ↔ ∃ ct, ct ∈ cts ∧ select_row log ct = Some r).
  { intros log cts r. rewrite elem_of_remove_dups, list_elem_of_omap. reflexivity. }
  destruct (q_log q) as [table|].
  - destruct (tables w !! table) as [[|entries]|]; try discriminate.
    destruct (ConversationTurn now turns) as [cts|] eqn:Hcts; [|discriminate].
    injection Hrun as _ <-. exists turns, cts, (Some entries).
    split; [reflexivity|]. split; [exact Hcts|]. split; [eauto|]. apply Hrows.
  - destruct (ConversationTurn now turns) as [cts|] eqn:Hcts; [|discriminate].
    injection Hrun as _ <-. exists turns, cts, None.
    split; [reflexivity|]. split; [exact Hcts|]. split; [reflexivity|]. apply Hrows.
Qed.

Lemma logged_true (entries : list LogRow) (sid : string) :
  logged entries sid = true ↔ ∃ l, l ∈ entries ∧ log_session_id l = Some sid.
Proof.
  unfold logged. rewrite existsb_exists. split.
  - intros (l & Hl & Heq). exists l. split; [apply list_elem_of_In, Hl|].
    destruct (log_session_id l) as [s|]; [|discriminate].
    apply String.eqb_eq in Heq. congruence.
  - intros (l & Hl & Heq). exists l. split; [apply list_elem_of_In, Hl|].
    rewrite Heq. apply String.eqb_refl.
Qed.

(** The query misses no turn it is after: a turn of the last 60 minutes
    whose utterance contains the marker and whose conversation name has an
    agent at segment 5 and a session at segment 7 gives a row, unless the
    session has a row in the log table. *)
Lemma query_returns_turn (c : BigQueryClient) (now : Z) (q : Query)
    (w w' : World) (rows : list Row) (turns : list Turn) (t : Turn)
    (rt : Z) (name utterance aid sid : string) :
  run_query c now q w = (w', Ok rows) →
  tables w !! q_transcripts q = Some (Transcripts turns) →
  t ∈ turns →
  turn_request_time t = Some rt →
  (now - sixty_minutes ≤ rt)%Z →
  userUtterances t = Some utterance →
  contains "[redacted]" utterance = true →
  conversation_name t = Some name →
  nth_error (SPLIT name) 5 = Some aid →
  nth_error (SPLIT name) 7 = Some sid →
  (∀ table entries l,
      q_log q = Some table → tables w !! table = Some (WipeoutLog entries) →
      l ∈ entries → log_session_id l ≠ Some sid) →
  {| session_id := sid; project_id := nth_error (SPLIT name) 1;
     agent_id := aid; request_time := rt |} ∈ rows.
Proof.
  intros Hrun Hturns Ht Hrt Hwin Hutt Hmark Hname Haid Hsid Hfresh.
  destruct (run_query_Ok c now q w w' rows Hrun)
    as (turns' & cts & log & Hturns' & Hcts & Hlog & Hrows).
  rewrite Hturns in Hturns'. injection Hturns' as <-.
  assert (Hpid : ∃ pid, nth_error (SPLIT name) 1 = Some pid).
  { destruct (nth_error (SPLIT name) 1) as [pid|] eqn:Hp; [eauto|].
    apply nth_error_None in Hp.
    assert (7 < length (SPLIT name))%nat by (apply nth_error_Some; congruence). lia. }
  destruct Hpid as [pid Hpid]. rewrite Hpid.
  apply Hrows.
  exists {| ct_request_time := rt; ct_project_id := Some pid; ct_agent_id := Some aid;
            ct_session_id := Some sid; customer_utterance := Some utterance |}.
  split.
  - apply (ConversationTurn_elem now turns cts Hcts). exists t. simpl.
    split; [exact Ht|]. split; [exact Hrt|]. split; [exact Hwin|].
    rewrite Hname. unfold split_offset. rewrite Hpid, Haid, Hsid. auto.
  - apply select_row_Some. exists utterance. simpl.
    repeat (split; [reflexivity || assumption|]).
    destruct (q_log q) as [table|].
    + destruct Hlog as (entries & Hentries & ->).
      destruct (logged entries sid) eqn:Hlogged; [|reflexivity].
      apply logged_true in Hlogged as (l & Hl & Heq).
      exfalso. exact (Hfresh table entries l eq_refl Hentries Hl Heq).
    + subst log. exact I.
Qed.

(** Two different elements with the same image: the images repeat. *)
Lemma repeated_image {A B : Type} (f : A → B) (l : list A) (x y : A) :
  x ∈ l → y ∈ l → x ≠ y → f x = f y → ¬ NoDup (f <$> l).
Proof.
  intros Hx Hy Hne Hf Hnodup.
  apply list_elem_of_lookup in Hx as [i Hi].
  apply list_elem_of_lookup in Hy as [j Hj].
  assert (Hij : i = j).
  { apply (NoDup_lookup (f <$> l) i j (f x) Hnodup).
    - rewrite list_lookup_fmap, Hi. reflexivity.
    - rewrite list_lookup_fmap, Hj, Hf. reflexivity. }
  subst j. rewrite Hi in Hj. injection Hj as Hxy. exact (Hne Hxy).
Qed.

(** *** The payload check *)

Lemma prefix_append (needle hay : string) :
  String.prefix needle hay = true → ∃ after, hay = needle +:+ after.
Proof.
  revert hay. induction needle as [|c needle IH]; intros hay Hprefix.
  - exists hay. reflexivity.
  - destruct hay as [|d hay]; [discriminate|]. simpl in Hprefix.
    destruct (ascii_dec c d) as [->|]; [|discriminate].
    destruct (IH hay Hprefix) as [after ->].
    exists after. rewrite append_cons. reflexivity.
Qed.

Lemma contains_occurs (needle hay : string) :
  contains needle hay = true → occurs_in needle hay.
Proof.
  induction hay as [|c hay IH]; intros Hcontains; cbn [contains] in Hcontains.
  - apply orb_prop in Hcontains as [Hprefix|]; [|discriminate].
    destruct (prefix_append _ _ Hprefix) as [after Hafter].
    exists EmptyString, after. exact Hafter.
  - apply orb_prop in Hcontains as [Hprefix|Hlater].
    + destruct (prefix_append _ _ Hprefix) as [after Hafter].
      exists EmptyString, after. exact Hafter.
    + destruct (IH Hlater) as (before & after & ->).
      exists (String c before), after. rewrite append_cons. reflexivity.
Qed.

Lemma no_brand_element (items : list json) :
  JStr "brand" ∉ items →
  existsb (fun x => match x with JStr s => String.eqb s "brand" | _ => false end) items
  = false.
Proof.
  induction items as [|x items IH]; intros Hnot; [reflexivity|].
  apply not_elem_of_cons in Hnot as [Hx Hitems]. simpl.
  rewrite (IH Hitems), orb_false_r.
  destruct x as [| | |s| |]; try reflexivity.
  destruct (String.eqb s "brand") eqn:Heq; [|reflexivity].
  apply String.eqb_eq in Heq. subst s. contradiction.
Qed.

(* ===================================================================== *)
(** ** The specified behaviour, claim by claim *)
(* ===================================================================== *)

Section SessionClaims.
Variable env : Env.
Variable bq : BigQueryClient.
Variable sc : StorageClient.
Variable log_table_path : option string.
Variables bucket template : string.
Hypothesis bucket_set : bucket ≠ EmptyString.
Hypothesis template_set : template ≠ EmptyString.

Local Abbreviation process := (process_row env bq sc (Some bucket) log_table_path (Some template)).

(** C1. A session of a brand with a bucket and a path template, whose
    prefix lists N > 0 objects that are all deleted without an exception:
    the iteration ends normally; the bucket loses exactly the N listed
    objects; the folder counter grows by 1, the file counter by N and the
    scanned counter by 1; the calls issued are the listing, one delete per
    listed object and, when a log table is configured, exactly one insert
    of exactly one row holding the session id, the request time in ISO-8601
    and the UTC time of deletion in ISO-8601; and when that insert is
    accepted the log table grows by exactly this row. *)
Theorem C1_deleted_session (row : Row) (st : State) (prefix : string) (w1 : World)
    (blobs : list string) :
  render_prefix (format_ext env) template row = Ok prefix →
  list_blobs sc bucket prefix (world st) = (w1, Ok blobs) →
  blobs ≠ [] →
  (∀ b, b ∈ blobs → delete_fault sc bucket b = None) →
  let calls := length (trace (world st)) + 1 + length blobs in
  ∃ st' objects,
    process row st = (st', None) ∧
    buckets (world st) !! bucket = Some objects ∧
    buckets (world st') = <[bucket := objects ∖ list_to_set blobs]> (buckets (world st)) ∧
    deleted_folder_count st' = deleted_folder_count st + 1 ∧
    deleted_file_count st' = deleted_file_count st + length blobs ∧
    scanned_session_count st' = scanned_session_count st + 1 ∧
    trace (world st') =
      (trace (world st) ++ EvListBlobs bucket prefix :: map (EvDelete bucket) blobs
         ++ audit_calls env log_table_path row calls)%list ∧
    (∀ table entries,
        log_table_path = Some table → table ≠ EmptyString →
        insert_rows_fault bq table [audit_record env row calls] = InsertAccepted →
        tables (world st) !! table = Some (WipeoutLog entries) →
        tables (world st') =
          <[table := WipeoutLog (entries ++ [audit_record env row calls])]> (tables (world st))).
Proof.
  intros Hrender Hlist Hne Hok calls.
  destruct (session_deleted env bq sc log_table_path bucket row (incr_scanned st)
              prefix w1 blobs Hlist Hne Hok) as (objects & Hbk & Hsession).
  rewrite (process_row_rendered env bq sc log_table_path bucket template
             bucket_set template_set row st prefix Hrender), Hsession.
  set (st2 := incr_folders _).
  assert (Hcalls : length (trace (world st2)) = calls).
  { subst st2 calls. simpl. rewrite !length_app, length_map. simpl. lia. }
  destruct (log_deletion_frame env bq log_table_path row st2)
    as (st3 & exc & Hlog & (Hfolders & Hfiles & Hscanned & _) & Hbuckets & Htrace).
  rewrite Hcalls in Htrace.
  exists (match exc with Some _ => incr_errors st3 | None => st3 end), objects.
  split; [rewrite Hlog; destruct exc; reflexivity|].
  split; [exact Hbk|].
  split; [destruct exc; simpl; rewrite Hbuckets; reflexivity|].
  split; [destruct exc; simpl; rewrite Hfolders; reflexivity|].
  split; [destruct exc; simpl; rewrite Hfiles; reflexivity|].
  split; [destruct exc; simpl; rewrite Hscanned; reflexivity|].
  split.
  - destruct exc; simpl; rewrite Htrace; simpl; rewrite <- !app_assoc; reflexivity.
  - intros table entries Hpath Htable Hacc Hentries.
    rewrite <- Hcalls in Hacc |- *.
    destruct (log_deletion_accepted env bq log_table_path row st2 table entries
                Hpath Htable Hacc Hentries) as (st4 & Hlog' & Htables).
    rewrite Hlog in Hlog'. injection Hlog' as -> ->. exact Htables.
Qed.

(** C6. A session whose rendered prefix lists no object: the scanned
    counter grows by 1 and no other counter changes; the only call issued
    is the listing (no delete, no insert), so buckets and tables are as
    before; and the loop goes on with the next session. *)
Theorem C6_empty_prefix (row : Row) (rest : list Row) (st : State) (prefix : string)
    (w1 : World) :
  render_prefix (format_ext env) template row = Ok prefix →
  list_blobs sc bucket prefix (world st) = (w1, Ok []) →
  ∃ st',
    process row st = (st', None) ∧
    scanned_session_count st' = scanned_session_count st + 1 ∧
    deleted_folder_count st' = deleted_folder_count st ∧
    deleted_file_count st' = deleted_file_count st ∧
    error_count st' = error_count st ∧
    trace (world st') = (trace (world st) ++ [EvListBlobs bucket prefix])%list ∧
    buckets (world st') = buckets (world st) ∧
    tables (world st') = tables (world st) ∧
    process_rows env bq sc (Some bucket) log_table_path (Some template) (row :: rest) st =
      process_rows env bq sc (Some bucket) log_table_path (Some template) rest st'.
Proof.
  intros Hrender Hlist.
  pose proof (process_row_rendered env bq sc log_table_path bucket template
                bucket_set template_set row st prefix Hrender) as Hrow.
  rewrite (session_empty env bq sc log_table_path bucket row (incr_scanned st) prefix w1 Hlist)
    in Hrow.
  eexists. split; [exact Hrow|].
  repeat (split; [reflexivity|]).
  rewrite process_rows_cons, Hrow. reflexivity.
Qed.

(** C9. The deletion of the k-th listed object raises, the k-1 objects
    [done] before it having been deleted: the exception is caught; the file
    counter keeps its k-1 increments, the folder counter is unchanged, the
    error counter grows by 1; the k-1 objects are gone from the bucket; no
    insert into the log table is issued (the calls are the listing and the
    k deletes), and the tables are as before. *)
Theorem C9_partial_deletion (row : Row) (st : State) (prefix : string)
    (done : list string) (bad : string) (rest : list string) (e : exn) :
  render_prefix (format_ext env) template row = Ok prefix →
  (list_blobs sc bucket prefix (world st)).2 = Ok (done ++ bad :: rest)%list →
  (∀ b, b ∈ done → delete_fault sc bucket b = None) →
  delete_fault sc bucket bad = Some e →
  ∃ st' objects,
    process row st = (st', None) ∧
    deleted_file_count st' = deleted_file_count st + length done ∧
    deleted_folder_count st' = deleted_folder_count st ∧
    error_count st' = error_count st + 1 ∧
    scanned_session_count st' = scanned_session_count st + 1 ∧
    buckets (world st) !! bucket = Some objects ∧
    buckets (world st') = <[bucket := objects ∖ list_to_set done]> (buckets (world st)) ∧
    tables (world st') = tables (world st) ∧
    trace (world st') =
      (trace (world st) ++ EvListBlobs bucket prefix :: map (EvDelete bucket) done
         ++ [EvDelete bucket bad])%list.
Proof.
  intros Hrender Hlist Hok Hbad.
  pose proof (process_row_rendered env bq sc log_table_path bucket template
                bucket_set template_set row st prefix Hrender) as Hrow.
  destruct (session_partial env bq sc log_table_path bucket row (incr_scanned st) prefix
              done bad rest e Hlist Hok Hbad) as (objects & Hbk & Hsession).
  rewrite Hsession in Hrow. simpl in Hrow.
  eexists _, objects. split; [exact Hrow|]. simpl.
  repeat (split; [reflexivity || assumption|]).
  rewrite <- !app_assoc. reflexivity.
Qed.

(** C4. The session's objects were all deleted, a log table is configured,
    and the insert of the audit row is rejected by the service: the call
    returns its per-row errors.  The handler never reads that return value
    ([insert_errors] stays [None]), so the failure goes unnoticed: the
    iteration ends normally with the error counter unchanged, the folder
    and file counters keep their increments, and the log table has no row
    for the session. *)
Theorem C4_rejected_audit_row_uncounted (row : Row) (st : State) (prefix : string)
    (w1 : World) (blobs : list string) (table : string) (errors : list string) :
  render_prefix (format_ext env) template row = Ok prefix →
  list_blobs sc bucket prefix (world st) = (w1, Ok blobs) →
  blobs ≠ [] →
  (∀ b, b ∈ blobs → delete_fault sc bucket b = None) →
  log_table_path = Some table →
  table ≠ EmptyString →
  errors ≠ [] →
  insert_rows_fault bq table
    [audit_record env row (length (trace (world st)) + 1 + length blobs)]
    = InsertRowErrors errors →
  ∃ st',
    process row st = (st', None) ∧
    error_count st' = error_count st ∧
    deleted_folder_count st' = deleted_folder_count st + 1 ∧
    deleted_file_count st' = deleted_file_count st + length blobs ∧
    tables (world st') = tables (world st).
Proof.
  intros Hrender Hlist Hne Hok Hpath Htable _ Hrejected.
  destruct (session_deleted env bq sc log_table_path bucket row (incr_scanned st)
              prefix w1 blobs Hlist Hne Hok) as (objects & Hbk & Hsession).
  rewrite (process_row_rendered env bq sc log_table_path bucket template
             bucket_set template_set row st prefix Hrender), Hsession.
  set (st2 := incr_folders _).
  assert (Hcalls : length (trace (world st2))
                   = length (trace (world st)) + 1 + length blobs).
  { subst st2. simpl. rewrite !length_app, length_map. simpl. lia. }
  rewrite <- Hcalls in Hrejected.
  destruct (log_deletion_frame env bq log_table_path row st2)
    as (st3 & exc & Hlog & (Hfolders & Hfiles & _ & _) & _ & _).
  destruct (log_deletion_row_errors env bq log_table_path row st2 table errors
              Hpath Htable Hrejected) as (st4 & Hlog' & Htables & Herrors).
  rewrite Hlog in Hlog'. injection Hlog' as <- ->. rewrite Hlog.
  exists st3. split; [reflexivity|].
  rewrite Herrors, Hfolders, Hfiles, Htables. repeat split; reflexivity.
Qed.

End SessionClaims.

Section BatchClaims.
Variable env : Env.
Variable bq : BigQueryClient.
Variable sc : StorageClient.
Variables brand transcipts_table_path : string.
Variable log_table_path : option string.
Variables bucket template : string.
Hypothesis bucket_set : bucket ≠ EmptyString.
Hypothesis template_set : template ≠ EmptyString.

Local Abbreviation step := (process_row env bq sc (Some bucket) log_table_path (Some template)).
Local Abbreviation loop := (process_rows env bq sc (Some bucket) log_table_path (Some template)).
Local Abbreviation job :=
  (run_job env bq sc brand transcipts_table_path (Some bucket) log_table_path (Some template)).
Local Abbreviation the_query := (query transcipts_table_path log_table_path).

(** C2. In a batch [pre ++ x :: post], the listing or a deletion of
    session [x] raises: the exception is caught inside the iteration, the
    error counter grows by exactly 1 and the scanned counter by 1; the loop
    goes on with [post] from the state [x] left; and when the prefixes of
    the sessions of [post] render, the loop reaches its end, every session
    of the batch is counted as scanned, and the handler returns the
    summary with status 200. *)
Theorem C2_error_isolation (w w1 : World) (pre post : list Row) (x : Row) (st1 : State)
    (prefix : string) :
  run_query bq (clock env (length (trace w))) the_query w = (w1, Ok (pre ++ x :: post)) →
  loop pre (initial w1) = (st1, None) →
  render_prefix (format_ext env) template x = Ok prefix →
  storage_failure sc bucket prefix (world st1) →
  ∃ st2,
    step x st1 = (st2, None) ∧
    error_count st2 = error_count st1 + 1 ∧
    scanned_session_count st2 = scanned_session_count st1 + 1 ∧
    deleted_folder_count st2 = deleted_folder_count st1 ∧
    loop (pre ++ x :: post) (initial w1) = loop post st2 ∧
    ((∀ r, r ∈ post → ∃ p, render_prefix (format_ext env) template r = Ok p) →
     ∃ stf,
       loop post st2 = (stf, None) ∧
       scanned_session_count stf = length (pre ++ x :: post) ∧
       job w = (Returned (summary_message brand stf) 200, world stf)).
Proof.
  intros Hquery Hpre Hrender Hfail.
  pose proof (process_row_rendered env bq sc log_table_path bucket template
                bucket_set template_set x st1 prefix Hrender) as Hrow.
  assert (Hcaught : ∃ st2,
             step x st1 = (st2, None) ∧
             error_count st2 = error_count st1 + 1 ∧
             scanned_session_count st2 = scanned_session_count st1 + 1 ∧
             deleted_folder_count st2 = deleted_folder_count st1).
  { destruct Hfail as [[e Hlist] | (done & bad & rest & e & Hlist & Hok & Hbad)].
    - rewrite (session_list_raises env bq sc log_table_path bucket x (incr_scanned st1)
                 prefix e Hlist) in Hrow.
      eexists. split; [exact Hrow|]. repeat split; reflexivity.
    - destruct (session_partial env bq sc log_table_path bucket x (incr_scanned st1) prefix
                  done bad rest e Hlist Hok Hbad) as (objects & _ & Hsession).
      rewrite Hsession in Hrow. simpl in Hrow.
      eexists. split; [exact Hrow|]. repeat split; reflexivity. }
  destruct Hcaught as (st2 & Hstep & Herrors & Hscanned & Hfolders).
  assert (Hloop : loop (pre ++ x :: post) (initial w1) = loop post st2).
  { rewrite process_rows_app, Hpre, process_rows_cons, Hstep. reflexivity. }
  exists st2. repeat (split; [assumption|]).
  intros Hpost.
  destruct (process_rows_total env bq sc log_table_path bucket template post
              bucket_set template_set Hpost st2) as [stf Hend].
  exists stf. split; [exact Hend|]. split.
  - rewrite Hend in Hloop. apply process_rows_scanned in Hloop. exact Hloop.
  - unfold run_job. rewrite Hquery, Hloop, Hend. reflexivity.
Qed.

(** C10. In a batch [pre ++ x :: post], rendering the prefix of session
    [x] raises: the exception leaves the iteration without passing through
    the inner handler (the error counter is as before, no call is issued
    for [x]), the loop stops there ([post] is not processed), and the
    handler returns the failure message with status 500; the world it
    leaves is the one the sessions of [pre] produced, with their deletions
    and audit rows. *)
Theorem C10_render_failure_aborts (w w1 : World) (pre post : list Row) (x : Row)
    (st1 : State) (e : exn) :
  run_query bq (clock env (length (trace w))) the_query w = (w1, Ok (pre ++ x :: post)) →
  loop pre (initial w1) = (st1, None) →
  render_prefix (format_ext env) template x = Raise e →
  ∃ st2,
    step x st1 = (st2, Some e) ∧
    error_count st2 = error_count st1 ∧
    world st2 = world st1 ∧
    loop (pre ++ x :: post) (initial w1) = (st2, Some e) ∧
    job w = (Returned (job_failed_message brand e) 500, world st1).
Proof.
  intros Hquery Hpre Hrender.
  pose proof (process_row_render_raises env bq sc log_table_path bucket template
                bucket_set template_set x st1 e Hrender) as Hstep.
  assert (Hloop : loop (pre ++ x :: post) (initial w1) = (incr_scanned st1, Some e)).
  { rewrite process_rows_app, Hpre, process_rows_cons, Hstep. reflexivity. }
  exists (incr_scanned st1). repeat (split; [assumption || reflexivity|]).
  unfold run_job. rewrite Hquery, Hloop. reflexivity.
Qed.

End BatchClaims.

(** C5. The request names a configured brand whose configuration has a
    transcripts table but no bucket name or no path template ([None] or
    empty), and the query returns [rows]: the handler returns the summary
    with status 200 in which every row is counted as scanned and the folder,
    file and error counters are 0; the only call issued is the query, so no
    listing, no deletion and no audit insert took place, and buckets and
    tables are as before. *)
Theorem C5_deletion_disabled (env : Env) (bq : BigQueryClient) (sc : StorageClient)
    (request : Request) (payload : gmap string json) (raw : string)
    (config : gmap string string) (path : string) (w w1 : World) (rows : list Row) :
  bq_client env = Some bq →
  storage_client env = Some sc →
  get_json request = Some (JObj payload) →
  payload !! "brand" = Some (JStr raw) →
  brand_configs env !! lower raw = Some config →
  config !! "TRANSCRIPTS_TABLE_PATH" = Some path →
  path ≠ EmptyString →
  truthy (config !! "BUCKET_NAME") = false ∨ truthy (config !! "GCS_PATH_TEMPLATE") = false →
  run_query bq (clock env (length (trace w)))
    (query path (config !! "WIPEOUT_LOG_TABLE_PATH")) w = (w1, Ok rows) →
  fetch_redacted_transcripts_and_delete_audio env request w =
    (Returned (summary_message (lower raw) (only_scanned (length rows) w1)) 200, w1) ∧
  trace w1 = trace w ++ [EvQuery (sql_text (query path (config !! "WIPEOUT_LOG_TABLE_PATH")))] ∧
  buckets w1 = buckets w ∧
  tables w1 = tables w.
Proof.
  intros Hbq Hsc Hjson Hbrand Hconfig Hpath Hne Hoff Hquery.
  rewrite (handler_runs_job env bq sc request payload raw config path w
             Hbq Hsc Hjson Hbrand Hconfig Hpath Hne).
  unfold run_job. rewrite Hquery, (process_rows_disabled _ _ _ _ _ _ rows Hoff).
  split; [reflexivity|].
  pose proof (run_query_world bq (clock env (length (trace w)))
                (query path (config !! "WIPEOUT_LOG_TABLE_PATH")) w) as Hworld.
  rewrite Hquery in Hworld. simpl in Hworld. subst w1. repeat split; reflexivity.
Qed.

(** C8, as amended.  With both clients initialised, a request without a
    JSON payload, or whose payload is a document in which [brand] does not
    occur (null, false, 0, a string without it, an array without it as an
    element, an object without it as a key), gets the 400 response with
    its message, and the world is untouched: no query, no listing, no
    deletion, no audit insert. *)
Theorem C8_missing_brand_rejected (env : Env) (request : Request) (w : World) :
  is_Some (bq_client env) →
  is_Some (storage_client env) →
  lacks_brand (get_json request) →
  fetch_redacted_transcripts_and_delete_audio env request w =
    (Returned "Bad Request: Missing JSON payload with 'brand' key." 400, w).
Proof.
  intros [bq Hbq] [sc Hsc] Hlacks.
  unfold fetch_redacted_transcripts_and_delete_audio. rewrite Hbq, Hsc.
  destruct (get_json request) as [[|b|z|s|items|members]|]; simpl in Hlacks;
    [reflexivity | subst b; reflexivity | subst z; reflexivity | | | | reflexivity].
  - unfold brand_missing, truthy_json, py_in.
    destruct (negb (negb (String.eqb s ""))); [reflexivity|].
    destruct (contains "brand" s) eqn:Hcontains; [|reflexivity].
    exfalso. exact (Hlacks (contains_occurs _ _ Hcontains)).
  - unfold brand_missing, truthy_json, py_in.
    rewrite (no_brand_element items Hlacks).
    destruct items; reflexivity.
  - unfold brand_missing, truthy_json, py_in. rewrite Hlacks.
    destruct (negb (negb (bool_decide (members = ∅)))); reflexivity.
Qed.

(** C3 on the code.  The query selects DISTINCT over session id, project
    id, agent id and request time, so it does not return one row per
    session: a session with two redacted turns of the last 60 minutes at
    different request times, and no row in the log table, is returned in
    two different rows, one for each request time, and the session ids of
    the result repeat. *)
Theorem C3_session_in_several_rows (c : BigQueryClient) (now : Z) (q : Query)
    (w w' : World) (rows : list Row) (turns : list Turn) (t1 t2 : Turn)
    (rt1 rt2 : Z) (sid : string) :
  run_query c now q w = (w', Ok rows) →
  tables w !! q_transcripts q = Some (Transcripts turns) →
  t1 ∈ turns → redacted_turn now t1 rt1 sid →
  t2 ∈ turns → redacted_turn now t2 rt2 sid →
  rt1 ≠ rt2 →
  not_logged q w sid →
  (∃ r1 r2 : Row,
      r1 ∈ rows ∧ r2 ∈ rows ∧ r1 ≠ r2 ∧
      session_id r1 = sid ∧ request_time r1 = rt1 ∧
      session_id r2 = sid ∧ request_time r2 = rt2) ∧
  ¬ NoDup (session_id <$> rows).
Proof.
  intros Hrun Hturns Ht1 (Hrt1 & Hwin1 & (u1 & Hu1 & Hmark1) & name1 & aid1 & Hname1 & Haid1 & Hsid1)
         Ht2 (Hrt2 & Hwin2 & (u2 & Hu2 & Hmark2) & name2 & aid2 & Hname2 & Haid2 & Hsid2)
         Hne Hfresh.
  pose proof (query_returns_turn c now q w w' rows turns t1 rt1 name1 u1 aid1 sid
                Hrun Hturns Ht1 Hrt1 Hwin1 Hu1 Hmark1 Hname1 Haid1 Hsid1 Hfresh) as Hr1.
  pose proof (query_returns_turn c now q w w' rows turns t2 rt2 name2 u2 aid2 sid
                Hrun Hturns Ht2 Hrt2 Hwin2 Hu2 Hmark2 Hname2 Haid2 Hsid2 Hfresh) as Hr2.
  assert (Hdiff : {| session_id := sid; project_id := nth_error (SPLIT name1) 1;
                     agent_id := aid1; request_time := rt1 |}
                  ≠ {| session_id := sid; project_id := nth_error (SPLIT name2) 1;
                       agent_id := aid2; request_time := rt2 |})
    by (intros [= _ _ Heq]; exact (Hne Heq)).
  split.
  - eexists _, _. split; [exact Hr1|]. split; [exact Hr2|]. split; [exact Hdiff|].
    repeat split; reflexivity.
  - exact (repeated_image session_id rows _ _ Hr1 Hr2 Hdiff eq_refl).
Qed.

(** C7. The prefix the handler renders for a session is the path template
    with [{agent_id}] replaced by the session's agent id, [{date_str}] by
    the UTC day of the request timestamp written YYYY-MM-DD, and
    [{session_id}] by the session id, each value written as it is; this
    holds for every template made of literal text and these placeholders
    (for agent id A1, 2024-03-05T10:00:00Z and session id S1, see the
    instance that follows the theorem). *)
Theorem C7_prefix_is_template_substituted
    (ext : string → list (string * string) → result string)
    (pieces : list piece) (row : Row) :
  forallb plain pieces = true →
  render_prefix ext (template_of pieces) row = Ok (filled row pieces).
Proof.
  intros Hplain. unfold render_prefix, format.
  rewrite strftime_request_date, (scan_pieces row pieces Hplain). reflexivity.
Qed.

(* ===================================================================== *)
(** ** The statements on the small deployment *)
(* ===================================================================== *)

Section Instances.
Import Demo.

(** C1 on session S1: two recordings deleted, one audit row appended. *)
Lemma C1_deleted_session_witness :
  ∃ st' : State,
    process_row env_ok bq_ok sc_ok (Some audio_bucket) (Some log_table) (Some path_template)
      row_S1 (initial world0) = (st', None) ∧
    buckets (world st') = <[audio_bucket := recordings ∖ list_to_set S1_blobs]> (buckets world0) ∧
    deleted_folder_count st' = 1 ∧
    deleted_file_count st' = 2 ∧
    scanned_session_count st' = 1 ∧
    trace (world st') =
      [ EvListBlobs audio_bucket S1_prefix;
        EvDelete audio_bucket "mcdonalds-ttm/A1/2024-03-05/S1/a.wav";
        EvDelete audio_bucket "mcdonalds-ttm/A1/2024-03-05/S1/b.wav";
        EvInsertRows log_table
          [ {| log_session_id := Some "S1";
               request_timestamp := "2024-03-05T10:00:00+00:00";
               deleted_timestamp := "2024-03-05T10:30:00.003000" |} ] ] ∧
    tables (world st') =
      <[log_table := WipeoutLog
          [ {| log_session_id := Some "S1";
               request_timestamp := "2024-03-05T10:00:00+00:00";
               deleted_timestamp := "2024-03-05T10:30:00.003000" |} ]]> (tables world0).
Proof.
  destruct (C1_deleted_session env_ok bq_ok sc_ok (Some log_table) audio_bucket path_template
              audio_bucket_set path_template_set row_S1 (initial world0) S1_prefix
              (record_call (EvListBlobs audio_bucket S1_prefix) world0) S1_blobs)
    as (st' & objects & Hrow & Hbucket & Hbuckets & Hfolders & Hfiles & Hscanned
        & Htrace & Htables).
  - vm_compute. reflexivity.
  - vm_compute. reflexivity.
  - discriminate.
  - intros b _. reflexivity.
  - exists st'. split; [exact Hrow|].
    assert (objects = recordings) as ->
      by (apply (inj Some); rewrite <- Hbucket; reflexivity).
    split; [exact Hbuckets|]. split; [exact Hfolders|]. split; [exact Hfiles|].
    split; [exact Hscanned|]. split; [exact Htrace|].
    apply (Htables log_table []); [reflexivity | exact log_table_set | reflexivity | reflexivity].
Defined.

(** C2 on the batch S1, S1 again, S2, S4 with a storage client that cannot
    delete the second recording of S2: the failure of S2 is counted once,
    S4 is still processed, all four rows are counted, and the summary is
    returned with status 200. *)
Lemma C2_error_isolation_witness :
  let loop := process_rows env_ok bq_ok sc_flaky (Some audio_bucket) (Some log_table)
                (Some path_template) in
  let st1 := (loop [row_S1; row_S1_again] (initial queried)).1 in
  storage_failure sc_flaky audio_bucket S2_prefix (world st1) ∧
  ∃ st2 stf : State,
    process_row env_ok bq_ok sc_flaky (Some audio_bucket) (Some log_table) (Some path_template)
      row_S2 st1 = (st2, None) ∧
    error_count st2 = error_count st1 + 1 ∧
    loop [row_S4] st2 = (stf, None) ∧
    scanned_session_count stf = 4 ∧
    run_job env_ok bq_ok sc_flaky "mcdonalds" transcripts_table (Some audio_bucket)
      (Some log_table) (Some path_template) world0
    = (Returned (summary_message "mcdonalds" stf) 200, world stf).
Proof.
  intros loop st1.
  assert (Hpre : loop [row_S1; row_S1_again] (initial queried) = (st1, None))
    by (vm_compute; reflexivity).
  assert (Hfail : storage_failure sc_flaky audio_bucket S2_prefix (world st1)).
  { right. exists ["mcdonalds-ttm/A1/2024-03-05/S2/a.wav"],
      "mcdonalds-ttm/A1/2024-03-05/S2/b.wav", [], unavailable.
    split; [vm_compute; reflexivity|]. split; [|reflexivity].
    intros b Hb. apply list_elem_of_singleton in Hb as ->. reflexivity. }
  clearbody st1.
  split; [exact Hfail|].
  destruct (C2_error_isolation env_ok bq_ok sc_flaky "mcdonalds" transcripts_table
              (Some log_table) audio_bucket path_template audio_bucket_set path_template_set
              world0 queried [row_S1; row_S1_again] [row_S4] row_S2 st1 S2_prefix)
    as (st2 & Hstep & Herrors & _ & _ & _ & Hrest).
  - vm_compute. reflexivity.
  - exact Hpre.
  - vm_compute. reflexivity.
  - exact Hfail.
  - destruct Hrest as (stf & Hend & Hscanned & Hjob).
    { intros r Hr. apply list_elem_of_singleton in Hr as ->.
      exists S4_prefix. vm_compute. reflexivity. }
    exists st2, stf.
    split; [exact Hstep|]. split; [exact Herrors|]. split; [exact Hend|].
    split; [exact Hscanned|]. exact Hjob.
Defined.

(** C3 on the deployment's tables: session S1 has redacted turns at
    10:00:00 and at 10:01:00, and the query returns a row for each; the
    handler then reports four sessions where the result names three. *)
Lemma C3_session_in_several_rows_witness :
  run_query bq_ok (wall_clock 0) the_query world0
  = (queried, Ok [row_S1; row_S1_again; row_S2; row_S4]) ∧
  ((∃ r1 r2 : Row,
       r1 ∈ [row_S1; row_S1_again; row_S2; row_S4] ∧
       r2 ∈ [row_S1; row_S1_again; row_S2; row_S4] ∧
       r1 ≠ r2 ∧
       session_id r1 = "S1" ∧ request_time r1 = ten_o_clock ∧
       session_id r2 = "S1" ∧ request_time r2 = (ten_o_clock + seconds 60)%Z) ∧
   ¬ NoDup (session_id <$> [row_S1; row_S1_again; row_S2; row_S4])) ∧
  remove_dups (session_id <$> [row_S1; row_S1_again; row_S2; row_S4]) = ["S1"; "S2"; "S4"] ∧
  (fetch_redacted_transcripts_and_delete_audio env_ok (request_for "mcdonalds") world0).1
  = Returned ("Job finished for brand 'mcdonalds'. Found 4 sessions matching criteria. "
              +:+ "Successfully deleted 3 folders (5 total files). "
              +:+ "Encountered 0 errors during GCS deletion.") 200.
Proof.
  assert (Hrun : run_query bq_ok (wall_clock 0) the_query world0
                 = (queried, Ok [row_S1; row_S1_again; row_S2; row_S4]))
    by (vm_compute; reflexivity).
  split; [exact Hrun|]. split; [|split; vm_compute; reflexivity].
  apply (C3_session_in_several_rows bq_ok (wall_clock 0) the_query world0 queried
           [row_S1; row_S1_again; row_S2; row_S4] turns
           (turn ten_o_clock "S1" "my card number is [redacted]")
           (turn (ten_o_clock + seconds 60) "S1" "yes, [redacted] again")
           ten_o_clock (ten_o_clock + seconds 60)%Z "S1" Hrun).
  - vm_compute. reflexivity.
  - apply list_elem_of_here.
  - split; [reflexivity|]. split; [vm_compute; discriminate|].
    split; [exists "my card number is [redacted]"; split; vm_compute; reflexivity|].
    exists "projects/p1/locations/global/agents/A1/sessions/S1", "A1".
    repeat split; vm_compute; reflexivity.
  - apply list_elem_of_further, list_elem_of_here.
  - split; [reflexivity|]. split; [vm_compute; discriminate|].
    split; [exists "yes, [redacted] again"; split; vm_compute; reflexivity|].
    exists "projects/p1/locations/global/agents/A1/sessions/S1", "A1".
    repeat split; vm_compute; reflexivity.
  - vm_compute. discriminate.
  - intros table entries l Htable Hentries Hl.
    injection Htable as <-.
    assert (Hempty : tables world0 !! log_table = Some (WipeoutLog []))
      by reflexivity.
    rewrite Hempty in Hentries. injection Hentries as <-. inversion Hl.
Defined.

(** C4 on session S1 with a BigQuery client that rejects every audit row:
    the folder is counted as deleted, no error is counted, and the log
    table stays empty. *)
Lemma C4_rejected_audit_row_uncounted_witness :
  ∃ st' : State,
    process_row env_ok bq_rejecting sc_ok (Some audio_bucket) (Some log_table)
      (Some path_template) row_S1 (initial world0) = (st', None) ∧
    error_count st' = 0 ∧
    deleted_folder_count st' = 1 ∧
    deleted_file_count st' = 2 ∧
    tables (world st') !! log_table = Some (WipeoutLog []).
Proof.
  destruct (C4_rejected_audit_row_uncounted env_ok bq_rejecting sc_ok (Some log_table)
              audio_bucket path_template audio_bucket_set path_template_set
              row_S1 (initial world0) S1_prefix
              (record_call (EvListBlobs audio_bucket S1_prefix) world0) S1_blobs
              log_table ["no such field: request_timestamp"])
    as (st' & Hrow & Herrors & Hfolders & Hfiles & Htables).
  - vm_compute. reflexivity.
  - vm_compute. reflexivity.
  - discriminate.
  - intros b _. reflexivity.
  - reflexivity.
  - exact log_table_set.
  - discriminate.
  - reflexivity.
  - exists st'. repeat (split; [assumption|]). rewrite Htables. reflexivity.
Defined.

(** C5 on a brand configured with a transcripts table only. *)
Lemma C5_deletion_disabled_witness :
  let q := query transcripts_table None in
  let w1 := record_call (EvQuery (sql_text q)) world0 in
  fetch_redacted_transcripts_and_delete_audio env_log_only (request_for "Wendys") world0
  = (Returned (summary_message "wendys" (only_scanned 4 w1)) 200, w1) ∧
  trace w1 = [EvQuery (sql_text q)] ∧
  buckets w1 = buckets world0 ∧
  tables w1 = tables world0.
Proof.
  intros q w1.
  apply (C5_deletion_disabled env_log_only bq_ok sc_ok (request_for "Wendys")
           {[ "brand" := JStr "Wendys" ]} "Wendys" LOG_ONLY_CONFIG transcripts_table
           world0 w1 [row_S1; row_S1_again; row_S2; row_S4]).
  - reflexivity.
  - reflexivity.
  - reflexivity.
  - reflexivity.
  - vm_compute. reflexivity.
  - reflexivity.
  - exact transcripts_table_set.
  - left. reflexivity.
  - vm_compute. reflexivity.
Defined.

(** C6 on session S3, which has no recording in the bucket. *)
Lemma C6_empty_prefix_witness :
  ∃ st' : State,
    process_row env_ok bq_ok sc_ok (Some audio_bucket) (Some log_table) (Some path_template)
      row_S3 (initial world0) = (st', None) ∧
    scanned_session_count st' = 1 ∧
    deleted_folder_count st' = 0 ∧
    deleted_file_count st' = 0 ∧
    error_count st' = 0 ∧
    trace (world st') = [EvListBlobs audio_bucket S3_prefix] ∧
    buckets (world st') = buckets world0 ∧
    tables (world st') = tables world0 ∧
    process_rows env_ok bq_ok sc_ok (Some audio_bucket) (Some log_table) (Some path_template)
      [row_S3; row_S4] (initial world0)
    = process_rows env_ok bq_ok sc_ok (Some audio_bucket) (Some log_table) (Some path_template)
        [row_S4] st'.
Proof.
  apply (C6_empty_prefix env_ok bq_ok sc_ok (Some log_table) audio_bucket path_template
           audio_bucket_set path_template_set row_S3 [row_S4] (initial world0) S3_prefix
           (record_call (EvListBlobs audio_bucket S3_prefix) world0)).
  - vm_compute. reflexivity.
  - vm_compute. reflexivity.
Defined.

(** C7 on the brand's template, agent A1, session S1 and a request at
    2024-03-05T10:00:00Z. *)
Lemma C7_prefix_is_template_substituted_witness :
  template_of mcdonalds_pieces = path_template ∧
  MCDONALDS_CONFIG !! "GCS_PATH_TEMPLATE" = Some path_template ∧
  isoformat (datetime_of_micros true (request_time row_S1)) = "2024-03-05T10:00:00+00:00" ∧
  filled row_S1 mcdonalds_pieces = "mcdonalds-ttm/A1/2024-03-05/S1/" ∧
  render_prefix no_ext path_template row_S1 = Ok "mcdonalds-ttm/A1/2024-03-05/S1/".
Proof.
  split; [reflexivity|]. split; [vm_compute; reflexivity|].
  split; [vm_compute; reflexivity|]. split; [vm_compute; reflexivity|].
  exact (C7_prefix_is_template_substituted no_ext mcdonalds_pieces row_S1 eq_refl).
Defined.

(** C8, amended, on a request whose JSON object has another key. *)
Lemma C8_missing_brand_rejected_witness :
  fetch_redacted_transcripts_and_delete_audio env_ok
    (request_with (JObj {[ "store" := JStr "mcdonalds" ]})) world0
  = (Returned "Bad Request: Missing JSON payload with 'brand' key." 400, world0).
Proof.
  apply (C8_missing_brand_rejected env_ok
           (request_with (JObj {[ "store" := JStr "mcdonalds" ]})) world0).
  - eexists. reflexivity.
  - eexists. reflexivity.
  - vm_compute. reflexivity.
Defined.

(** C8 as stated fails on requests that carry no [brand] key.  When the
    clients could not be constructed, the answer is status 500 whatever
    the payload.  With the clients initialised, the payloads [5] and
    [true] make the membership test of line 52 raise, and the payloads
    ["rebrand"] and [["brand"]] pass it and make the subscript of line 55
    raise: the exception leaves the handler and no 400 is returned. *)
Lemma C8_counterexample :
  (no_brand_key (get_json empty_request) ∧
   fetch_redacted_transcripts_and_delete_audio env_down empty_request world0
   = (Returned "Cloud clients are not initialized. The function cannot proceed." 500, world0) ∧
   ¬ answered_400 (fetch_redacted_transcripts_and_delete_audio env_down empty_request world0).1) ∧
  (no_brand_key (Some (JNum 5)) ∧
   (∃ text, fetch_redacted_transcripts_and_delete_audio env_ok (request_with (JNum 5)) world0
            = (Unhandled (TypeError text), world0)) ∧
   ¬ answered_400
       (fetch_redacted_transcripts_and_delete_audio env_ok (request_with (JNum 5)) world0).1) ∧
  (no_brand_key (Some (JBool true)) ∧
   (∃ text, fetch_redacted_transcripts_and_delete_audio env_ok (request_with (JBool true)) world0
            = (Unhandled (TypeError text), world0)) ∧
   ¬ answered_400
       (fetch_redacted_transcripts_and_delete_audio env_ok (request_with (JBool true)) world0).1) ∧
  (no_brand_key (Some (JStr "rebrand")) ∧
   (∃ text, fetch_redacted_transcripts_and_delete_audio env_ok
              (request_with (JStr "rebrand")) world0
            = (Unhandled (TypeError text), world0)) ∧
   ¬ answered_400
       (fetch_redacted_transcripts_and_delete_audio env_ok
          (request_with (JStr "rebrand")) world0).1) ∧
  (no_brand_key (Some (JArr [JStr "brand"])) ∧
   (∃ text, fetch_redacted_transcripts_and_delete_audio env_ok
              (request_with (JArr [JStr "brand"])) world0
            = (Unhandled (TypeError text), world0)) ∧
   ¬ answered_400
       (fetch_redacted_transcripts_and_delete_audio env_ok
          (request_with (JArr [JStr "brand"])) world0).1).
Proof.
  split; [|split; [|split; [|split]]].
  - split; [intros members Hobject; discriminate Hobject|].
    split; [reflexivity|]. intros [body Hbody]. discriminate Hbody.
  - split; [intros members Hobject; discriminate Hobject|].
    split; [exists "argument of type 'int' is not iterable"; reflexivity|].
    intros [body Hbody]. discriminate Hbody.
  - split; [intros members Hobject; discriminate Hobject|].
    split; [exists "argument of type 'bool' is not iterable"; reflexivity|].
    intros [body Hbody]. discriminate Hbody.
  - split; [intros members Hobject; discriminate Hobject|].
    split; [exists "string indices must be integers, not 'str'"; vm_compute; reflexivity|].
    intros [body Hbody]. vm_compute in Hbody. discriminate Hbody.
  - split; [intros members Hobject; discriminate Hobject|].
    split; [exists "list indices must be integers or slices, not str"; vm_compute; reflexivity|].
    intros [body Hbody]. vm_compute in Hbody. discriminate Hbody.
Qed.

(** C9 on session S2 with the storage client that cannot delete its
    second recording: one file counted, no folder, one error, no insert. *)
Lemma C9_partial_deletion_witness :
  ∃ st' : State,
    process_row env_ok bq_ok sc_flaky (Some audio_bucket) (Some log_table) (Some path_template)
      row_S2 (initial world0) = (st', None) ∧
    deleted_file_count st' = 1 ∧
    deleted_folder_count st' = 0 ∧
    error_count st' = 1 ∧
    scanned_session_count st' = 1 ∧
    tables (world st') = tables world0 ∧
    trace (world st') =
      [ EvListBlobs audio_bucket S2_prefix;
        EvDelete audio_bucket "mcdonalds-ttm/A1/2024-03-05/S2/a.wav";
        EvDelete audio_bucket "mcdonalds-ttm/A1/2024-03-05/S2/b.wav" ].
Proof.
  destruct (C9_partial_deletion env_ok bq_ok sc_flaky (Some log_table) audio_bucket
              path_template audio_bucket_set path_template_set row_S2 (initial world0)
              S2_prefix ["mcdonalds-ttm/A1/2024-03-05/S2/a.wav"]
              "mcdonalds-ttm/A1/2024-03-05/S2/b.wav" [] unavailable)
    as (st' & objects & Hrow & Hfiles & Hfolders & Herrors & Hscanned & _ & _
        & Htables & Htrace).
  - vm_compute. reflexivity.
  - vm_compute. reflexivity.
  - intros b Hb. apply list_elem_of_singleton in Hb as ->. reflexivity.
  - reflexivity.
  - exists st'. repeat (split; [assumption|]). exact Htrace.
Defined.

(** C10 on a brand whose template names a placeholder the handler does not
    supply: the first session aborts the job with status 500 and nothing
    but the query was issued. *)
Lemma C10_render_failure_aborts_witness :
  render_prefix no_ext bad_template row_S1 = Raise (KeyError "agent") ∧
  ∃ st2 : State,
    process_row env_ok bq_ok sc_ok (Some audio_bucket) (Some log_table) (Some bad_template)
      row_S1 (initial queried) = (st2, Some (KeyError "agent")) ∧
    error_count st2 = 0 ∧
    world st2 = queried ∧
    process_rows env_ok bq_ok sc_ok (Some audio_bucket) (Some log_table) (Some bad_template)
      [row_S1; row_S1_again; row_S2; row_S4] (initial queried)
    = (st2, Some (KeyError "agent")) ∧
    run_job env_ok bq_ok sc_ok "mcdonalds" transcripts_table (Some audio_bucket)
      (Some log_table) (Some bad_template) world0
    = (Returned (job_failed_message "mcdonalds" (KeyError "agent")) 500, queried).
Proof.
  assert (Hrender : render_prefix no_ext bad_template row_S1 = Raise (KeyError "agent"))
    by (vm_compute; reflexivity).
  split; [exact Hrender|].
  apply (C10_render_failure_aborts env_ok bq_ok sc_ok "mcdonalds" transcripts_table
           (Some log_table) audio_bucket bad_template audio_bucket_set bad_template_set
           world0 queried [] [row_S1_again; row_S2; row_S4] row_S1 (initial queried)
           (KeyError "agent")).
  - vm_compute. reflexivity.
  - reflexivity.
  - exact Hrender.
Defined.

End Instances.

(* ===================================================================== *)
(** ** Further properties of the handler *)
(* ===================================================================== *)

Local Open Scope nat_scope.

(** *** Removing objects and appending rows *)

Lemma remove_objects_nil (bucket : string) (bk : gmap string (gset string)) :
  remove_objects bucket [] bk = bk.
Proof.
  unfold remove_objects. destruct (bk !! bucket) as [objects|] eqn:Hb; [|reflexivity].
  simpl. rewrite difference_empty_L. apply insert_id, Hb.
Qed.

Lemma remove_objects_app (bucket : string) (d1 d2 : list string)
    (bk : gmap string (gset string)) :
  remove_objects bucket d2 (remove_objects bucket d1 bk) = remove_objects bucket (d1 ++ d2) bk.
Proof.
  unfold remove_objects. destruct (bk !! bucket) as [objects|] eqn:Hb.
  - rewrite lookup_insert_eq, insert_insert_eq. f_equal.
    rewrite list_to_set_app_L. set_solver.
  - rewrite Hb. reflexivity.
Qed.

Lemma remove_objects_lookup (bucket : string) (done : list string)
    (bk : gmap string (gset string)) :
  remove_objects bucket done bk !! bucket
  = (λ objects, objects ∖ list_to_set done) <$> bk !! bucket.
Proof.
  unfold remove_objects. destruct (bk !! bucket) as [objects|] eqn:Hb; simpl.
  - apply lookup_insert_eq.
  - exact Hb.
Qed.

Lemma remove_objects_other (bucket other : string) (done : list string)
    (bk : gmap string (gset string)) :
  other ≠ bucket → remove_objects bucket done bk !! other = bk !! other.
Proof.
  intros Hne. unfold remove_objects. destruct (bk !! bucket); [|reflexivity].
  apply lookup_insert_ne. congruence.
Qed.

Lemma append_rows_nil (table : option string) (tb : gmap string Table) :
  append_rows table [] tb = tb.
Proof.
  unfold append_rows. destruct table as [t|]; [|reflexivity].
  destruct (tb !! t) as [[turns|entries]|] eqn:Ht; try reflexivity.
  rewrite app_nil_r. apply insert_id, Ht.
Qed.

Lemma append_rows_app (table : option string) (l1 l2 : list LogRow) (tb : gmap string Table) :
  append_rows table l2 (append_rows table l1 tb) = append_rows table (l1 ++ l2) tb.
Proof.
  unfold append_rows. destruct table as [t|]; [|reflexivity].
  destruct (tb !! t) as [[turns|entries]|] eqn:Ht.
  - rewrite Ht. reflexivity.
  - rewrite lookup_insert_eq, insert_insert_eq, app_assoc. reflexivity.
  - rewrite Ht. reflexivity.
Qed.

(** What stays of a bucket and what was removed add up. *)
Lemma size_difference_list (objects : gset string) (done : list string) :
  NoDup done → (∀ x, x ∈ done → x ∈ objects) →
  size (objects ∖ list_to_set done) + length done = size objects.
Proof.
  intros Hnodup Hin.
  assert (Hsub : list_to_set done ⊆ objects) by (intros x Hx; apply Hin; set_solver).
  rewrite (size_difference _ _ Hsub), size_list_to_set by exact Hnodup.
  pose proof (subseteq_size _ _ Hsub) as Hle.
  rewrite size_list_to_set in Hle by exact Hnodup. lia.
Qed.

(** *** Effects compose *)

Lemma effect_refl (bucket : string) (log : option string) (st : State) :
  effect bucket log 0 [] [] st st.
Proof.
  split; simpl; try lia.
  - constructor.
  - intros x Hx. inversion Hx.
  - symmetry. apply remove_objects_nil.
  - symmetry. apply append_rows_nil.
  - exists []. rewrite app_nil_r. reflexivity.
Qed.

Lemma effect_trans (bucket : string) (log : option string) (n1 n2 : nat)
    (d1 d2 : list string) (l1 l2 : list LogRow) (st st1 st2 : State) :
  effect bucket log n1 d1 l1 st st1 →
  effect bucket log n2 d2 l2 st1 st2 →
  effect bucket log (n1 + n2) (d1 ++ d2) (l1 ++ l2) st st2.
Proof.
  intros E1 E2.
  assert (Hd2 : ∀ x, x ∈ d2 →
            ∃ objects, buckets (world st) !! bucket = Some objects ∧ x ∈ objects ∧ x ∉ d1).
  { intros x Hx. destruct (eff_present _ _ _ _ _ _ _ E2 x Hx) as (objects1 & Hb1 & Hx1).
    rewrite (eff_buckets _ _ _ _ _ _ _ E1), remove_objects_lookup in Hb1.
    destruct (buckets (world st) !! bucket) as [objects|]; [|discriminate].
    injection Hb1 as <-. exists objects. split; [reflexivity|]. set_solver. }
  split.
  - apply NoDup_app. split; [exact (eff_nodup _ _ _ _ _ _ _ E1)|].
    split; [|exact (eff_nodup _ _ _ _ _ _ _ E2)].
    intros x Hx1 Hx2. destruct (Hd2 x Hx2) as (_ & _ & _ & Hnot). contradiction.
  - intros x Hx. apply elem_of_app in Hx as [Hx|Hx].
    + exact (eff_present _ _ _ _ _ _ _ E1 x Hx).
    + destruct (Hd2 x Hx) as (objects & Hb & Hin & _). eauto.
  - rewrite (eff_files _ _ _ _ _ _ _ E2), (eff_files _ _ _ _ _ _ _ E1), length_app. lia.
  - rewrite (eff_buckets _ _ _ _ _ _ _ E2), (eff_buckets _ _ _ _ _ _ _ E1).
    apply remove_objects_app.
  - rewrite (eff_tables _ _ _ _ _ _ _ E2), (eff_tables _ _ _ _ _ _ _ E1).
    apply append_rows_app.
  - pose proof (eff_scanned_lo _ _ _ _ _ _ _ E1). pose proof (eff_scanned_lo _ _ _ _ _ _ _ E2). lia.
  - pose proof (eff_scanned_hi _ _ _ _ _ _ _ E1). pose proof (eff_scanned_hi _ _ _ _ _ _ _ E2). lia.
  - pose proof (eff_folders_lo _ _ _ _ _ _ _ E1). pose proof (eff_folders_lo _ _ _ _ _ _ _ E2).
    rewrite length_app. lia.
  - pose proof (eff_folders_files _ _ _ _ _ _ _ E1).
    pose proof (eff_folders_files _ _ _ _ _ _ _ E2). rewrite length_app. lia.
  - pose proof (eff_folders_scanned _ _ _ _ _ _ _ E1).
    pose proof (eff_folders_scanned _ _ _ _ _ _ _ E2). lia.
  - pose proof (eff_errors_lo _ _ _ _ _ _ _ E1). pose proof (eff_errors_lo _ _ _ _ _ _ _ E2). lia.
  - pose proof (eff_errors_scanned _ _ _ _ _ _ _ E1).
    pose proof (eff_errors_scanned _ _ _ _ _ _ _ E2). lia.
  - destruct (eff_trace _ _ _ _ _ _ _ E1) as [c1 H1].
    destruct (eff_trace _ _ _ _ _ _ _ E2) as [c2 H2].
    exists (c1 ++ c2). rewrite H2, H1, app_assoc. reflexivity.
Qed.

(** *** What the deletion loop does, whatever fails *)

Section Effects.
Variable env : Env.
Variable bq : BigQueryClient.
Variable sc : StorageClient.
Variable log_table_path : option string.
Variable bucket : string.

(** The blobs are deleted in order up to the first failure: [done] is the
    part that went through. *)
Lemma delete_blobs_general (blobs : list string) :
  ∀ (st : State) (objects : gset string),
    buckets (world st) !! bucket = Some objects →
    NoDup blobs →
    (∀ b, b ∈ blobs → b ∈ objects) →
    ∃ done calls,
      NoDup done ∧
      (∀ x, x ∈ done → x ∈ blobs) ∧
      (delete_blobs sc bucket blobs st).1 =
        {| deleted_folder_count := deleted_folder_count st;
           deleted_file_count := deleted_file_count st + length done;
           scanned_session_count := scanned_session_count st;
           error_count := error_count st;
           world := {| tables := tables (world st);
                       buckets := <[bucket := objects ∖ list_to_set done]> (buckets (world st));
                       trace := trace (world st) ++ calls |} |} ∧
      ((delete_blobs sc bucket blobs st).2 = None → done = blobs).
Proof.
  induction blobs as [|b rest IH]; intros st objects Hbucket Hnodup Hin.
  - exists [], []. split; [constructor|]. split; [intros x Hx; inversion Hx|].
    split; [|reflexivity].
    destruct st as [nf nd ns ne [tb bk tr]]; simpl in *.
    rewrite Nat.add_0_r, app_nil_r, difference_empty_L, (insert_id _ _ _ Hbucket).
    reflexivity.
  - apply NoDup_cons in Hnodup as [Hfresh Hnodup].
    simpl. unfold blob_delete.
    destruct (delete_fault sc bucket b) as [e|].
    + exists [], [EvDelete bucket b]. split; [constructor|].
      split; [intros x Hx; inversion Hx|]. split; [|discriminate]. simpl.
      rewrite Nat.add_0_r, difference_empty_L, (insert_id _ _ _ Hbucket). reflexivity.
    + rewrite Hbucket, bool_decide_eq_true_2 by (apply Hin, list_elem_of_here).
      match goal with
      | |- context [delete_blobs sc bucket rest ?s] =>
          destruct (IH s (objects ∖ {[b]})) as (done & calls & Hnd & Hsub & Hstate & Hall)
      end.
      * apply lookup_insert_eq.
      * exact Hnodup.
      * intros x Hx. apply elem_of_difference. split.
        -- apply Hin, list_elem_of_further, Hx.
        -- intros Hxb. apply elem_of_singleton in Hxb as ->. contradiction.
      * exists (b :: done), (EvDelete bucket b :: calls).
        split; [apply NoDup_cons; split; [intros Hb; apply Hfresh, Hsub, Hb | exact Hnd]|].
        split.
        { intros x Hx. apply elem_of_cons in Hx as [->|Hx];
            [apply list_elem_of_here | apply list_elem_of_further, Hsub, Hx]. }
        split; [|intros Hnone; f_equal; apply Hall, Hnone].
        rewrite Hstate. simpl. f_equal; [rewrite <- Nat.add_assoc; reflexivity|]. f_equal.
        -- rewrite insert_insert_eq. f_equal.
           apply set_eq. intros x.
           rewrite !elem_of_difference, elem_of_union. tauto.
        -- rewrite <- app_assoc. reflexivity.
Qed.

(** The audit step appends at most one row, and only the session's own. *)
Lemma log_deletion_general (row : Row) (st : State) :
  ∃ logged,
    length logged ≤ 1 ∧
    (∀ l, l ∈ logged → ∃ calls, l = audit_record env row calls) ∧
    tables (world (log_deletion env bq log_table_path row st).1)
      = append_rows log_table_path logged (tables (world st)).
Proof.
  unfold log_deletion.
  destruct log_table_path as [table|];
    [|exists []; split; [simpl; lia|]; split; [intros l Hl; inversion Hl|reflexivity]].
  destruct (truthy (Some table)).
  2:{ exists []. split; [simpl; lia|]. split; [intros l Hl; inversion Hl|].
      symmetry. apply append_rows_nil. }
  unfold insert_rows_json. fold (audit_record env row (length (trace (world st)))).
  destruct (insert_rows_fault bq table _) as [|errors|e]; simpl.
  - unfold lookup_log.
    destruct (tables (world st) !! table) as [[turns|entries]|] eqn:Htable; simpl.
    + exists []. split; [simpl; lia|]. split; [intros l Hl; inversion Hl|].
      first [reflexivity | symmetry; apply (append_rows_nil (Some table))].
    + exists [audit_record env row (length (trace (world st)))].
      split; [simpl; lia|]. split.
      * intros l Hl. apply list_elem_of_singleton in Hl as ->. eauto.
      * reflexivity.
    + exists []. split; [simpl; lia|]. split; [intros l Hl; inversion Hl|].
      first [reflexivity | symmetry; apply (append_rows_nil (Some table))].
  - exists []. split; [simpl; lia|]. split; [intros l Hl; inversion Hl|].
    first [reflexivity | symmetry; apply (append_rows_nil (Some table))].
  - exists []. split; [simpl; lia|]. split; [intros l Hl; inversion Hl|].
    first [reflexivity | symmetry; apply (append_rows_nil (Some table))].
Qed.

(** One iteration, from its parts. *)
Lemma effect_step (row_done : list string) (logged : list LogRow) (st st' : State)
    (f e : nat) (calls : list Event) :
  NoDup row_done →
  (∀ x, x ∈ row_done → ∃ objects, buckets (world st) !! bucket = Some objects ∧ x ∈ objects) →
  deleted_file_count st' = deleted_file_count st + length row_done →
  buckets (world st') = remove_objects bucket row_done (buckets (world st)) →
  tables (world st') = append_rows log_table_path logged (tables (world st)) →
  scanned_session_count st' = scanned_session_count st + 1 →
  deleted_folder_count st' = deleted_folder_count st + f →
  length logged ≤ f → f ≤ 1 → f ≤ length row_done →
  error_count st' = error_count st + e → e ≤ 1 →
  trace (world st') = trace (world st) ++ calls →
  effect bucket log_table_path 1 row_done logged st st'.
Proof.
  intros. split; try assumption; try lia. eauto.
Qed.

(** An iteration that only counts the session. *)
Lemma effect_idle (st : State) (e : nat) (calls : list Event) (st' : State) :
  e ≤ 1 →
  st' = {| deleted_folder_count := deleted_folder_count st;
           deleted_file_count := deleted_file_count st;
           scanned_session_count := scanned_session_count st + 1;
           error_count := error_count st + e;
           world := {| tables := tables (world st); buckets := buckets (world st);
                       trace := trace (world st) ++ calls |} |} →
  effect bucket log_table_path 1 [] [] st st'.
Proof.
  intros He ->. apply (effect_step [] [] st _ 0 e calls); simpl; try lia; try reflexivity.
  - constructor.
  - intros x Hx. inversion Hx.
  - symmetry. apply remove_objects_nil.
  - symmetry. apply append_rows_nil.
Qed.

(** What one iteration does, in every case: it counts the session, removes
    objects that the session's prefix matches, and appends at most the
    session's own audit row. *)
Lemma process_row_effect (gcs_path_template : option string) (row : Row) (st : State) :
  ∃ done logged,
    effect bucket log_table_path 1 done logged st
      (process_row env bq sc (Some bucket) log_table_path gcs_path_template row st).1 ∧
    (∀ x, x ∈ done →
       ∃ template p, gcs_path_template = Some template ∧
                     render_prefix (format_ext env) template row = Ok p ∧
                     String.prefix p x = true) ∧
    (∀ l, l ∈ logged → ∃ calls, l = audit_record env row calls).
Proof.
  assert (Hidle : ∀ e calls st',
             e ≤ 1 →
             st' = {| deleted_folder_count := deleted_folder_count st;
                      deleted_file_count := deleted_file_count st;
                      scanned_session_count := scanned_session_count st + 1;
                      error_count := error_count st + e;
                      world := {| tables := tables (world st); buckets := buckets (world st);
                                  trace := trace (world st) ++ calls |} |} →
             ∃ done logged,
               effect bucket log_table_path 1 done logged st st' ∧
               (∀ x, x ∈ done →
                  ∃ template p, gcs_path_template = Some template ∧
                                render_prefix (format_ext env) template row = Ok p ∧
                                String.prefix p x = true) ∧
               (∀ l, l ∈ logged → ∃ calls, l = audit_record env row calls)).
  { intros e calls st' He Hst'. exists [], [].
    split; [exact (effect_idle st e calls st' He Hst')|].
    split; intros x Hx; inversion Hx. }
  unfold process_row.
  destruct gcs_path_template as [template|].
  2:{ apply (Hidle 0 []); [lia|]. destruct st as [nf nd ns ne [tb bk tr]]; simpl.
      rewrite Nat.add_0_r, app_nil_r. reflexivity. }
  destruct (negb (truthy (Some bucket)) || negb (truthy (Some template))).
  { apply (Hidle 0 []); [lia|]. destruct st as [nf nd ns ne [tb bk tr]]; simpl.
    rewrite Nat.add_0_r, app_nil_r. reflexivity. }
  destruct (render_prefix (format_ext env) template row) as [prefix|e] eqn:Hrender.
  2:{ apply (Hidle 0 []); [lia|]. destruct st as [nf nd ns ne [tb bk tr]]; simpl.
      rewrite Nat.add_0_r, app_nil_r. reflexivity. }
  unfold try_body. simpl (world (incr_scanned st)).
  destruct (list_blobs sc bucket prefix (world st)) as [w1 [blobs|e]] eqn:Hlist.
  2:{ pose proof (list_blobs_world sc bucket prefix (world st)) as Hw1.
      rewrite Hlist in Hw1. simpl in Hw1. subst w1.
      apply (Hidle 1 [EvListBlobs bucket prefix]); [lia|]. reflexivity. }
  destruct (list_blobs_Ok _ _ _ _ _ _ Hlist) as (-> & objects & Hbucket & Hblobs & Hnodup & Hin).
  destruct blobs as [|b0 blobs0].
  { apply (Hidle 0 [EvListBlobs bucket prefix]); [lia|]. simpl.
    rewrite Nat.add_0_r. reflexivity. }
  set (blobs := b0 :: blobs0) in *.
  set (st1 := set_world (record_call (EvListBlobs bucket prefix) (world st)) (incr_scanned st)).
  destruct (delete_blobs_general blobs st1 objects Hbucket Hnodup Hin)
    as (done & calls & Hnd & Hsub & Hstate & Hall).
  assert (Hmatch : ∀ x, x ∈ done →
            ∃ template0 p, Some template = Some template0 ∧
                           render_prefix (format_ext env) template0 row = Ok p ∧
                           String.prefix p x = true).
  { intros x Hx. exists template, prefix. split; [reflexivity|]. split; [exact Hrender|].
    apply Hsub in Hx. rewrite Hblobs in Hx.
    apply list_elem_of_In, List.filter_In in Hx as [_ Hx]. exact Hx. }
  assert (Hpresent : ∀ x, x ∈ done →
            ∃ objects0, buckets (world st) !! bucket = Some objects0 ∧ x ∈ objects0).
  { intros x Hx. exists objects. split; [exact Hbucket|]. apply Hin, Hsub, Hx. }
  assert (Hremove : <[bucket := objects ∖ list_to_set done]> (buckets (world st))
                    = remove_objects bucket done (buckets (world st))).
  { unfold remove_objects. rewrite Hbucket. reflexivity. }
  destruct (delete_blobs sc bucket blobs st1) as [st2 [e|]] eqn:Hdelete;
    simpl in Hstate, Hall; subst st2.
  - exists done, []. split; [|split; [exact Hmatch | intros l Hl; inversion Hl]].
    apply (effect_step done [] st _ 0 1 (EvListBlobs bucket prefix :: calls));
      simpl; try lia; try assumption; try reflexivity.
    + symmetry. apply append_rows_nil.
    + rewrite <- app_assoc. reflexivity.
  - specialize (Hall eq_refl). subst done.
    match goal with
    | |- context [log_deletion env bq log_table_path row ?s] => set (st3 := s)
    end.
    destruct (log_deletion_frame env bq log_table_path row st3)
      as (st4 & exc & Hlog & (Hfolders & Hfiles & Hscanned & Herrors) & Hbuckets & Htrace).
    destruct (log_deletion_general row st3)
      as (logged & Hlen & Hrows & Htables).
    rewrite Hlog in Htables |- *. subst st3.
    simpl in Hfolders, Hfiles, Hscanned, Herrors, Hbuckets, Htrace, Htables.
    exists blobs, logged. split; [|split; [exact Hmatch | exact Hrows]].
    assert (Hblobs_len : 1 ≤ length blobs) by (subst blobs; simpl; lia).
    destruct exc as [e|]; simpl.
    + apply (effect_step blobs logged st _ 1 1
               (EvListBlobs bucket prefix :: calls
                  ++ audit_calls env log_table_path row
                       (length ((trace (world st) ++ [EvListBlobs bucket prefix]) ++ calls))));
        simpl; try lia; try assumption;
        try (rewrite Hbuckets; exact Hremove);
        try (rewrite Htrace, <- !app_assoc; reflexivity).
    + apply (effect_step blobs logged st _ 1 0
               (EvListBlobs bucket prefix :: calls
                  ++ audit_calls env log_table_path row
                       (length ((trace (world st) ++ [EvListBlobs bucket prefix]) ++ calls))));
        simpl; try lia; try assumption;
        try (rewrite Hbuckets; exact Hremove);
        try (rewrite Htrace, <- !app_assoc; reflexivity).
Qed.

Lemma effect_more_iterations (n m : nat) (done : list string) (logged : list LogRow)
    (st st' : State) :
  n ≤ m →
  effect bucket log_table_path n done logged st st' →
  effect bucket log_table_path m done logged st st'.
Proof.
  intros Hle E. destruct E. split; try assumption. lia.
Qed.

(** What the loop does over a batch, whether it reaches its end or not. *)
Lemma process_rows_effect (gcs_path_template : option string) (rows : list Row) :
  ∀ st : State,
    ∃ done logged,
      effect bucket log_table_path (length rows) done logged st
        (process_rows env bq sc (Some bucket) log_table_path gcs_path_template rows st).1 ∧
      (∀ x, x ∈ done →
         ∃ row template p, row ∈ rows ∧ gcs_path_template = Some template ∧
                           render_prefix (format_ext env) template row = Ok p ∧
                           String.prefix p x = true) ∧
      (∀ l, l ∈ logged → ∃ row calls, row ∈ rows ∧ l = audit_record env row calls).
Proof.
  induction rows as [|row rest IH]; intros st.
  - exists [], []. split; [apply effect_refl|]. split; intros x Hx; inversion Hx.
  - rewrite process_rows_cons.
    destruct (process_row_effect gcs_path_template row st)
      as (d1 & l1 & E1 & Hd1 & Hl1).
    destruct (process_row env bq sc (Some bucket) log_table_path gcs_path_template row st)
      as [st1 [e|]]; simpl in E1.
    + exists d1, l1. split; [apply (effect_more_iterations 1); [simpl; lia | exact E1]|].
      split.
      * intros x Hx. destruct (Hd1 x Hx) as (template & p & H1 & H2 & H3).
        exists row, template, p. split; [apply list_elem_of_here|]. auto.
      * intros l Hl. destruct (Hl1 l Hl) as (calls & ->).
        exists row, calls. split; [apply list_elem_of_here | reflexivity].
    + destruct (IH st1) as (d2 & l2 & E2 & Hd2 & Hl2).
      exists (d1 ++ d2), (l1 ++ l2).
      split; [exact (effect_trans bucket log_table_path 1 (length rest) d1 d2 l1 l2 _ _ _ E1 E2)|].
      split.
      * intros x Hx. apply elem_of_app in Hx as [Hx|Hx].
        -- destruct (Hd1 x Hx) as (template & p & H1 & H2 & H3).
           exists row, template, p. split; [apply list_elem_of_here|]. auto.
        -- destruct (Hd2 x Hx) as (row' & template & p & H0 & H1 & H2 & H3).
           exists row', template, p. split; [apply list_elem_of_further, H0|]. auto.
      * intros l Hl. apply elem_of_app in Hl as [Hl|Hl].
        -- destruct (Hl1 l Hl) as (calls & ->).
           exists row, calls. split; [apply list_elem_of_here | reflexivity].
        -- destruct (Hl2 l Hl) as (row' & calls & H0 & ->).
           exists row', calls. split; [apply list_elem_of_further, H0 | reflexivity].
Qed.

End Effects.

(** *** From the loop to the job and to the handler *)

Lemma evolves_refl (w : World) : evolves w w.
Proof.
  exists EmptyString, [], None, []. split; [symmetry; apply remove_objects_nil | reflexivity].
Qed.

(** The loop changes the world by removals from the configured bucket and
    appends to the configured log table, whatever the configuration. *)
Lemma process_rows_evolves (env : Env) (bq : BigQueryClient) (sc : StorageClient)
    (gcs_bucket_name log_table_path gcs_path_template : option string)
    (rows : list Row) (st : State) :
  evolves (world st)
    (world (process_rows env bq sc gcs_bucket_name log_table_path gcs_path_template rows st).1).
Proof.
  destruct gcs_bucket_name as [bucket|].
  - destruct (process_rows_effect env bq sc log_table_path bucket gcs_path_template rows st)
      as (done & logged & E & _ & _).
    exists bucket, done, log_table_path, logged.
    split; [exact (eff_buckets _ _ _ _ _ _ _ E) | exact (eff_tables _ _ _ _ _ _ _ E)].
  - rewrite (process_rows_disabled env bq sc None log_table_path gcs_path_template rows
               (or_introl eq_refl) st).
    apply evolves_refl.
Qed.

(** The job: the query is issued; it fails, or the loop runs over its
    rows. *)
Lemma run_job_cases (env : Env) (bq : BigQueryClient) (sc : StorageClient)
    (brand path : string) (gcs_bucket_name log_table_path gcs_path_template : option string)
    (w : World) :
  let w1 := record_call (EvQuery (sql_text (query path log_table_path))) w in
  let job := run_job env bq sc brand path gcs_bucket_name log_table_path gcs_path_template w in
  (∃ e, job = (Returned (job_failed_message brand e) 500, w1)) ∨
  (∃ rows,
     run_query bq (clock env (length (trace w))) (query path log_table_path) w = (w1, Ok rows) ∧
     job.2 = world (process_rows env bq sc gcs_bucket_name log_table_path gcs_path_template
                      rows (initial w1)).1).
Proof.
  intros w1 job. subst job w1. unfold run_job.
  pose proof (run_query_world bq (clock env (length (trace w))) (query path log_table_path) w)
    as Hw1.
  destruct (run_query bq (clock env (length (trace w))) (query path log_table_path) w)
    as [w1' [rows|e]]; simpl in Hw1; subst w1'.
  - right. exists rows. split; [reflexivity|].
    destruct (process_rows env bq sc gcs_bucket_name log_table_path gcs_path_template rows
                (initial _)) as [st [e|]]; reflexivity.
  - left. exists e. reflexivity.
Qed.

(** The handler leaves the world as it is, or runs the job of a
    configured brand. *)
Lemma handler_cases (env : Env) (request : Request) (w : World) :
  (fetch_redacted_transcripts_and_delete_audio env request w).2 = w ∨
  ∃ bq sc brand path config,
    bq_client env = Some bq ∧ storage_client env = Some sc ∧
    brand_configs env !! brand = Some config ∧
    config !! "TRANSCRIPTS_TABLE_PATH" = Some path ∧
    fetch_redacted_transcripts_and_delete_audio env request w =
      run_job env bq sc brand path (config !! "BUCKET_NAME")
        (config !! "WIPEOUT_LOG_TABLE_PATH") (config !! "GCS_PATH_TEMPLATE") w.
Proof.
  unfold fetch_redacted_transcripts_and_delete_audio.
  destruct (bq_client env) as [bq|]; [|left; reflexivity].
  destruct (storage_client env) as [sc|]; [|left; reflexivity].
  destruct (brand_missing (get_json request)) as [[|]|e]; try (left; reflexivity).
  destruct (brand_of (get_json request)) as [brand|e]; [|left; reflexivity].
  destruct (brand_configs env !! brand) as [config|] eqn:Hconfig; [|left; reflexivity].
  destruct (bool_decide (config = ∅)); [left; reflexivity|].
  destruct (config !! "TRANSCRIPTS_TABLE_PATH") as [path|] eqn:Hpath; [|left; reflexivity].
  destruct (truthy (Some path)); [|left; reflexivity].
  right. exists bq, sc, brand, path, config. rewrite Hpath. auto.
Qed.

Lemma run_job_evolves (env : Env) (bq : BigQueryClient) (sc : StorageClient)
    (brand path : string) (gcs_bucket_name log_table_path gcs_path_template : option string)
    (w : World) :
  evolves w (run_job env bq sc brand path gcs_bucket_name log_table_path gcs_path_template w).2.
Proof.
  destruct (run_job_cases env bq sc brand path gcs_bucket_name log_table_path
              gcs_path_template w) as [[e ->] | (rows & _ & ->)].
  - apply (evolves_refl w).
  - apply (process_rows_evolves env bq sc gcs_bucket_name log_table_path gcs_path_template
             rows (initial (record_call _ w))).
Qed.

Lemma handler_evolves (env : Env) (request : Request) (w : World) :
  evolves w (fetch_redacted_transcripts_and_delete_audio env request w).2.
Proof.
  destruct (handler_cases env request w) as [-> | (bq & sc & brand & path & config & _ & _ & _ & _ & ->)].
  - apply evolves_refl.
  - apply run_job_evolves.
Qed.

(** X1. Whatever the request and the outcome, the handler never creates a
    bucket or an object: every bucket is still there and holds a subset of
    what it held, and no bucket appears. *)
Theorem handler_buckets_only_shrink (env : Env) (request : Request) (w : World)
    (bucket : string) :
  match buckets w !! bucket with
  | Some objects =>
      ∃ objects',
        buckets (fetch_redacted_transcripts_and_delete_audio env request w).2 !! bucket
          = Some objects' ∧
        objects' ⊆ objects
  | None =>
      buckets (fetch_redacted_transcripts_and_delete_audio env request w).2 !! bucket = None
  end.
Proof.
  destruct (handler_evolves env request w) as (b & done & log & logged & Hbuckets & _).
  rewrite Hbuckets. destruct (decide (bucket = b)) as [->|Hne].
  - rewrite remove_objects_lookup.
    destruct (buckets w !! b) as [objects|]; simpl; [|reflexivity].
    eexists. split; [reflexivity|]. set_solver.
  - rewrite (remove_objects_other b bucket done _ Hne).
    destruct (buckets w !! bucket) as [objects|]; [|reflexivity].
    exists objects. split; [reflexivity|]. set_solver.
Qed.

(** X2. Whatever the request and the outcome, the handler never modifies
    or removes a transcripts table, never creates or removes a table, and
    changes a log table only by appending rows to it. *)
Theorem handler_tables_append_only (env : Env) (request : Request) (w : World)
    (path : string) :
  match tables w !! path with
  | Some (Transcripts turns) =>
      tables (fetch_redacted_transcripts_and_delete_audio env request w).2 !! path
        = Some (Transcripts turns)
  | Some (WipeoutLog entries) =>
      ∃ more,
        tables (fetch_redacted_transcripts_and_delete_audio env request w).2 !! path
          = Some (WipeoutLog (entries ++ more))
  | None =>
      tables (fetch_redacted_transcripts_and_delete_audio env request w).2 !! path = None
  end.
Proof.
  destruct (handler_evolves env request w) as (b & done & log & logged & _ & Htables).
  rewrite Htables. unfold append_rows.
  assert (Hsame : match tables w !! path with
                  | Some (Transcripts turns) => tables w !! path = Some (Transcripts turns)
                  | Some (WipeoutLog entries) =>
                      ∃ more, tables w !! path = Some (WipeoutLog (entries ++ more))
                  | None => tables w !! path = None
                  end).
  { destruct (tables w !! path) as [[turns|entries]|]; try reflexivity.
    exists []. rewrite app_nil_r. reflexivity. }
  destruct log as [t|]; [|exact Hsame].
  destruct (tables w !! t) as [[turns|entries]|] eqn:Ht; try exact Hsame.
  destruct (decide (path = t)) as [->|Hne].
  - rewrite Ht, lookup_insert_eq. exists logged. reflexivity.
  - rewrite lookup_insert_ne by congruence. exact Hsame.
Qed.

(** *** The job and its bucket *)

Lemma effect_bucket_size (bucket : string) (log : option string) (n : nat)
    (done : list string) (logged : list LogRow) (st st' : State) :
  effect bucket log n done logged st st' →
  deleted_file_count st' + bucket_size (world st') bucket
  = deleted_file_count st + bucket_size (world st) bucket.
Proof.
  intros E. unfold bucket_size.
  rewrite (eff_files _ _ _ _ _ _ _ E), (eff_buckets _ _ _ _ _ _ _ E), remove_objects_lookup.
  destruct (buckets (world st) !! bucket) as [objects|] eqn:Hbucket; simpl.
  - assert (Hin : ∀ x, x ∈ done → x ∈ objects).
    { intros x Hx. destruct (eff_present _ _ _ _ _ _ _ E x Hx) as (objects0 & Hb & Hx0).
      congruence. }
    pose proof (size_difference_list objects done (eff_nodup _ _ _ _ _ _ _ E) Hin). lia.
  - destruct done as [|x done]; [simpl; lia|].
    destruct (eff_present _ _ _ _ _ _ _ E x) as (objects0 & Hb & _);
      [apply list_elem_of_here | congruence].
Qed.

Section JobFacts.
Variable env : Env.
Variable bq : BigQueryClient.
Variable sc : StorageClient.
Variables brand path : string.
Variable log_table_path : option string.
Variable bucket : string.
Variable gcs_path_template : option string.

Local Abbreviation job :=
  (run_job env bq sc brand path (Some bucket) log_table_path gcs_path_template).
Local Abbreviation loop :=
  (process_rows env bq sc (Some bucket) log_table_path gcs_path_template).

(** A job that ends with status 200 ran the loop to its end. *)
Lemma run_job_200 (w w' : World) (body : string) :
  job w = (Returned body 200, w') →
  ∃ rows st,
    run_query bq (clock env (length (trace w))) (query path log_table_path) w
      = (record_call (EvQuery (sql_text (query path log_table_path))) w, Ok rows) ∧
    loop rows (initial (record_call (EvQuery (sql_text (query path log_table_path))) w))
      = (st, None) ∧
    body = summary_message brand st ∧
    w' = world st.
Proof.
  unfold run_job. intros Hjob.
  pose proof (run_query_world bq (clock env (length (trace w))) (query path log_table_path) w)
    as Hw1.
  destruct (run_query bq (clock env (length (trace w))) (query path log_table_path) w)
    as [w1 [rows|e]]; simpl in Hw1; subst w1; [|discriminate].
  destruct (loop rows (initial _)) as [st [e|]] eqn:Hloop; [discriminate|].
  injection Hjob as <- <-. exists rows, st. auto.
Qed.

(** X3. The job leaves every bucket other than the brand's as it was. *)
Theorem job_leaves_other_buckets (w : World) (other : string) :
  other ≠ bucket →
  buckets (job w).2 !! other = buckets w !! other.
Proof.
  intros Hne.
  destruct (run_job_cases env bq sc brand path (Some bucket) log_table_path
              gcs_path_template w) as [[e ->] | (rows & _ & ->)]; [reflexivity|].
  destruct (process_rows_effect env bq sc log_table_path bucket gcs_path_template rows
              (initial (record_call (EvQuery (sql_text (query path log_table_path))) w)))
    as (done & logged & E & _ & _).
  rewrite (eff_buckets _ _ _ _ _ _ _ E). apply remove_objects_other, Hne.
Qed.

(** X4. Every object the job removes from the bucket lies under the
    prefix rendered for one of the sessions the query returned. *)
Theorem removed_objects_match_a_session (w w1 : World) (rows : list Row)
    (objects objects' : gset string) (x : string) :
  run_query bq (clock env (length (trace w))) (query path log_table_path) w = (w1, Ok rows) →
  buckets w !! bucket = Some objects →
  buckets (job w).2 !! bucket = Some objects' →
  x ∈ objects →
  x ∉ objects' →
  ∃ row template prefix,
    row ∈ rows ∧ gcs_path_template = Some template ∧
    render_prefix (format_ext env) template row = Ok prefix ∧
    String.prefix prefix x = true.
Proof.
  intros Hquery Hbefore Hafter Hin Hout.
  destruct (run_job_cases env bq sc brand path (Some bucket) log_table_path
              gcs_path_template w) as [[e Hjob] | (rows' & Hquery' & Hjob)];
    rewrite Hjob in Hafter.
  - simpl in Hafter. rewrite Hbefore in Hafter. injection Hafter as <-. contradiction.
  - rewrite Hquery in Hquery'. injection Hquery' as _ <-.
    destruct (process_rows_effect env bq sc log_table_path bucket gcs_path_template rows
                (initial (record_call (EvQuery (sql_text (query path log_table_path))) w)))
      as (done & logged & E & Hdone & _).
    rewrite (eff_buckets _ _ _ _ _ _ _ E), remove_objects_lookup in Hafter.
    simpl in Hafter. rewrite Hbefore in Hafter. injection Hafter as <-.
    apply Hdone. apply dec_stable. intros Hnot. apply Hout.
    apply elem_of_difference. split; [exact Hin|]. rewrite elem_of_list_to_set. exact Hnot.
Qed.

(** X5. When the job ends with status 200, the file count of its summary
    is exactly the number of objects that left the bucket. *)
Theorem summary_files_are_objects_removed (w w' : World) (body : string) :
  job w = (Returned body 200, w') →
  ∃ st,
    body = summary_message brand st ∧
    deleted_file_count st + bucket_size w' bucket = bucket_size w bucket.
Proof.
  intros Hjob. destruct (run_job_200 w w' body Hjob) as (rows & st & _ & Hloop & -> & ->).
  exists st. split; [reflexivity|].
  destruct (process_rows_effect env bq sc log_table_path bucket gcs_path_template rows
              (initial (record_call (EvQuery (sql_text (query path log_table_path))) w)))
    as (done & logged & E & _ & _).
  rewrite Hloop in E. simpl in E.
  apply effect_bucket_size in E. exact E.
Qed.

(** X6. When the job ends with status 200, the numbers of its summary are
    consistent: every row the query returned is counted as scanned, a
    deleted folder had at least one file, and neither the folders nor the
    errors outnumber the sessions. *)
Theorem summary_counters_bounds (w w' : World) (body : string) :
  job w = (Returned body 200, w') →
  ∃ rows st,
    run_query bq (clock env (length (trace w))) (query path log_table_path) w
      = (record_call (EvQuery (sql_text (query path log_table_path))) w, Ok rows) ∧
    body = summary_message brand st ∧
    scanned_session_count st = length rows ∧
    deleted_folder_count st ≤ deleted_file_count st ∧
    deleted_folder_count st ≤ length rows ∧
    error_count st ≤ length rows.
Proof.
  intros Hjob. destruct (run_job_200 w w' body Hjob) as (rows & st & Hquery & Hloop & -> & ->).
  exists rows, st. split; [exact Hquery|]. split; [reflexivity|].
  pose proof (process_rows_scanned env bq sc (Some bucket) log_table_path gcs_path_template
                rows _ st Hloop) as Hscanned. simpl in Hscanned.
  destruct (process_rows_effect env bq sc log_table_path bucket gcs_path_template rows
              (initial (record_call (EvQuery (sql_text (query path log_table_path))) w)))
    as (done & logged & E & _ & _).
  rewrite Hloop in E. simpl in E. destruct E; simpl in *. repeat split; lia.
Qed.

End JobFacts.

(** X7. With a log table configured, the loop changes it only by appending
    audit rows of sessions of the batch, each with the session's id and
    request time, and never more rows than folders it counted as deleted. *)
Theorem audit_rows_belong_to_deleted_sessions (env : Env) (bq : BigQueryClient)
    (sc : StorageClient) (bucket table : string) (gcs_path_template : option string)
    (rows : list Row) (st : State) (entries : list LogRow) :
  tables (world st) !! table = Some (WipeoutLog entries) →
  let stf := (process_rows env bq sc (Some bucket) (Some table) gcs_path_template rows st).1 in
  ∃ more,
    tables (world stf) !! table = Some (WipeoutLog (entries ++ more)) ∧
    deleted_folder_count st + length more ≤ deleted_folder_count stf ∧
    ∀ l, l ∈ more →
      ∃ row, row ∈ rows ∧
             log_session_id l = Some (session_id row) ∧
             request_timestamp l = isoformat (datetime_of_micros true (request_time row)).
Proof.
  intros Htable stf. subst stf.
  destruct (process_rows_effect env bq sc (Some table) bucket gcs_path_template rows st)
    as (done & logged & E & _ & Hlogged).
  exists logged. split; [|split].
  - rewrite (eff_tables _ _ _ _ _ _ _ E). unfold append_rows. rewrite Htable.
    apply lookup_insert_eq.
  - exact (eff_folders_lo _ _ _ _ _ _ _ E).
  - intros l Hl. destruct (Hlogged l Hl) as (row & calls & Hrow & ->).
    exists row. split; [exact Hrow|]. split; reflexivity.
Qed.

(** *** The query *)

(** The exclusion join: no returned row has a session id that the log
    table holds. *)
Lemma query_excludes_logged_sessions_aux (c : BigQueryClient) (now : Z) (path table : string)
    (w w' : World) (rows : list Row) (entries : list LogRow) (l : LogRow) (r : Row) :
  table ≠ EmptyString →
  run_query c now (query path (Some table)) w = (w', Ok rows) →
  tables w !! table = Some (WipeoutLog entries) →
  l ∈ entries →
  r ∈ rows →
  log_session_id l ≠ Some (session_id r).
Proof.
  intros Htable Hrun Hentries Hl Hr Hsame.
  destruct (run_query_Ok c now _ w w' rows Hrun) as (turns & cts & log & _ & _ & Hlog & Hrows).
  unfold query in Hlog. cbn [q_log] in Hlog. rewrite (truthy_Some table Htable) in Hlog.
  destruct Hlog as (entries' & Hentries' & ->).
  rewrite Hentries in Hentries'. injection Hentries' as <-.
  apply Hrows in Hr as (ct & _ & Hselect).
  apply select_row_Some in Hselect as (u & _ & _ & _ & _ & _ & _ & Hnot).
  assert (Hyes : logged entries (session_id r) = true) by (apply logged_true; eauto).
  congruence.
Qed.

(** X8. A session that has a row in the configured log table is never
    returned by the job's query: the exclusion join. *)
Theorem query_excludes_logged_sessions (c : BigQueryClient) (now : Z) (path table : string)
    (w w' : World) (rows : list Row) (entries : list LogRow) (l : LogRow) (r : Row) :
  table ≠ EmptyString →
  run_query c now (query path (Some table)) w = (w', Ok rows) →
  tables w !! table = Some (WipeoutLog entries) →
  l ∈ entries →
  r ∈ rows →
  log_session_id l ≠ Some (session_id r).
Proof.
  exact (query_excludes_logged_sessions_aux c now path table w w' rows entries l r).
Qed.

(** X9. Every row the query returns comes from a turn of the transcripts
    table whose request time lies in the trailing 60 minutes, whose
    utterance text contains the marker, and whose conversation name has the
    row's project, agent and session ids as its segments 1, 5 and 7. *)
Theorem query_rows_come_from_redacted_turns (c : BigQueryClient) (now : Z) (q : Query)
    (w w' : World) (rows : list Row) (r : Row) :
  run_query c now q w = (w', Ok rows) →
  r ∈ rows →
  ∃ turns t name utterance,
    tables w !! q_transcripts q = Some (Transcripts turns) ∧
    t ∈ turns ∧
    turn_request_time t = Some (request_time r) ∧
    (now - sixty_minutes ≤ request_time r)%Z ∧
    userUtterances t = Some utterance ∧
    contains "[redacted]" utterance = true ∧
    conversation_name t = Some name ∧
    nth_error (SPLIT name) 1 = project_id r ∧
    nth_error (SPLIT name) 5 = Some (agent_id r) ∧
    nth_error (SPLIT name) 7 = Some (session_id r).
Proof.
  intros Hrun Hr.
  destruct (run_query_Ok c now q w w' rows Hrun) as (turns & cts & log & Hturns & Hcts & _ & Hrows).
  apply Hrows in Hr as (ct & Hct & Hselect).
  apply select_row_Some in Hselect as (u & Hu & Hmark & Hsid & Haid & Hpid & Htime & _).
  apply (ConversationTurn_elem now turns cts Hcts) in Hct
    as (t & Ht & Hrt & Hwin & Hp & Ha & Hs & Hutt).
  rewrite Hsid in Hs. rewrite Haid in Ha.
  apply split_offset_Some in Hs as (name & Hname & Hs).
  apply split_offset_Some in Ha as (name' & Hname' & Ha).
  rewrite Hname in Hname'. injection Hname' as <-.
  exists turns, t, name, u. rewrite Htime, Hpid.
  split; [exact Hturns|]. split; [exact Ht|]. split; [exact Hrt|]. split; [exact Hwin|].
  split; [congruence|]. split; [exact Hmark|]. split; [exact Hname|].
  split; [|split; assumption].
  rewrite Hname in Hp. unfold split_offset in Hp.
  destruct (nth_error (SPLIT name) 1); [|discriminate]. congruence.
Qed.

(** X10. When the query succeeds, it misses no session: a turn of the last
    60 minutes whose utterance contains the marker and whose conversation
    name has an agent at segment 5 and a session at segment 7 gives a row
    with that session, agent and request time, unless the session has a row
    in the configured log table. *)
Theorem query_returns_every_redacted_turn (c : BigQueryClient) (now : Z) (q : Query)
    (w w' : World) (rows : list Row) (turns : list Turn) (t : Turn)
    (rt : Z) (name utterance aid sid : string) :
  run_query c now q w = (w', Ok rows) →
  tables w !! q_transcripts q = Some (Transcripts turns) →
  t ∈ turns →
  turn_request_time t = Some rt →
  (now - sixty_minutes ≤ rt)%Z →
  userUtterances t = Some utterance →
  contains "[redacted]" utterance = true →
  conversation_name t = Some name →
  nth_error (SPLIT name) 5 = Some aid →
  nth_error (SPLIT name) 7 = Some sid →
  (∀ table entries l,
      q_log q = Some table → tables w !! table = Some (WipeoutLog entries) →
      l ∈ entries → log_session_id l ≠ Some sid) →
  {| session_id := sid; project_id := nth_error (SPLIT name) 1;
     agent_id := aid; request_time := rt |} ∈ rows.
Proof.
  exact (query_returns_turn c now q w w' rows turns t rt name utterance aid sid).
Qed.

(** *** A session that was deleted *)


Section Deleted.
Variable env : Env.
Variable bq : BigQueryClient.
Variable sc : StorageClient.
Variable log_table_path : option string.
Variables bucket template : string.
Hypothesis bucket_set : bucket ≠ EmptyString.
Hypothesis template_set : template ≠ EmptyString.

Local Abbreviation process :=
  (process_row env bq sc (Some bucket) log_table_path (Some template)).

(** The state a fully deleted session leaves: the listed objects are gone,
    and the audit step ran from the state the deletions produced. *)
Lemma deleted_session_state (row : Row) (st : State) (prefix : string) (w1 : World)
    (blobs : list string) :
  render_prefix (format_ext env) template row = Ok prefix →
  list_blobs sc bucket prefix (world st) = (w1, Ok blobs) →
  blobs ≠ [] →
  (∀ b, b ∈ blobs → delete_fault sc bucket b = None) →
  ∃ objects st2 st3 exc,
    buckets (world st) !! bucket = Some objects ∧
    blobs = List.filter (String.prefix prefix) (elements objects) ∧
    list_fault sc bucket prefix = None ∧
    length (trace (world st2)) = length (trace (world st)) + 1 + length blobs ∧
    tables (world st2) = tables (world st) ∧
    log_deletion env bq log_table_path row st2 = (st3, exc) ∧
    buckets (world st3) = <[bucket := objects ∖ list_to_set blobs]> (buckets (world st)) ∧
    process row st = (match exc with Some _ => incr_errors st3 | None => st3 end, None).
Proof.
  intros Hrender Hlist Hne Hok.
  assert (Hfault : list_fault sc bucket prefix = None).
  { unfold list_blobs in Hlist. destruct (list_fault sc bucket prefix); [discriminate|reflexivity]. }
  destruct (list_blobs_Ok sc bucket prefix (world st) w1 blobs Hlist)
    as (_ & objects & Hbucket & Hblobs & _ & _).
  destruct (session_deleted env bq sc log_table_path bucket row (incr_scanned st)
              prefix w1 blobs Hlist Hne Hok) as (objects' & Hbucket' & Hsession).
  simpl in Hbucket'. rewrite Hbucket in Hbucket'. injection Hbucket' as <-.
  rewrite (process_row_rendered env bq sc log_table_path bucket template
             bucket_set template_set row st prefix Hrender), Hsession.
  match goal with
  | |- context [log_deletion env bq log_table_path row ?s] => set (st2 := s)
  end.
  destruct (log_deletion_frame env bq log_table_path row st2)
    as (st3 & exc & Hlog & _ & Hbuckets & _).
  exists objects, st2, st3, exc.
  split; [exact Hbucket|]. split; [exact Hblobs|]. split; [exact Hfault|].
  split; [subst st2; simpl; rewrite !length_app, length_map; simpl; lia|].
  split; [reflexivity|]. split; [exact Hlog|]. split; [rewrite Hbuckets; reflexivity|].
  rewrite Hlog. destruct exc; reflexivity.
Qed.

(** X11. A session whose objects were all deleted and whose audit row was
    accepted is never returned again by the job's query. *)
Theorem logged_session_is_not_selected_again (row : Row) (st : State) (prefix : string)
    (w1 : World) (blobs : list string) (table : string) (entries : list LogRow)
    (c : BigQueryClient) (now : Z) (path : string) (w' : World) (rows : list Row) (r : Row) :
  render_prefix (format_ext env) template row = Ok prefix →
  list_blobs sc bucket prefix (world st) = (w1, Ok blobs) →
  blobs ≠ [] →
  (∀ b, b ∈ blobs → delete_fault sc bucket b = None) →
  log_table_path = Some table →
  table ≠ EmptyString →
  insert_rows_fault bq table
    [audit_record env row (length (trace (world st)) + 1 + length blobs)] = InsertAccepted →
  tables (world st) !! table = Some (WipeoutLog entries) →
  run_query c now (query path (Some table)) (world (process row st).1) = (w', Ok rows) →
  r ∈ rows →
  session_id r ≠ session_id row.
Proof.
  intros Hrender Hlist Hne Hok Hpath Htable Hacc Hentries Hrun Hr Hsame.
  destruct (deleted_session_state row st prefix w1 blobs Hrender Hlist Hne Hok)
    as (objects & st2 & st3 & exc & _ & _ & _ & Hcalls & Htables2 & Hlog & _ & Hrow).
  rewrite <- Hcalls in Hacc. rewrite <- Htables2 in Hentries.
  destruct (log_deletion_accepted env bq log_table_path row st2 table entries
              Hpath Htable Hacc Hentries) as (st4 & Hlog' & Htables).
  rewrite Hlog in Hlog'. injection Hlog' as -> ->.
  rewrite Hrow in Hrun. simpl in Hrun.
  refine (query_excludes_logged_sessions_aux c now path table (world st4) w' rows _
            (audit_record env row (length (trace (world st2)))) r Htable Hrun _ _ Hr _).
  - rewrite Htables. apply lookup_insert_eq.
  - apply elem_of_app. right. apply list_elem_of_here.
  - simpl. congruence.
Qed.


End Deleted.

(** *** Rendering does not depend on the session *)

Lemma assoc_keys (kw1 kw2 : list (string * string)) (name : string) :
  kw1.*1 = kw2.*1 →
  (assoc kw1 name = None ↔ assoc kw2 name = None).
Proof.
  revert kw2. induction kw1 as [|[k1 v1] kw1 IH]; intros [|[k2 v2] kw2] Hkeys;
    try discriminate; [reflexivity|].
  injection Hkeys as -> Hkeys. simpl.
  destruct (String.eqb k2 name); [split; discriminate|]. apply IH, Hkeys.
Qed.

Lemma lookup_field_alike (kw1 kw2 : list (string * string)) (name : string) :
  kw1.*1 = kw2.*1 →
  match lookup_field kw1 name, lookup_field kw2 name with
  | Ok _, Ok _ => True
  | Raise e1, Raise e2 => e1 = e2
  | _, _ => False
  end.
Proof.
  intros Hkeys. unfold lookup_field.
  destruct (String.eqb name EmptyString); [reflexivity|].
  destruct (all_digits name); [destruct (_ <? _)%Z; reflexivity|].
  pose proof (assoc_keys kw1 kw2 name Hkeys) as Hnone.
  destruct (assoc kw1 name), (assoc kw2 name); try exact I; try reflexivity;
    exfalso; destruct Hnone as [H1 H2]; try (discriminate (H1 eq_refl));
    discriminate (H2 eq_refl).
Qed.

(** The scanner's verdict depends on the template and on the names of the
    keyword arguments, not on their values. *)
Lemma scan_alike (kw1 kw2 : list (string * string)) (tpl : string) :
  kw1.*1 = kw2.*1 →
  ∀ (st : fmt_state) (out1 out2 : string),
    alike (scan kw1 st out1 tpl) (scan kw2 st out2 tpl).
Proof.
  intros Hkeys. induction tpl as [|c tpl IH]; intros st out1 out2.
  - destruct st; simpl; reflexivity || exact I.
  - assert (Hfield : ∀ name,
              alike
                (if Ascii.eqb c "}" then
                   match lookup_field kw1 name with
                   | Ok v => scan kw1 InText (out1 +:+ v) tpl
                   | Raise e => Failed e
                   end
                 else if Ascii.eqb c "{" then Failed (ValueError "unexpected '{' in field name")
                 else if leaves_fragment c then Complex
                 else scan kw1 (InField (name +:+ str1 c)) out1 tpl)
                (if Ascii.eqb c "}" then
                   match lookup_field kw2 name with
                   | Ok v => scan kw2 InText (out2 +:+ v) tpl
                   | Raise e => Failed e
                   end
                 else if Ascii.eqb c "{" then Failed (ValueError "unexpected '{' in field name")
                 else if leaves_fragment c then Complex
                 else scan kw2 (InField (name +:+ str1 c)) out2 tpl)).
    { intros name. destruct (Ascii.eqb c "}").
      - pose proof (lookup_field_alike kw1 kw2 name Hkeys) as Hlookup.
        destruct (lookup_field kw1 name), (lookup_field kw2 name);
          try contradiction; [apply IH | exact Hlookup].
      - destruct (Ascii.eqb c "{"); [reflexivity|].
        destruct (leaves_fragment c); [exact I | apply IH]. }
    destruct st as [| | |name]; cbn [scan].
    + destruct (Ascii.eqb c "{"); [apply IH|].
      destruct (Ascii.eqb c "}"); apply IH.
    + destruct (Ascii.eqb c "{"); [apply IH | apply Hfield].
    + destruct (Ascii.eqb c "}"); [apply IH | reflexivity].
    + apply Hfield.
Qed.

(** For a template of plain fields, the rendering is the scanner's. *)
Lemma render_prefix_plain (ext : string → list (string * string) → result string)
    (template : string) (row : Row) :
  plain_fields template →
  render_prefix ext template row =
    match scan (session_kwargs row) InText EmptyString template with
    | Rendered s => Ok s
    | Failed e => Raise e
    | Complex => Raise (ValueError EmptyString)
    end.
Proof.
  intros Hplain. unfold render_prefix, format. fold (session_kwargs row).
  pose proof (scan_alike (session_kwargs row)
                [("agent_id", EmptyString); ("date_str", EmptyString);
                 ("session_id", EmptyString)] template eq_refl InText EmptyString EmptyString)
    as Halike.
  unfold plain_fields in Hplain.
  destruct (scan (session_kwargs row) InText EmptyString template); try reflexivity.
  destruct (scan _ InText EmptyString template); try contradiction; congruence.
Qed.

Lemma render_prefix_alike (ext : string → list (string * string) → result string)
    (template : string) (r1 r2 : Row) :
  plain_fields template →
  match render_prefix ext template r1, render_prefix ext template r2 with
  | Ok _, Ok _ => True
  | Raise e1, Raise e2 => e1 = e2
  | _, _ => False
  end.
Proof.
  intros Hplain. rewrite !render_prefix_plain by exact Hplain.
  pose proof (scan_alike (session_kwargs r1) (session_kwargs r2) template eq_refl
                InText EmptyString EmptyString) as Halike.
  destruct (scan (session_kwargs r1) InText EmptyString template),
           (scan (session_kwargs r2) InText EmptyString template);
    try contradiction; try exact I; try reflexivity; exact Halike.
Qed.

(** X13. Whether a template of plain fields renders does not depend on
    the session: if rendering raises for one session it raises the same
    exception for every session, whatever the ids and the request time. *)
Theorem rendering_fails_for_all_sessions_or_none
    (ext : string → list (string * string) → result string)
    (template : string) (r1 r2 : Row) (e : exn) :
  plain_fields template →
  render_prefix ext template r1 = Raise e →
  render_prefix ext template r2 = Raise e.
Proof.
  intros Hplain Hraise.
  pose proof (render_prefix_alike ext template r1 r2 Hplain) as Halike.
  rewrite Hraise in Halike.
  destruct (render_prefix ext template r2); [contradiction | congruence].
Qed.

(** X14. With a bucket and a template of plain fields configured, a job
    whose query succeeds has two possible ends: the summary with status
    200, or, when the template does not render, the failure with status
    500 at the first session, before anything was listed, deleted or
    logged.  A bad template never stops a batch half way. *)
Theorem job_ends_with_summary_or_before_first_session
    (env : Env) (bq : BigQueryClient) (sc : StorageClient) (brand path : string)
    (log_table_path : option string) (bucket template : string)
    (w w1 : World) (rows : list Row) :
  bucket ≠ EmptyString →
  template ≠ EmptyString →
  plain_fields template →
  run_query bq (clock env (length (trace w))) (query path log_table_path) w = (w1, Ok rows) →
  (∃ st, run_job env bq sc brand path (Some bucket) log_table_path (Some template) w
         = (Returned (summary_message brand st) 200, world st)) ∨
  (∃ e, run_job env bq sc brand path (Some bucket) log_table_path (Some template) w
        = (Returned (job_failed_message brand e) 500, w1) ∧
        trace w1 = trace w ++ [EvQuery (sql_text (query path log_table_path))] ∧
        buckets w1 = buckets w ∧
        tables w1 = tables w).
Proof.
  intros Hbucket Htemplate Hplain Hquery.
  pose proof (run_query_world bq (clock env (length (trace w))) (query path log_table_path) w)
    as Hw1.
  rewrite Hquery in Hw1. simpl in Hw1.
  unfold run_job. rewrite Hquery.
  destruct rows as [|row rest]; [left; eexists; reflexivity|].
  destruct (render_prefix (format_ext env) template row) as [prefix|e] eqn:Hrender.
  - destruct (process_rows_total env bq sc log_table_path bucket template (row :: rest)
                Hbucket Htemplate) with (st := initial w1) as [st Hloop].
    { intros r _. pose proof (render_prefix_alike (format_ext env) template row r Hplain) as Ha.
      rewrite Hrender in Ha.
      destruct (render_prefix (format_ext env) template r); [eauto | contradiction]. }
    left. exists st. rewrite Hloop. reflexivity.
  - right. exists e. rewrite process_rows_cons.
    rewrite (process_row_render_raises env bq sc log_table_path bucket template
               Hbucket Htemplate row (initial w1) e Hrender).
    simpl. subst w1. repeat split; reflexivity.
Qed.

(** *** The checks before the job *)

Lemma brand_missing_object (payload : gmap string json) (v : json) :
  payload !! "brand" = Some v →
  brand_missing (Some (JObj payload)) = Ok false.
Proof.
  intros Hbrand. unfold brand_missing, truthy_json, py_in.
  assert (Hpayload : payload ≠ ∅).
  { intros ->. rewrite lookup_empty in Hbrand. discriminate. }
  rewrite (bool_decide_eq_false_2 _ Hpayload), Hbrand. reflexivity.
Qed.

Lemma brand_of_object (payload : gmap string json) (v : json) :
  payload !! "brand" = Some v →
  brand_of (Some (JObj payload)) = lower_method v.
Proof.
  intros Hbrand. unfold brand_of, getitem. rewrite Hbrand. reflexivity.
Qed.

(** X15. When either client could not be constructed, every request,
    whatever its payload, is answered with status 500 and nothing is
    done. *)
Theorem uninitialised_clients_answer_500 (env : Env) (request : Request) (w : World) :
  bq_client env = None ∨ storage_client env = None →
  fetch_redacted_transcripts_and_delete_audio env request w =
    (Returned "Cloud clients are not initialized. The function cannot proceed." 500, w).
Proof.
  intros Hdown. unfold fetch_redacted_transcripts_and_delete_audio.
  destruct Hdown as [-> | ->]; [reflexivity|].
  destruct (bq_client env); reflexivity.
Qed.


(** X17. A configured brand without a transcripts table path (absent or
    empty) is answered with status 500 before any query; nothing is
    done. *)
Theorem brand_without_transcripts_table (env : Env) (request : Request)
    (payload : gmap string json) (raw : string) (config : gmap string string) (w : World) :
  is_Some (bq_client env) →
  is_Some (storage_client env) →
  get_json request = Some (JObj payload) →
  payload !! "brand" = Some (JStr raw) →
  brand_configs env !! lower raw = Some config →
  config ≠ ∅ →
  truthy (config !! "TRANSCRIPTS_TABLE_PATH") = false →
  fetch_redacted_transcripts_and_delete_audio env request w =
    (Returned ("Configuration Error: 'TRANSCRIPTS_TABLE_PATH' not set for brand '"
               +:+ lower raw +:+ "'.") 500, w).
Proof.
  intros [bq Hbq] [sc Hsc] Hjson Hbrand Hconfig Hne Hpath.
  unfold fetch_redacted_transcripts_and_delete_audio.
  rewrite Hbq, Hsc, Hjson, (brand_missing_object payload _ Hbrand),
    (brand_of_object payload _ Hbrand).
  cbn [lower_method]. rewrite Hconfig, (bool_decide_eq_false_2 _ Hne).
  destruct (config !! "TRANSCRIPTS_TABLE_PATH") as [path|]; [|reflexivity].
  rewrite Hpath. reflexivity.
Qed.

(** X18. The brand is matched without regard to case: two requests whose
    brand names agree in lower case get the same response and have the
    same effects. *)
Theorem brand_is_case_insensitive (env : Env) (request1 request2 : Request)
    (payload1 payload2 : gmap string json) (raw1 raw2 : string) (w : World) :
  get_json request1 = Some (JObj payload1) →
  payload1 !! "brand" = Some (JStr raw1) →
  get_json request2 = Some (JObj payload2) →
  payload2 !! "brand" = Some (JStr raw2) →
  lower raw1 = lower raw2 →
  fetch_redacted_transcripts_and_delete_audio env request1 w =
  fetch_redacted_transcripts_and_delete_audio env request2 w.
Proof.
  intros Hjson1 Hbrand1 Hjson2 Hbrand2 Hlower.
  unfold fetch_redacted_transcripts_and_delete_audio.
  rewrite Hjson1, Hjson2, (brand_missing_object payload1 _ Hbrand1),
    (brand_missing_object payload2 _ Hbrand2), (brand_of_object payload1 _ Hbrand1),
    (brand_of_object payload2 _ Hbrand2).
  cbn [lower_method]. rewrite Hlower. reflexivity.
Qed.

(** X19. A payload whose [brand] is not a string makes [.lower()] raise:
    the exception leaves the handler, which returns no response of its
    own, and nothing is done. *)
Theorem non_string_brand_raises (env : Env) (request : Request)
    (payload : gmap string json) (v : json) (w : World) :
  is_Some (bq_client env) →
  is_Some (storage_client env) →
  get_json request = Some (JObj payload) →
  payload !! "brand" = Some v →
  (∀ s, v ≠ JStr s) →
  ∃ msg,
    fetch_redacted_transcripts_and_delete_audio env request w
    = (Unhandled (AttributeError msg), w).
Proof.
  intros [bq Hbq] [sc Hsc] Hjson Hbrand Hnot.
  unfold fetch_redacted_transcripts_and_delete_audio.
  rewrite Hbq, Hsc, Hjson, (brand_missing_object payload _ Hbrand),
    (brand_of_object payload _ Hbrand).
  destruct v as [|b|z|s|items|members]; simpl; try (eexists; reflexivity).
  exfalso. exact (Hnot s eq_refl).
Qed.

(** X20. When the query fails, the handler answers with status 500 and the
    error; the query is the only call it issued: nothing was listed,
    deleted or logged. *)
Theorem query_failure_fails_the_job (env : Env) (bq : BigQueryClient) (sc : StorageClient)
    (request : Request) (payload : gmap string json) (raw : string)
    (config : gmap string string) (path : string) (w w1 : World) (e : exn) :
  bq_client env = Some bq →
  storage_client env = Some sc →
  get_json request = Some (JObj payload) →
  payload !! "brand" = Some (JStr raw) →
  brand_configs env !! lower raw = Some config →
  config !! "TRANSCRIPTS_TABLE_PATH" = Some path →
  path ≠ EmptyString →
  run_query bq (clock env (length (trace w)))
    (query path (config !! "WIPEOUT_LOG_TABLE_PATH")) w = (w1, Raise e) →
  fetch_redacted_transcripts_and_delete_audio env request w =
    (Returned (job_failed_message (lower raw) e) 500, w1) ∧
  trace w1 = trace w ++ [EvQuery (sql_text (query path (config !! "WIPEOUT_LOG_TABLE_PATH")))] ∧
  buckets w1 = buckets w ∧
  tables w1 = tables w.
Proof.
  intros Hbq Hsc Hjson Hbrand Hconfig Hpath Hne Hquery.
  rewrite (handler_runs_job env bq sc request payload raw config path w
             Hbq Hsc Hjson Hbrand Hconfig Hpath Hne).
  unfold run_job. rewrite Hquery. split; [reflexivity|].
  pose proof (run_query_world bq (clock env (length (trace w)))
                (query path (config !! "WIPEOUT_LOG_TABLE_PATH")) w) as Hworld.
  rewrite Hquery in Hworld. simpl in Hworld. subst w1. repeat split; reflexivity.
Qed.

(** A successful common table expression computed the three segments of
    every turn of the window. *)
Lemma ConversationTurn_segments (now : Z) (turns : list Turn) :
  ∀ cts, ConversationTurn now turns = Ok cts →
    ∀ t rt, t ∈ turns → turn_request_time t = Some rt → (now - sixty_minutes ≤ rt)%Z →
      ∃ s, split_offset (conversation_name t) 7 = Ok s.
Proof.
  induction turns as [|t0 turns IH]; intros cts Hcts t rt Ht Hrt Hwin; [inversion Ht|].
  simpl in Hcts. apply elem_of_cons in Ht as [->|Ht].
  - rewrite Hrt in Hcts. apply Z.leb_le in Hwin. rewrite Hwin in Hcts.
    destruct (split_offset (conversation_name t0) 1); [|discriminate].
    destruct (split_offset (conversation_name t0) 5); [|discriminate].
    destruct (split_offset (conversation_name t0) 7) as [s|]; [eauto | discriminate].
  - assert (Hrest : ∃ cts', ConversationTurn now turns = Ok cts').
    { destruct (turn_request_time t0) as [rt0|]; [|eauto].
      destruct (now - sixty_minutes <=? rt0)%Z; [|eauto].
      destruct (split_offset (conversation_name t0) 1); [|discriminate].
      destruct (split_offset (conversation_name t0) 5); [|discriminate].
      destruct (split_offset (conversation_name t0) 7); [|discriminate].
      destruct (ConversationTurn now turns); [eauto | discriminate]. }
    destruct Hrest as [cts' Hcts']. exact (IH cts' Hcts' t rt Ht Hrt Hwin).
Qed.

(** X21. One redacted turn of the last 60 minutes whose conversation name
    has fewer than eight segments makes the whole query fail: no row is
    returned for any session. *)
Theorem short_conversation_name_fails_the_query (c : BigQueryClient) (now : Z) (q : Query)
    (w : World) (turns : list Turn) (t : Turn) (rt : Z) (name utterance : string) :
  tables w !! q_transcripts q = Some (Transcripts turns) →
  t ∈ turns →
  turn_request_time t = Some rt →
  (now - sixty_minutes ≤ rt)%Z →
  userUtterances t = Some utterance →
  contains "[redacted]" utterance = true →
  conversation_name t = Some name →
  length (SPLIT name) ≤ 7 →
  ∃ e, (run_query c now q w).2 = Raise e.
Proof.
  intros Hturns Ht Hrt Hwin _ _ Hname Hshort.
  destruct (run_query c now q w) as [w' [rows|e]] eqn:Hrun; [|eauto].
  exfalso.
  destruct (run_query_Ok c now q w w' rows Hrun) as (turns' & cts & log & Hturns' & Hcts & _).
  rewrite Hturns in Hturns'. injection Hturns' as <-.
  destruct (ConversationTurn_segments now turns cts Hcts t rt Ht Hrt Hwin) as [s Hs].
  rewrite Hname in Hs. unfold split_offset in Hs.
  destruct (nth_error (SPLIT name) 7) eqn:Hnth; [|discriminate].
  assert (7 < length (SPLIT name)) by (apply nth_error_Some; congruence). lia.
Qed.

(* ===================================================================== *)
(** ** The further properties on the small deployment *)
(* ===================================================================== *)

Section ExtraInstances.
Import Demo Scenario.

(** X3 on a world with a second bucket: the job empties the brand's
    prefixes and leaves the other bucket alone. *)
Lemma job_leaves_other_buckets_witness :
  "invoices" ≠ audio_bucket ∧
  buckets (run_job env_ok bq_ok sc_ok "mcdonalds" transcripts_table (Some audio_bucket)
             (Some log_table) (Some path_template) world_two_buckets).2 !! "invoices"
  = Some {[ "2024/03.pdf" ]}.
Proof.
  assert (Hne : "invoices" ≠ audio_bucket) by discriminate.
  split; [exact Hne|].
  rewrite (job_leaves_other_buckets env_ok bq_ok sc_ok "mcdonalds" transcripts_table
             (Some log_table) audio_bucket (Some path_template) world_two_buckets
             "invoices" Hne).
  reflexivity.
Defined.

(** X4 with the storage client that cannot delete the second recording of
    S2: the first recording of S1 is gone after the job, and it lies under
    the prefix of a session the query returned. *)
Lemma removed_objects_match_a_session_witness :
  buckets (run_job env_flaky bq_ok sc_flaky "mcdonalds" transcripts_table (Some audio_bucket)
             (Some log_table) (Some path_template) world0).2 !! audio_bucket
  = Some {[ "mcdonalds-ttm/A1/2024-03-05/S2/b.wav" ]} ∧
  ∃ row template prefix,
    row ∈ all_rows ∧ Some path_template = Some template ∧
    render_prefix (format_ext env_flaky) template row = Ok prefix ∧
    String.prefix prefix "mcdonalds-ttm/A1/2024-03-05/S1/a.wav" = true.
Proof.
  assert (Hafter : buckets (run_job env_flaky bq_ok sc_flaky "mcdonalds" transcripts_table
                              (Some audio_bucket) (Some log_table) (Some path_template)
                              world0).2 !! audio_bucket
                   = Some {[ "mcdonalds-ttm/A1/2024-03-05/S2/b.wav" ]})
    by (vm_compute; reflexivity).
  split; [exact Hafter|].
  apply (removed_objects_match_a_session env_flaky bq_ok sc_flaky "mcdonalds" transcripts_table
           (Some log_table) audio_bucket (Some path_template) world0 queried all_rows
           recordings {[ "mcdonalds-ttm/A1/2024-03-05/S2/b.wav" ]}
           "mcdonalds-ttm/A1/2024-03-05/S1/a.wav").
  - vm_compute. reflexivity.
  - reflexivity.
  - exact Hafter.
  - refine (bool_decide_unpack _ _). vm_compute. exact I.
  - refine (bool_decide_unpack _ _). vm_compute. exact I.
Defined.

(** X5 on the same run: four files are reported, and the bucket went from
    five objects to one. *)
Lemma summary_files_are_objects_removed_witness :
  let result := run_job env_flaky bq_ok sc_flaky "mcdonalds" transcripts_table
                  (Some audio_bucket) (Some log_table) (Some path_template) world0 in
  result.1 = Returned flaky_summary 200 ∧
  bucket_size world0 audio_bucket = 5 ∧
  ∃ st,
    flaky_summary = summary_message "mcdonalds" st ∧
    deleted_file_count st + bucket_size result.2 audio_bucket = bucket_size world0 audio_bucket.
Proof.
  intros result.
  assert (Hjob : result = (Returned flaky_summary 200, result.2)) by (vm_compute; reflexivity).
  split; [rewrite Hjob; reflexivity|]. split; [vm_compute; reflexivity|].
  exact (summary_files_are_objects_removed env_flaky bq_ok sc_flaky "mcdonalds"
           transcripts_table (Some log_table) audio_bucket (Some path_template)
           world0 result.2 flaky_summary Hjob).
Defined.

(** X6 on the same run. *)
Lemma summary_counters_bounds_witness :
  let result := run_job env_flaky bq_ok sc_flaky "mcdonalds" transcripts_table
                  (Some audio_bucket) (Some log_table) (Some path_template) world0 in
  ∃ rows st,
    run_query bq_ok (clock env_flaky (length (trace world0)))
      (query transcripts_table (Some log_table)) world0
      = (record_call (EvQuery (sql_text (query transcripts_table (Some log_table)))) world0,
         Ok rows) ∧
    flaky_summary = summary_message "mcdonalds" st ∧
    scanned_session_count st = length rows ∧
    deleted_folder_count st ≤ deleted_file_count st ∧
    deleted_folder_count st ≤ length rows ∧
    error_count st ≤ length rows.
Proof.
  intros result.
  assert (Hjob : result = (Returned flaky_summary 200, result.2)) by (vm_compute; reflexivity).
  exact (summary_counters_bounds env_flaky bq_ok sc_flaky "mcdonalds"
           transcripts_table (Some log_table) audio_bucket (Some path_template)
           world0 result.2 flaky_summary Hjob).
Defined.

(** X7 on the batch of the deployment, from an empty log table. *)
Lemma audit_rows_belong_to_deleted_sessions_witness :
  let stf := (process_rows env_ok bq_ok sc_ok (Some audio_bucket) (Some log_table)
                (Some path_template) all_rows (initial world0)).1 in
  ∃ more,
    tables (world stf) !! log_table = Some (WipeoutLog ([] ++ more)) ∧
    deleted_folder_count (initial world0) + length more ≤ deleted_folder_count stf ∧
    ∀ l, l ∈ more →
      ∃ row, row ∈ all_rows ∧
             log_session_id l = Some (session_id row) ∧
             request_timestamp l = isoformat (datetime_of_micros true (request_time row)).
Proof.
  apply (audit_rows_belong_to_deleted_sessions env_ok bq_ok sc_ok audio_bucket log_table
           (Some path_template) all_rows (initial world0) []).
  vm_compute. reflexivity.
Defined.

(** X8 after an earlier run logged S1: the query returns S2 and S4 only. *)
Lemma query_excludes_logged_sessions_witness :
  (run_query bq_ok (wall_clock 0) (query transcripts_table (Some log_table)) world_logged).2
  = Ok [row_S2; row_S4] ∧
  log_session_id S1_logged ≠ Some (session_id row_S2).
Proof.
  assert (Hrun : run_query bq_ok (wall_clock 0) (query transcripts_table (Some log_table))
                   world_logged
                 = (record_call (EvQuery (sql_text the_query)) world_logged,
                    Ok [row_S2; row_S4])) by (vm_compute; reflexivity).
  split; [rewrite Hrun; reflexivity|].
  apply (query_excludes_logged_sessions bq_ok (wall_clock 0) transcripts_table log_table
           world_logged _ [row_S2; row_S4] [S1_logged] S1_logged row_S2 log_table_set Hrun).
  - reflexivity.
  - apply list_elem_of_here.
  - apply list_elem_of_here.
Defined.

(** X9 on the first row of the deployment's query. *)
Lemma query_rows_come_from_redacted_turns_witness :
  ∃ turns t name utterance,
    tables world0 !! q_transcripts the_query = Some (Transcripts turns) ∧
    t ∈ turns ∧
    turn_request_time t = Some (request_time row_S1) ∧
    (wall_clock 0 - sixty_minutes ≤ request_time row_S1)%Z ∧
    userUtterances t = Some utterance ∧
    contains "[redacted]" utterance = true ∧
    conversation_name t = Some name ∧
    nth_error (SPLIT name) 1 = project_id row_S1 ∧
    nth_error (SPLIT name) 5 = Some (agent_id row_S1) ∧
    nth_error (SPLIT name) 7 = Some (session_id row_S1).
Proof.
  apply (query_rows_come_from_redacted_turns bq_ok (wall_clock 0) the_query world0 queried
           all_rows row_S1).
  - vm_compute. reflexivity.
  - apply list_elem_of_here.
Defined.

(** X10 on the turn of session S2. *)
Lemma query_returns_every_redacted_turn_witness :
  row_S2 ∈ all_rows.
Proof.
  apply (query_returns_every_redacted_turn bq_ok (wall_clock 0) the_query world0 queried
           all_rows turns (turn (ten_o_clock + seconds 120) "S2" "it is [redacted]")
           (ten_o_clock + seconds 120)
           "projects/p1/locations/global/agents/A1/sessions/S2" "it is [redacted]" "A1" "S2").
  - vm_compute. reflexivity.
  - reflexivity.
  - apply list_elem_of_further, list_elem_of_further, list_elem_of_here.
  - reflexivity.
  - vm_compute. discriminate.
  - reflexivity.
  - vm_compute. reflexivity.
  - reflexivity.
  - vm_compute. reflexivity.
  - vm_compute. reflexivity.
  - intros table entries l Htable Hentries Hl.
    injection Htable as <-. vm_compute in Hentries. injection Hentries as <-. inversion Hl.
Defined.

(** X11 on session S1: once it is deleted and logged, the query returns
    S2 and S4 only. *)
Lemma logged_session_is_not_selected_again_witness :
  let st1 := (process_row env_ok bq_ok sc_ok (Some audio_bucket) (Some log_table)
                (Some path_template) row_S1 (initial world0)).1 in
  (run_query bq_ok (wall_clock 4) (query transcripts_table (Some log_table)) (world st1)).2
  = Ok [row_S2; row_S4] ∧
  session_id row_S2 ≠ session_id row_S1.
Proof.
  intros st1.
  assert (Hrun : run_query bq_ok (wall_clock 4) (query transcripts_table (Some log_table))
                   (world st1)
                 = (record_call (EvQuery (sql_text the_query)) (world st1),
                    Ok [row_S2; row_S4])) by (vm_compute; reflexivity).
  split; [rewrite Hrun; reflexivity|].
  apply (logged_session_is_not_selected_again env_ok bq_ok sc_ok (Some log_table)
           audio_bucket path_template audio_bucket_set path_template_set
           row_S1 (initial world0) S1_prefix
           (record_call (EvListBlobs audio_bucket S1_prefix) world0) S1_blobs
           log_table [] bq_ok (wall_clock 4) transcripts_table
           (record_call (EvQuery (sql_text the_query)) (world st1)) [row_S2; row_S4] row_S2).
  - vm_compute. reflexivity.
  - vm_compute. reflexivity.
  - discriminate.
  - intros b _. reflexivity.
  - reflexivity.
  - exact log_table_set.
  - reflexivity.
  - reflexivity.
  - exact Hrun.
  - apply list_elem_of_here.
Defined.


Lemma bad_template_plain : plain_fields bad_template.
Proof. unfold plain_fields. vm_compute. discriminate. Qed.

Lemma path_template_plain : plain_fields path_template.
Proof. unfold plain_fields. vm_compute. discriminate. Qed.

(** X13 on a template with a placeholder the handler does not supply: it
    fails for S2 as it fails for S1. *)
Lemma rendering_fails_for_all_sessions_or_none_witness :
  render_prefix no_ext bad_template row_S1 = Raise (KeyError "agent") ∧
  render_prefix no_ext bad_template row_S2 = Raise (KeyError "agent").
Proof.
  assert (Hfirst : render_prefix no_ext bad_template row_S1 = Raise (KeyError "agent"))
    by (vm_compute; reflexivity).
  split; [exact Hfirst|].
  exact (rendering_fails_for_all_sessions_or_none no_ext bad_template row_S1 row_S2
           (KeyError "agent") bad_template_plain Hfirst).
Defined.

(** X14 on the deployment. *)
Lemma job_ends_with_summary_or_before_first_session_witness :
  (∃ st, run_job env_ok bq_ok sc_ok "mcdonalds" transcripts_table (Some audio_bucket)
           (Some log_table) (Some path_template) world0
         = (Returned (summary_message "mcdonalds" st) 200, world st)) ∨
  (∃ e, run_job env_ok bq_ok sc_ok "mcdonalds" transcripts_table (Some audio_bucket)
          (Some log_table) (Some path_template) world0
        = (Returned (job_failed_message "mcdonalds" e) 500, queried) ∧
        trace queried = trace world0 ++ [EvQuery (sql_text (query transcripts_table (Some log_table)))] ∧
        buckets queried = buckets world0 ∧
        tables queried = tables world0).
Proof.
  apply (job_ends_with_summary_or_before_first_session env_ok bq_ok sc_ok "mcdonalds"
           transcripts_table (Some log_table) audio_bucket path_template world0 queried
           all_rows audio_bucket_set path_template_set path_template_plain).
  vm_compute. reflexivity.
Defined.

(** X15 on a deployment whose clients could not be constructed, with a
    well-formed request. *)
Lemma uninitialised_clients_answer_500_witness :
  fetch_redacted_transcripts_and_delete_audio env_down (request_for "mcdonalds") world0 =
    (Returned "Cloud clients are not initialized. The function cannot proceed." 500, world0).
Proof.
  apply (uninitialised_clients_answer_500 env_down (request_for "mcdonalds") world0).
  left. reflexivity.
Defined.


(** X17 on a brand configured without a transcripts table. *)
Lemma brand_without_transcripts_table_witness :
  fetch_redacted_transcripts_and_delete_audio env_no_table (request_for "Arbys") world0 =
    (Returned "Configuration Error: 'TRANSCRIPTS_TABLE_PATH' not set for brand 'arbys'."
       500, world0).
Proof.
  assert (Hmessage :
            "Configuration Error: 'TRANSCRIPTS_TABLE_PATH' not set for brand '"
            +:+ lower "Arbys" +:+ "'."
            = "Configuration Error: 'TRANSCRIPTS_TABLE_PATH' not set for brand 'arbys'.")
    by (vm_compute; reflexivity).
  rewrite <- Hmessage.
  apply (brand_without_transcripts_table env_no_table (request_for "Arbys")
           {[ "brand" := JStr "Arbys" ]} "Arbys" NO_TABLE_CONFIG world0).
  - eexists. reflexivity.
  - eexists. reflexivity.
  - reflexivity.
  - reflexivity.
  - vm_compute. reflexivity.
  - intros Hempty. apply (f_equal (λ m : gmap string string, m !! "BUCKET_NAME")) in Hempty.
    vm_compute in Hempty. discriminate.
  - vm_compute. reflexivity.
Defined.

(** X18 on two spellings of the deployment's brand. *)
Lemma brand_is_case_insensitive_witness :
  fetch_redacted_transcripts_and_delete_audio env_ok (request_for "McDonalds") world0 =
  fetch_redacted_transcripts_and_delete_audio env_ok (request_for "MCDONALDS") world0.
Proof.
  apply (brand_is_case_insensitive env_ok (request_for "McDonalds") (request_for "MCDONALDS")
           {[ "brand" := JStr "McDonalds" ]} {[ "brand" := JStr "MCDONALDS" ]}
           "McDonalds" "MCDONALDS" world0); reflexivity.
Defined.

(** X19 on a payload whose brand is a number. *)
Lemma non_string_brand_raises_witness :
  ∃ msg,
    fetch_redacted_transcripts_and_delete_audio env_ok
      {| get_json := Some (JObj {[ "brand" := JNum 5 ]}) |} world0
    = (Unhandled (AttributeError msg), world0).
Proof.
  apply (non_string_brand_raises env_ok {| get_json := Some (JObj {[ "brand" := JNum 5 ]}) |}
           {[ "brand" := JNum 5 ]} (JNum 5) world0).
  - eexists. reflexivity.
  - eexists. reflexivity.
  - reflexivity.
  - reflexivity.
  - intros s. discriminate.
Defined.

(** X20 on a project without the transcripts table. *)
Lemma query_failure_fails_the_job_witness :
  let w1 := record_call (EvQuery (sql_text the_query)) world_no_tables in
  fetch_redacted_transcripts_and_delete_audio env_ok (request_for "mcdonalds") world_no_tables
  = (Returned (job_failed_message "mcdonalds" (NotFound ("Table " +:+ transcripts_table))) 500,
     w1) ∧
  trace w1 = [EvQuery (sql_text the_query)] ∧
  buckets w1 = buckets world_no_tables ∧
  tables w1 = tables world_no_tables.
Proof.
  intros w1.
  apply (query_failure_fails_the_job env_ok bq_ok sc_ok (request_for "mcdonalds")
           {[ "brand" := JStr "mcdonalds" ]} "mcdonalds" MCDONALDS_CONFIG transcripts_table
           world_no_tables w1 (NotFound ("Table " +:+ transcripts_table))).
  - reflexivity.
  - reflexivity.
  - reflexivity.
  - reflexivity.
  - vm_compute. reflexivity.
  - vm_compute. reflexivity.
  - exact transcripts_table_set.
  - vm_compute. reflexivity.
Defined.

(** X21 on a transcripts table with one turn whose name is too short. *)
Lemma short_conversation_name_fails_the_query_witness :
  length (SPLIT "projects/p1/sessions/S9") = 4 ∧
  ∃ e, (run_query bq_ok (wall_clock 0) the_query world_short_name).2 = Raise e.
Proof.
  split; [vm_compute; reflexivity|].
  apply (short_conversation_name_fails_the_query bq_ok (wall_clock 0) the_query
           world_short_name (turns ++ [short_turn]) short_turn
           (ten_o_clock + seconds 300) "projects/p1/sessions/S9" "[redacted]").
  - reflexivity.
  - apply elem_of_app. right. apply list_elem_of_here.
  - reflexivity.
  - vm_compute. discriminate.
  - reflexivity.
  - vm_compute. reflexivity.
  - reflexivity.
  - vm_compute. lia.
Defined.

End ExtraInstances.
